(** * certgen: root CA / leaf certificate issuance and encoding

    A shallow embedding of the Go packages [config], [certificate],
    [encoding] and [fileio] of the certificate generator, and the
    properties of its specification that they decide.

    The Go standard library ([crypto/rsa], [crypto/x509], [encoding/pem],
    [crypto/rand]) is not part of the repository.  It enters the development
    as an interface ([CryptoLib]) together with the part of its contract the
    repository relies on ([CryptoLaws]); a reference implementation of the
    interface shows that the contract can be met. *)

From Stdlib Require Import ZArith Lia List Bool.
From Stdlib.Strings Require Import String Ascii Byte.
From Stdlib Require Import DecimalString.
Import ListNotations.

Local Open Scope string_scope.
Local Open Scope Z_scope.

(** ** Go values: byte slices, errors, results *)

Definition bytes := list byte.

(** An [error] value is represented by its message. *)
Definition error := string.

(** The three ways a Go call ends: a value with a nil error, a non-nil
    error, or a run-time panic. *)
Inductive outcome (A : Type) : Type :=
| Ok (a : A)
| Err (e : error)
| Panic (msg : string).

Arguments Ok {A} a.
Arguments Err {A} e.
Arguments Panic {A} msg.

Definition is_ok {A} (o : outcome A) : bool :=
  match o with Ok _ => true | _ => false end.

Definition is_err {A} (o : outcome A) : bool :=
  match o with Err _ => true | _ => false end.

Definition is_panic {A} (o : outcome A) : bool :=
  match o with Panic _ => true | _ => false end.

(** [fmt.Errorf("<prefix>%w", err)] *)
Definition Errorf_w (prefix : string) (err : error) : error := prefix ++ err.

Definition nil_dereference : string :=
  "runtime error: invalid memory address or nil pointer dereference".

(** Signed 64-bit integers ([int], [int64], [time.Duration]) wrap around. *)
Definition wrap64 (z : Z) : Z := (z + 2 ^ 63) mod 2 ^ 64 - 2 ^ 63.

Definition mul64 (a b : Z) : Z := wrap64 (a * b).

Definition int64_range (z : Z) : Prop := - 2 ^ 63 <= z < 2 ^ 63.

(** ** Package [time] *)

Module time.

(** An instant, in nanoseconds since the Unix epoch. *)
Definition Time := Z.

(** [time.Duration]: an int64 count of nanoseconds. *)
Definition Duration := Z.

Definition Nanosecond : Duration := 1.
Definition Second : Duration := 1000000000.
Definition Minute : Duration := 60 * Second.
Definition Hour : Duration := 60 * Minute.

Definition maxDuration : Duration := 2 ^ 63 - 1.
Definition minDuration : Duration := - 2 ^ 63.

Definition Add (t : Time) (d : Duration) : Time := t + d.

(** [t.Sub(u)] saturates at the ends of the int64 range. *)
Definition Sub (t u : Time) : Duration :=
  let d := t - u in
  if maxDuration <? d then maxDuration
  else if d <? minDuration then minDuration
  else d.

Definition Equal (t u : Time) : bool := t =? u.

End time.

(** ** Package [strings] *)

Module strings.

(** [strings.Contains(s, substr)]: [substr] occurs at some position of [s]. *)
Fixpoint Contains (s substr : string) : bool :=
  prefix substr s ||
  match s with
  | EmptyString => false
  | String _ s' => Contains s' substr
  end.

(** [strings.HasSuffix(s, suffix)]: some tail of [s] is [suffix]. *)
Fixpoint HasSuffix (s suffix : string) : bool :=
  (s =? suffix)%string ||
  match s with
  | EmptyString => false
  | String _ s' => HasSuffix s' suffix
  end.

(** [strings.Split(s, sep)[0]] for the one-character separator [sep]. *)
Fixpoint Split_first (s : string) (sep : ascii) : string :=
  match s with
  | EmptyString => EmptyString
  | String c s' =>
      if Ascii.eqb c sep then EmptyString else String c (Split_first s' sep)
  end.

End strings.

(** ** Package [encoding/base64] *)

Module base64.

Definition encodeStd : string :=
  "ABCDEFGHIJKLMNOPQRSTUVWXYZabcdefghijklmnopqrstuvwxyz0123456789+/".

Definition digit (n : Z) : ascii :=
  match get (Z.to_nat n) encodeStd with
  | Some c => c
  | None => "="%char
  end.

Definition b2z (b : byte) : Z := Z.of_N (Byte.to_N b).

(** [base64.StdEncoding.EncodeToString]: three bytes give four digits;
    a last group of one or two bytes is padded with [=]. *)
Fixpoint EncodeToString (src : bytes) : string :=
  match src with
  | [] => EmptyString
  | [a] =>
      let v := Z.shiftl (b2z a) 16 in
      String (digit (Z.land (Z.shiftr v 18) 63))
        (String (digit (Z.land (Z.shiftr v 12) 63)) "==")
  | [a; b] =>
      let v := Z.lor (Z.shiftl (b2z a) 16) (Z.shiftl (b2z b) 8) in
      String (digit (Z.land (Z.shiftr v 18) 63))
        (String (digit (Z.land (Z.shiftr v 12) 63))
           (String (digit (Z.land (Z.shiftr v 6) 63)) "="))
  | a :: b :: c :: rest =>
      let v := Z.lor (Z.lor (Z.shiftl (b2z a) 16) (Z.shiftl (b2z b) 8)) (b2z c) in
      String (digit (Z.land (Z.shiftr v 18) 63))
        (String (digit (Z.land (Z.shiftr v 12) 63))
           (String (digit (Z.land (Z.shiftr v 6) 63))
              (String (digit (Z.land v 63)) (EncodeToString rest))))
  end.

End base64.

(** ** Package [encoding/pem] *)

Module pem.

Record Block : Type := mkBlock {
  Type_ : string;
  Headers : list (string * string);
  Bytes : bytes
}.

End pem.

(** ** Packages [crypto/x509/pkix] and [crypto/x509]: data *)

Module pkix.

Record Name : Type := mkName {
  Country : list string;
  Organization : list string;
  OrganizationalUnit : list string;
  Locality : list string;
  Province : list string;
  CommonName : string
}.

Definition zero : Name := mkName [] [] [] [] [] "".

End pkix.

Module x509.

(** [x509.KeyUsage] is a bit set. *)
Definition KeyUsage := Z.

Definition KeyUsageDigitalSignature : KeyUsage := Z.shiftl 1 0.
Definition KeyUsageContentCommitment : KeyUsage := Z.shiftl 1 1.
Definition KeyUsageKeyEncipherment : KeyUsage := Z.shiftl 1 2.
Definition KeyUsageDataEncipherment : KeyUsage := Z.shiftl 1 3.
Definition KeyUsageKeyAgreement : KeyUsage := Z.shiftl 1 4.
Definition KeyUsageCertSign : KeyUsage := Z.shiftl 1 5.
Definition KeyUsageCRLSign : KeyUsage := Z.shiftl 1 6.
Definition KeyUsageEncipherOnly : KeyUsage := Z.shiftl 1 7.
Definition KeyUsageDecipherOnly : KeyUsage := Z.shiftl 1 8.

Inductive ExtKeyUsage : Type :=
| ExtKeyUsageAny
| ExtKeyUsageServerAuth
| ExtKeyUsageClientAuth
| ExtKeyUsageCodeSigning
| ExtKeyUsageEmailProtection
| ExtKeyUsageIPSECEndSystem
| ExtKeyUsageIPSECTunnel
| ExtKeyUsageIPSECUser
| ExtKeyUsageTimeStamping
| ExtKeyUsageOCSPSigning
| ExtKeyUsageMicrosoftServerGatedCrypto
| ExtKeyUsageNetscapeServerGatedCrypto
| ExtKeyUsageMicrosoftCommercialCodeSigning
| ExtKeyUsageMicrosoftKernelCodeSigning.

Inductive PublicKeyAlgorithm : Type :=
| UnknownPublicKeyAlgorithm
| RSA
| DSA
| ECDSA
| Ed25519.

Definition SignatureAlgorithm := Z.

(** The fields of [x509.Certificate] the generator sets or its callers
    read; [PK] is the type of public keys.  A template is a value of the
    same type whose other fields hold Go's zero values. *)
Record Certificate (PK : Type) : Type := mkCertificate {
  Raw : bytes;
  RawTBSCertificate : bytes;
  Signature : bytes;
  SignatureAlgorithm_ : SignatureAlgorithm;
  PublicKeyAlgorithm_ : PublicKeyAlgorithm;
  PublicKey : option PK;
  Version : Z;
  SerialNumber : Z;
  Issuer : pkix.Name;
  Subject : pkix.Name;
  NotBefore : time.Time;
  NotAfter : time.Time;
  KeyUsage_ : KeyUsage;
  ExtKeyUsage_ : list ExtKeyUsage;
  BasicConstraintsValid : bool;
  IsCA : bool;
  DNSNames : list string
}.

Arguments mkCertificate {PK}.
Arguments Raw {PK}.
Arguments RawTBSCertificate {PK}.
Arguments Signature {PK}.
Arguments SignatureAlgorithm_ {PK}.
Arguments PublicKeyAlgorithm_ {PK}.
Arguments PublicKey {PK}.
Arguments Version {PK}.
Arguments SerialNumber {PK}.
Arguments Issuer {PK}.
Arguments Subject {PK}.
Arguments NotBefore {PK}.
Arguments NotAfter {PK}.
Arguments KeyUsage_ {PK}.
Arguments ExtKeyUsage_ {PK}.
Arguments BasicConstraintsValid {PK}.
Arguments IsCA {PK}.
Arguments DNSNames {PK}.

(** What [ParsePKCS8PrivateKey] returns: an [any] holding an RSA key or a
    key of another algorithm. *)
Inductive AnyKey (K : Type) : Type :=
| KeyRSA (k : K)
| KeyOther.

Arguments KeyRSA {K} k.
Arguments KeyOther {K}.

(** Certificates carry times as UTCTime or GeneralizedTime, whole seconds:
    the instant a parsed certificate holds for an instant of a template. *)
Definition asn1_time (t : time.Time) : time.Time :=
  (t / time.Second) * time.Second.

(** Every byte of an IA5String is below 128. *)
Definition isIA5String (s : string) : bool :=
  forallb (fun b => Z.of_N (Byte.to_N b) <? 128) (list_byte_of_string s).

(** The key-usage extension carries the nine defined bits. *)
Definition asn1_keyUsage (ku : KeyUsage) : KeyUsage := Z.land ku 511.

End x509.

(** ** The standard library's cryptography, as an interface

    [Rand] is the state of the process-wide entropy source [rand.Reader];
    every operation that draws from it returns the state it leaves.
    [Public k] is [&k.PublicKey], [BitLen p] is [p.N.BitLen()] and
    [rsa_Validate k] tells whether [k.Validate()] returns nil. *)

Class CryptoLib : Type := {
  Rand : Type;
  PrivateKey : Type;
  PublicKey : Type;
  Public : PrivateKey -> PublicKey;
  BitLen : PublicKey -> Z;
  rsa_Validate : PrivateKey -> bool;
  rsa_GenerateKey : Rand -> Z -> outcome PrivateKey * Rand;
  rand_Int : Rand -> Z -> outcome Z * Rand;
  x509_CreateCertificate :
    Rand -> x509.Certificate PublicKey -> option (x509.Certificate PublicKey) ->
    PublicKey -> option PrivateKey -> outcome bytes * Rand;
  x509_ParseCertificate : bytes -> outcome (x509.Certificate PublicKey);
  x509_checkSignature :
    x509.SignatureAlgorithm -> bytes -> bytes -> option PublicKey -> option error;
  x509_MarshalPKCS8PrivateKey : PrivateKey -> outcome bytes;
  x509_ParsePKCS8PrivateKey : bytes -> outcome (x509.AnyKey PrivateKey);
  pem_EncodeToMemory : pem.Block -> bytes;
  pem_Decode : bytes -> option pem.Block * bytes
}.

(** ** The world a call runs in, and the monad of calls

    A call sees the entropy source and the wall clock.  The clock is an
    oracle: [clock w n] is the instant the [n]-th reading returns. *)

Record WorldOf (R : Type) : Type := mkWorld {
  rng : R;
  ticks : nat;
  clock : nat -> time.Time
}.

Arguments mkWorld {R}.
Arguments rng {R}.
Arguments ticks {R}.
Arguments clock {R}.

Section Runtime.

Context {L : CryptoLib}.

Definition World : Type := WorldOf Rand.

Definition M (A : Type) : Type := World -> outcome A * World.

Definition ret {A} (a : A) : M A := fun w => (Ok a, w).

Definition bind {A B} (m : M A) (k : A -> M B) : M B :=
  fun w =>
    match m w with
    | (Ok a, w') => k a w'
    | (Err e, w') => (Err e, w')
    | (Panic p, w') => (Panic p, w')
    end.

Definition fail {A} (e : error) : M A := fun w => (Err e, w).

Definition panic {A} (msg : string) : M A := fun w => (Panic msg, w).

Definition lift {A} (o : outcome A) : M A := fun w => (o, w).

(** [if err != nil { return ..., fmt.Errorf("<prefix>%w", err) }] *)
Definition wrap {A} (prefix : string) (m : M A) : M A :=
  fun w =>
    match m w with
    | (Err e, w') => (Err (Errorf_w prefix e), w')
    | r => r
    end.

(** [time.Now()] *)
Definition time_Now : M time.Time :=
  fun w => (Ok (clock w (ticks w)), mkWorld (rng w) (S (ticks w)) (clock w)).

(** A call that draws from [rand.Reader]. *)
Definition with_rand {A} (f : Rand -> outcome A * Rand) : M A :=
  fun w => let (o, r) := f (rng w) in (o, mkWorld r (ticks w) (clock w)).

(** [Certificate.CheckSignatureFrom]: the issuer must be allowed to
    sign certificates, then the signature is checked under its key. *)
Definition CheckSignatureFrom (c parent : x509.Certificate PublicKey) : option error :=
  if (x509.Version parent =? 3) && negb (x509.BasicConstraintsValid parent)
     || x509.BasicConstraintsValid parent && negb (x509.IsCA parent)
  then Some "x509: invalid signature: parent certificate cannot sign this kind of certificate"
  else if negb (x509.KeyUsage_ parent =? 0)
          && (Z.land (x509.KeyUsage_ parent) x509.KeyUsageCertSign =? 0)
  then Some "x509: invalid signature: parent certificate cannot sign this kind of certificate"
  else match x509.PublicKeyAlgorithm_ parent with
       | x509.UnknownPublicKeyAlgorithm =>
           Some "x509: cannot verify signature: algorithm unimplemented"
       | _ =>
           x509_checkSignature (x509.SignatureAlgorithm_ c) (x509.RawTBSCertificate c)
             (x509.Signature c) (x509.PublicKey parent)
       end.

End Runtime.

Notation "x <- m ;; k" := (bind m (fun x => k))
  (at level 61, m at next level, right associativity).

(** Results without effects. *)
Definition obind {A B} (o : outcome A) (k : A -> outcome B) : outcome B :=
  match o with
  | Ok a => k a
  | Err e => Err e
  | Panic p => Panic p
  end.

Definition owrap {A} (prefix : string) (o : outcome A) : outcome A :=
  match o with
  | Err e => Err (Errorf_w prefix e)
  | r => r
  end.

(** ** Package [config] *)

Module config.

Record CertificateConfig : Type := mkCertificateConfig {
  Domain : string;
  Country : string;
  State : string;
  Locality : string;
  Organization : string;
  OrganizationalUnit : string;
  ValidityDays : Z;
  KeySize : Z;
  PKCS12Password : string
}.

Record Subject : Type := mkSubject {
  s_Country : string;
  s_State : string;
  s_Locality : string;
  s_Organization : string;
  s_OrganizationalUnit : string;
  s_CommonName : string
}.

Record CertificateOptions : Type := mkCertificateOptions {
  o_Subject : Subject;
  DNSNames : list string;
  ValidFrom : time.Time;
  ValidFor : time.Duration;
  IsCA : bool;
  KeyUsage : list string;
  ExtKeyUsage : list string
}.

Definition NewCertificateConfig : CertificateConfig :=
  {| Domain := "";
     Country := "SG";
     State := "Singapore";
     Locality := "Singapore";
     Organization := "Erfi Corp";
     OrganizationalUnit := "Erfi Proxy";
     ValidityDays := 3650;
     KeySize := 4096;
     PKCS12Password := "yourPKCS12Password" |}.

Section WithLib.

Context {L : CryptoLib}.

(** Both methods have a pointer receiver and build one composite literal
    from its fields and [time.Now()].  The language does not order the
    field reads against that call; the compiler makes the call first, so
    on a nil receiver the clock is read and then the dereference panics.
    Nothing below relies on the clock in that case. *)
Definition GetRootCAOptions (c : option CertificateConfig) : M CertificateOptions :=
  match c with
  | None => _ <- time_Now ;; panic nil_dereference
  | Some c =>
      now <- time_Now ;;
      ret {| o_Subject :=
               {| s_Country := Country c;
                  s_State := State c;
                  s_Locality := Locality c;
                  s_Organization := Organization c;
                  s_OrganizationalUnit := OrganizationalUnit c;
                  s_CommonName := Domain c |};
             DNSNames := [Domain c];
             ValidFrom := now;
             ValidFor := 1024 * 24 * time.Hour;
             IsCA := true;
             KeyUsage := ["keyCertSign"; "cRLSign"];
             ExtKeyUsage := [] |}
  end.

Definition GetLeafCertOptions (c : option CertificateConfig) : M CertificateOptions :=
  match c with
  | None => _ <- time_Now ;; panic nil_dereference
  | Some c =>
      now <- time_Now ;;
      ret {| o_Subject :=
               {| s_Country := Country c;
                  s_State := State c;
                  s_Locality := Locality c;
                  s_Organization := Organization c;
                  s_OrganizationalUnit := OrganizationalUnit c;
                  s_CommonName := Domain c |};
             DNSNames := [Domain c];
             ValidFrom := now;
             ValidFor := mul64 (mul64 (ValidityDays c) 24) time.Hour;
             IsCA := false;
             KeyUsage := ["digitalSignature"; "nonRepudiation";
                          "keyEncipherment"; "dataEncipherment"];
             ExtKeyUsage := ["serverAuth"; "clientAuth"] |}
  end.

End WithLib.

End config.

(** ** Package [certificate] *)

Module certificate.

Section WithLib.

Context {L : CryptoLib}.

Record Generator : Type := mkGenerator {
  config : option config.CertificateConfig
}.

Definition NewGenerator (cfg : option config.CertificateConfig) : Generator :=
  {| config := cfg |}.

Definition GeneratePrivateKey (g : Generator) : M PrivateKey :=
  match config g with
  | None => fail "configuration is nil"
  | Some c =>
      if config.KeySize c <? 1024
      then fail "key size must be at least 1024 bits"
      else wrap "failed to generate private key: "
             (with_rand (fun r => rsa_GenerateKey r (config.KeySize c)))
  end.

(** [new(big.Int).Lsh(big.NewInt(1), 128)] *)
Definition serialLimit : Z := Z.shiftl 1 128.

(** The [template] literal of [GenerateRootCA]. *)
Definition RootCATemplate (opts : config.CertificateOptions) (serialNumber : Z)
  : x509.Certificate PublicKey :=
  {| x509.Raw := [];
     x509.RawTBSCertificate := [];
     x509.Signature := [];
     x509.SignatureAlgorithm_ := 0;
     x509.PublicKeyAlgorithm_ := x509.UnknownPublicKeyAlgorithm;
     x509.PublicKey := None;
     x509.Version := 0;
     x509.SerialNumber := serialNumber;
     x509.Issuer := pkix.zero;
     x509.Subject :=
       {| pkix.Country := [config.s_Country (config.o_Subject opts)];
          pkix.Province := [config.s_State (config.o_Subject opts)];
          pkix.Locality := [config.s_Locality (config.o_Subject opts)];
          pkix.Organization := [config.s_Organization (config.o_Subject opts)];
          pkix.OrganizationalUnit :=
            [config.s_OrganizationalUnit (config.o_Subject opts)];
          pkix.CommonName := config.s_CommonName (config.o_Subject opts) |};
     x509.NotBefore := config.ValidFrom opts;
     x509.NotAfter := time.Add (config.ValidFrom opts) (config.ValidFor opts);
     x509.KeyUsage_ := Z.lor x509.KeyUsageCertSign x509.KeyUsageCRLSign;
     x509.ExtKeyUsage_ := [x509.ExtKeyUsageServerAuth];
     x509.BasicConstraintsValid := true;
     x509.IsCA := true;
     x509.DNSNames := config.DNSNames opts |}.

Definition GenerateRootCA (g : Generator)
  : M (x509.Certificate PublicKey * PrivateKey) :=
  key <- GeneratePrivateKey g ;;
  opts <- config.GetRootCAOptions (config g) ;;
  serialNumber <- wrap "failed to generate serial number: "
                    (with_rand (fun r => rand_Int r serialLimit)) ;;
  let template := RootCATemplate opts serialNumber in
  certDER <- wrap "failed to create root CA certificate: "
               (with_rand (fun r =>
                  x509_CreateCertificate r template (Some template)
                    (Public key) (Some key))) ;;
  cert <- wrap "failed to parse root CA certificate: "
            (lift (x509_ParseCertificate certDER)) ;;
  ret (cert, key).

(** The [template] literal of [GenerateLeafCertificate]. *)
Definition LeafTemplate (opts : config.CertificateOptions) (serialNumber : Z)
  : x509.Certificate PublicKey :=
  {| x509.Raw := [];
     x509.RawTBSCertificate := [];
     x509.Signature := [];
     x509.SignatureAlgorithm_ := 0;
     x509.PublicKeyAlgorithm_ := x509.UnknownPublicKeyAlgorithm;
     x509.PublicKey := None;
     x509.Version := 0;
     x509.SerialNumber := serialNumber;
     x509.Issuer := pkix.zero;
     x509.Subject :=
       {| pkix.Country := [config.s_Country (config.o_Subject opts)];
          pkix.Province := [config.s_State (config.o_Subject opts)];
          pkix.Locality := [config.s_Locality (config.o_Subject opts)];
          pkix.Organization := [config.s_Organization (config.o_Subject opts)];
          pkix.OrganizationalUnit :=
            [config.s_OrganizationalUnit (config.o_Subject opts)];
          pkix.CommonName := config.s_CommonName (config.o_Subject opts) |};
     x509.NotBefore := config.ValidFrom opts;
     x509.NotAfter := time.Add (config.ValidFrom opts) (config.ValidFor opts);
     x509.KeyUsage_ := Z.lor x509.KeyUsageDigitalSignature x509.KeyUsageKeyEncipherment;
     x509.ExtKeyUsage_ := [x509.ExtKeyUsageServerAuth; x509.ExtKeyUsageClientAuth];
     x509.BasicConstraintsValid := false;
     x509.IsCA := false;
     x509.DNSNames := config.DNSNames opts |}.

Definition GenerateLeafCertificate (g : Generator)
    (caCert : option (x509.Certificate PublicKey)) (caKey : option PrivateKey)
  : M (x509.Certificate PublicKey * PrivateKey) :=
  key <- GeneratePrivateKey g ;;
  opts <- config.GetLeafCertOptions (config g) ;;
  serialNumber <- wrap "failed to generate serial number: "
                    (with_rand (fun r => rand_Int r serialLimit)) ;;
  let template := LeafTemplate opts serialNumber in
  certDER <- wrap "failed to create leaf certificate: "
               (with_rand (fun r =>
                  x509_CreateCertificate r template caCert (Public key) caKey)) ;;
  cert <- wrap "failed to parse leaf certificate: "
            (lift (x509_ParseCertificate certDER)) ;;
  ret (cert, key).

End WithLib.

End certificate.

(** ** Package [encoding] *)

Module encoding.

Section WithLib.

Context {L : CryptoLib}.

Definition EncodeCertificateToPEM (cert : option (x509.Certificate PublicKey))
  : outcome bytes :=
  match cert with
  | None => Err "certificate is nil"
  | Some cert =>
      let pemBlock := {| pem.Type_ := "CERTIFICATE";
                         pem.Headers := [];
                         pem.Bytes := x509.Raw cert |} in
      Ok (pem_EncodeToMemory pemBlock)
  end.

Definition EncodePrivateKeyToPEM (key : option PrivateKey) : outcome bytes :=
  match key with
  | None => Err "private key is nil"
  | Some key =>
      obind (owrap "failed to marshal private key: " (x509_MarshalPKCS8PrivateKey key))
        (fun keyBytes =>
           let pemBlock := {| pem.Type_ := "PRIVATE KEY";
                              pem.Headers := [];
                              pem.Bytes := keyBytes |} in
           Ok (pem_EncodeToMemory pemBlock))
  end.

Definition ConvertPEMToDER (pemData : bytes) : outcome bytes :=
  match fst (pem_Decode pemData) with
  | None => Err "failed to parse PEM block"
  | Some block => Ok (pem.Bytes block)
  end.

Definition EncodeDERToBase64 (derData : bytes) : string :=
  base64.EncodeToString derData.

(** [cert.Raw] is read without a nil check. *)
Definition ConvertCertificateToBase64DER (cert : option (x509.Certificate PublicKey))
  : outcome string :=
  match cert with
  | None => Panic nil_dereference
  | Some cert => Ok (EncodeDERToBase64 (x509.Raw cert))
  end.

Definition DecodePEMCertificate (pemData : bytes)
  : outcome (x509.Certificate PublicKey) :=
  match fst (pem_Decode pemData) with
  | None => Err "failed to parse PEM block"
  | Some block =>
      obind (owrap "failed to parse certificate: "
               (x509_ParseCertificate (pem.Bytes block)))
        (fun cert => Ok cert)
  end.

Definition DecodePEMPrivateKey (pemData : bytes) : outcome PrivateKey :=
  match fst (pem_Decode pemData) with
  | None => Err "failed to parse PEM block"
  | Some block =>
      obind (owrap "failed to parse private key: "
               (x509_ParsePKCS8PrivateKey (pem.Bytes block)))
        (fun key =>
           match key with
           | x509.KeyRSA rsaKey => Ok rsaKey
           | x509.KeyOther => Err "key is not an RSA private key"
           end)
  end.

End WithLib.

End encoding.

(** ** Package [fileio] *)

(** The operating system under [fileio]: [os.MkdirAll], [os.WriteFile] and
    [filepath.Dir], over a file-system state [FS]. *)
Class FileSystem : Type := {
  FS : Type;
  os_MkdirAll : string -> Z -> FS -> option error * FS;
  os_WriteFile : string -> bytes -> Z -> FS -> option error * FS;
  filepath_Dir : string -> string
}.

Module fileio.

(** File modes, written in octal in the source. *)
Definition mode_0755 : Z := 7 * 64 + 5 * 8 + 5.
Definition mode_0644 : Z := 6 * 64 + 4 * 8 + 4.
Definition mode_0600 : Z := 6 * 64 + 0 * 8 + 0.

Record FileWriter : Type := mkFileWriter {
  subdomain : string
}.

Definition NewFileWriter (domain : string) : FileWriter :=
  {| subdomain := strings.Split_first domain "."%char |}.

Definition GetRootKeyPath (fw : FileWriter) : string := subdomain fw ++ "_rootCA.key".
Definition GetRootCertPath (fw : FileWriter) : string := subdomain fw ++ "_rootCA.pem".
Definition GetLeafKeyPath (fw : FileWriter) : string := subdomain fw ++ "_leaf.key".
Definition GetLeafCertPath (fw : FileWriter) : string := subdomain fw ++ "_leaf.pem".
Definition GetLeafCSRPath (fw : FileWriter) : string := subdomain fw ++ "_leaf.csr".
Definition GetPKCS12Path (fw : FileWriter) : string := subdomain fw ++ "_certs.p12".
Definition GetRootBase64Path (fw : FileWriter) : string :=
  subdomain fw ++ "_rootCA_base64.txt".
Definition GetLeafBase64Path (fw : FileWriter) : string :=
  subdomain fw ++ "_leaf_base64.txt".

Section WithFS.

Context {F : FileSystem}.

Definition WriteFile (fw : FileWriter) (path : string) (data : bytes)
  : FS -> option error * FS :=
  fun fs =>
    let dir := filepath_Dir path in
    match os_MkdirAll dir mode_0755 fs with
    | (Some err, fs1) => (Some (Errorf_w "failed to create directory: " err), fs1)
    | (None, fs1) =>
        let perm := if strings.Contains path ".key" then mode_0600 else mode_0644 in
        match os_WriteFile path data perm fs1 with
        | (Some err, fs2) =>
            (Some (Errorf_w ("failed to write file " ++ path ++ ": ") err), fs2)
        | (None, fs2) => (None, fs2)
        end
    end.

End WithFS.

(** A file system that records the calls it receives and answers each
    with what [answer] says. *)
Inductive call : Type :=
| MkdirAll (path : string) (perm : Z)
| OsWriteFile (name : string) (data : bytes) (perm : Z).

Definition Recorder (answer : call -> option error) (dir : string -> string)
  : FileSystem :=
  {| FS := list call;
     os_MkdirAll := fun path perm log =>
       (answer (MkdirAll path perm), (log ++ [MkdirAll path perm])%list);
     os_WriteFile := fun name data perm log =>
       (answer (OsWriteFile name data perm), (log ++ [OsWriteFile name data perm])%list);
     filepath_Dir := dir |}.

(** The specification's words: a key file is one named with the [.key]
    extension, as the artifacts [_rootCA.key] and [_leaf.key] are. *)
Definition is_key_file (path : string) : bool := strings.HasSuffix path ".key".

End fileio.

(** ** The contract of the standard library

    The statements below are what the repository takes for granted about
    [crypto/rsa], [crypto/rand], [crypto/x509] and [encoding/pem]. *)

Section Contract.

Context {L : CryptoLib}.

(** What [ParseCertificate] reads back from a certificate that
    [CreateCertificate] built from [tpl], issued by [parent] for the key
    [pub] and signed with [priv]. *)
Record issued_from (tpl parent : x509.Certificate PublicKey)
    (pub : PublicKey) (priv : PrivateKey) (c : x509.Certificate PublicKey) : Prop :=
  mkIssued {
    iss_Version : x509.Version c = 3;
    iss_SerialNumber : x509.SerialNumber c = x509.SerialNumber tpl;
    iss_Subject : x509.Subject c = x509.Subject tpl;
    iss_Issuer : x509.Issuer c = x509.Subject parent;
    iss_NotBefore : x509.NotBefore c = x509.asn1_time (x509.NotBefore tpl);
    iss_NotAfter : x509.NotAfter c = x509.asn1_time (x509.NotAfter tpl);
    iss_KeyUsage : x509.KeyUsage_ c = x509.asn1_keyUsage (x509.KeyUsage_ tpl);
    iss_ExtKeyUsage : x509.ExtKeyUsage_ c = x509.ExtKeyUsage_ tpl;
    iss_BasicConstraintsValid :
      x509.BasicConstraintsValid c = x509.BasicConstraintsValid tpl;
    iss_IsCA : x509.IsCA c = x509.BasicConstraintsValid tpl && x509.IsCA tpl;
    iss_DNSNames : x509.DNSNames c = x509.DNSNames tpl;
    iss_PublicKey : x509.PublicKey c = Some pub;
    iss_PublicKeyAlgorithm : x509.PublicKeyAlgorithm_ c = x509.RSA;
    iss_Signature :
      x509_checkSignature (x509.SignatureAlgorithm_ c) (x509.RawTBSCertificate c)
        (x509.Signature c) (Some (Public priv)) = None
  }.

(** Names whose strings are ASCII are encoded as they are. *)
Definition name_encodable (n : pkix.Name) : bool :=
  forallb x509.isIA5String (pkix.Country n)
  && forallb x509.isIA5String (pkix.Organization n)
  && forallb x509.isIA5String (pkix.OrganizationalUnit n)
  && forallb x509.isIA5String (pkix.Locality n)
  && forallb x509.isIA5String (pkix.Province n)
  && x509.isIA5String (pkix.CommonName n).

(** Instants from the epoch to the end of year 9999 have a GeneralizedTime. *)
Definition time_encodable (t : time.Time) : bool :=
  (0 <=? t) && (t <? 253402300800 * time.Second).

(** Templates [CreateCertificate] accepts. *)
Definition template_encodable (tpl : x509.Certificate PublicKey) : bool :=
  (0 <=? x509.SerialNumber tpl)
  && name_encodable (x509.Subject tpl)
  && forallb x509.isIA5String (x509.DNSNames tpl)
  && time_encodable (x509.NotBefore tpl)
  && time_encodable (x509.NotAfter tpl).

(** Labels made of capital letters and spaces. *)
Definition pem_label (s : string) : bool :=
  forallb (fun b => let n := Z.of_N (Byte.to_N b) in
                    (n =? 32) || ((65 <=? n) && (n <=? 90)))
    (list_byte_of_string s).

Class CryptoLaws : Prop := {
  (** [rsa.GenerateKey] returns a valid key of exactly the requested size. *)
  GenerateKey_sound : forall r bits k r',
    rsa_GenerateKey r bits = (Ok k, r') ->
    BitLen (Public k) = bits /\ rsa_Validate k = true;
  (** [rand.Int] returns a value in [0, max). *)
  rand_Int_range : forall r max n r',
    rand_Int r max = (Ok n, r') -> 0 <= n < max;
  (** A parsed certificate keeps the bytes it was parsed from. *)
  ParseCertificate_Raw : forall der c,
    x509_ParseCertificate der = Ok c -> x509.Raw c = der;
  (** Parsing what [CreateCertificate] built gives back the template. *)
  CreateCertificate_sound : forall r tpl parent pub priv der r' c,
    x509_CreateCertificate r tpl (Some parent) pub (Some priv) = (Ok der, r') ->
    x509_ParseCertificate der = Ok c ->
    issued_from tpl parent pub priv c;
  (** [CreateCertificate] accepts an encodable template with valid RSA
      keys of at least 1024 bits, when the signing key is the issuer's;
      its result parses. *)
  CreateCertificate_accepts : forall r tpl parent kp ks,
    rsa_Validate kp = true ->
    rsa_Validate ks = true ->
    1024 <= BitLen (Public kp) ->
    1024 <= BitLen (Public ks) ->
    template_encodable tpl = true ->
    name_encodable (x509.Subject parent) = true ->
    x509.PublicKey parent = None \/ x509.PublicKey parent = Some (Public ks) ->
    exists der r' c,
      x509_CreateCertificate r tpl (Some parent) (Public kp) (Some ks) = (Ok der, r')
      /\ x509_ParseCertificate der = Ok c;
  (** A valid key survives PKCS #8. *)
  PKCS8_roundtrip : forall k,
    rsa_Validate k = true ->
    exists der,
      x509_MarshalPKCS8PrivateKey k = Ok der
      /\ x509_ParsePKCS8PrivateKey der = Ok (x509.KeyRSA k);
  (** [pem.Decode] undoes [pem.EncodeToMemory] on a block without headers. *)
  PEM_roundtrip : forall label body,
    pem_label label = true ->
    fst (pem_Decode (pem_EncodeToMemory
                       {| pem.Type_ := label; pem.Headers := []; pem.Bytes := body |}))
    = Some {| pem.Type_ := label; pem.Headers := []; pem.Bytes := body |}
}.

End Contract.

Arguments CryptoLaws L : clear implicits.

(** ** A reference implementation of the interface

    Its encodings are length-prefixed byte strings, not DER or PEM, and its
    signatures are not secure: it is there to show that the contract above
    can be met and to run the repository's code on concrete inputs. *)

Module Codec.

Definition decoder (A : Type) : Type := bytes -> option (A * bytes).

Definition dret {A} (a : A) : decoder A := fun l => Some (a, l).

Definition dbind {A B} (d : decoder A) (k : A -> decoder B) : decoder B :=
  fun l => match d l with
           | Some (a, r) => k a r
           | None => None
           end.

Definition dfail {A} : decoder A := fun _ => None.

Fixpoint bytes_eqb (a b : bytes) : bool :=
  match a, b with
  | [], [] => true
  | x :: a', y :: b' => Byte.eqb x y && bytes_eqb a' b'
  | _, _ => false
  end.

(** Binary digits, least significant first, closed by [x02]. *)
Fixpoint enc_pos (p : positive) : bytes :=
  match p with
  | xH => [x02]
  | xO q => x00 :: enc_pos q
  | xI q => x01 :: enc_pos q
  end.

Fixpoint dec_pos (l : bytes) : option (positive * bytes) :=
  match l with
  | [] => None
  | b :: t =>
      if Byte.eqb b x02 then Some (xH, t)
      else if Byte.eqb b x00 then
        match dec_pos t with
        | Some (q, r) => Some (xO q, r)
        | None => None
        end
      else if Byte.eqb b x01 then
        match dec_pos t with
        | Some (q, r) => Some (xI q, r)
        | None => None
        end
      else None
  end.

Definition enc_Z (z : Z) : bytes :=
  match z with
  | Z0 => [x00]
  | Zpos p => x01 :: enc_pos p
  | Zneg p => x02 :: enc_pos p
  end.

Definition dec_Z : decoder Z :=
  fun l =>
    match l with
    | [] => None
    | b :: t =>
        if Byte.eqb b x00 then Some (Z0, t)
        else if Byte.eqb b x01 then
          match dec_pos t with
          | Some (p, r) => Some (Zpos p, r)
          | None => None
          end
        else if Byte.eqb b x02 then
          match dec_pos t with
          | Some (p, r) => Some (Zneg p, r)
          | None => None
          end
        else None
    end.

Definition enc_nat (n : nat) : bytes := enc_Z (Z.of_nat n).

Definition dec_nat : decoder nat :=
  dbind dec_Z (fun z => if z <? 0 then dfail else dret (Z.to_nat z)).

Definition enc_bool (b : bool) : bytes := if b then [x01] else [x00].

Definition dec_bool : decoder bool :=
  fun l =>
    match l with
    | [] => None
    | b :: t =>
        if Byte.eqb b x01 then Some (true, t)
        else if Byte.eqb b x00 then Some (false, t)
        else None
    end.

Definition enc_bytes (b : bytes) : bytes := (enc_nat (List.length b) ++ b)%list.

Definition dec_bytes : decoder bytes :=
  dbind dec_nat (fun n l =>
    if (n <=? List.length l)%nat then Some (firstn n l, skipn n l) else None).

Definition enc_string (s : string) : bytes := enc_bytes (list_byte_of_string s).

Definition dec_string : decoder string :=
  dbind dec_bytes (fun b => dret (string_of_list_byte b)).

Definition enc_list {A} (enc : A -> bytes) (xs : list A) : bytes :=
  (enc_nat (List.length xs) ++ flat_map enc xs)%list.

Fixpoint dec_items {A} (dec : decoder A) (n : nat) : decoder (list A) :=
  match n with
  | O => dret []
  | S n' => dbind dec (fun x => dbind (dec_items dec n') (fun xs => dret (x :: xs)))
  end.

Definition dec_list {A} (dec : decoder A) : decoder (list A) :=
  dbind dec_nat (dec_items dec).

End Codec.

Module Reference.

Import Codec.

(** A key is its size in bits and a secret number. *)
Definition Key : Type := (Z * Z)%type.

Definition public (k : Key) : Key := (fst k, 2 * snd k + 1).

Definition validate (k : Key) : bool := 0 <? fst k.

Definition GenerateKey (r : Z) (bits : Z) : outcome Key * Z :=
  if bits <? 2 then (Err "crypto/rsa: too few bits to generate an RSA key", r)
  else (Ok (bits, r), r + 1).

Definition Int (r : Z) (max : Z) : outcome Z * Z :=
  if max <=? 0 then (Panic "crypto/rand: argument to Int is <= 0", r)
  else (Ok (r mod max), r + 1).

Definition enc_key (k : Key) : bytes := (enc_Z (fst k) ++ enc_Z (snd k))%list.

Definition dec_key : decoder Key :=
  dbind dec_Z (fun a => dbind dec_Z (fun b => dret (a, b))).

Definition eku_code (e : x509.ExtKeyUsage) : Z :=
  match e with
  | x509.ExtKeyUsageAny => 0
  | x509.ExtKeyUsageServerAuth => 1
  | x509.ExtKeyUsageClientAuth => 2
  | x509.ExtKeyUsageCodeSigning => 3
  | x509.ExtKeyUsageEmailProtection => 4
  | x509.ExtKeyUsageIPSECEndSystem => 5
  | x509.ExtKeyUsageIPSECTunnel => 6
  | x509.ExtKeyUsageIPSECUser => 7
  | x509.ExtKeyUsageTimeStamping => 8
  | x509.ExtKeyUsageOCSPSigning => 9
  | x509.ExtKeyUsageMicrosoftServerGatedCrypto => 10
  | x509.ExtKeyUsageNetscapeServerGatedCrypto => 11
  | x509.ExtKeyUsageMicrosoftCommercialCodeSigning => 12
  | x509.ExtKeyUsageMicrosoftKernelCodeSigning => 13
  end.

Definition eku_of_code (z : Z) : option x509.ExtKeyUsage :=
  match z with
  | 0 => Some x509.ExtKeyUsageAny
  | 1 => Some x509.ExtKeyUsageServerAuth
  | 2 => Some x509.ExtKeyUsageClientAuth
  | 3 => Some x509.ExtKeyUsageCodeSigning
  | 4 => Some x509.ExtKeyUsageEmailProtection
  | 5 => Some x509.ExtKeyUsageIPSECEndSystem
  | 6 => Some x509.ExtKeyUsageIPSECTunnel
  | 7 => Some x509.ExtKeyUsageIPSECUser
  | 8 => Some x509.ExtKeyUsageTimeStamping
  | 9 => Some x509.ExtKeyUsageOCSPSigning
  | 10 => Some x509.ExtKeyUsageMicrosoftServerGatedCrypto
  | 11 => Some x509.ExtKeyUsageNetscapeServerGatedCrypto
  | 12 => Some x509.ExtKeyUsageMicrosoftCommercialCodeSigning
  | 13 => Some x509.ExtKeyUsageMicrosoftKernelCodeSigning
  | _ => None
  end.

Definition enc_eku (e : x509.ExtKeyUsage) : bytes := enc_Z (eku_code e).

Definition dec_eku : decoder x509.ExtKeyUsage :=
  dbind dec_Z (fun z => match eku_of_code z with
                        | Some e => dret e
                        | None => dfail
                        end).

Definition enc_name (n : pkix.Name) : bytes :=
  (enc_list enc_string (pkix.Country n)
   ++ enc_list enc_string (pkix.Organization n)
   ++ enc_list enc_string (pkix.OrganizationalUnit n)
   ++ enc_list enc_string (pkix.Locality n)
   ++ enc_list enc_string (pkix.Province n)
   ++ enc_string (pkix.CommonName n))%list.

Definition dec_name : decoder pkix.Name :=
  dbind (dec_list dec_string) (fun c =>
  dbind (dec_list dec_string) (fun o =>
  dbind (dec_list dec_string) (fun ou =>
  dbind (dec_list dec_string) (fun l =>
  dbind (dec_list dec_string) (fun p =>
  dbind dec_string (fun cn =>
  dret (pkix.mkName c o ou l p cn))))))).

(** The signed part of a certificate. *)
Record TBS : Type := mkTBS {
  tbs_serial : Z;
  tbs_subject : pkix.Name;
  tbs_issuer : pkix.Name;
  tbs_notBefore : Z;
  tbs_notAfter : Z;
  tbs_keyUsage : Z;
  tbs_extKeyUsage : list x509.ExtKeyUsage;
  tbs_bcValid : bool;
  tbs_isCA : bool;
  tbs_dnsNames : list string;
  tbs_key : Key
}.

Definition tbs_of (tpl parent : x509.Certificate Key) (pub : Key) : TBS :=
  {| tbs_serial := x509.SerialNumber tpl;
     tbs_subject := x509.Subject tpl;
     tbs_issuer := x509.Subject parent;
     tbs_notBefore := x509.asn1_time (x509.NotBefore tpl);
     tbs_notAfter := x509.asn1_time (x509.NotAfter tpl);
     tbs_keyUsage := x509.asn1_keyUsage (x509.KeyUsage_ tpl);
     tbs_extKeyUsage := x509.ExtKeyUsage_ tpl;
     tbs_bcValid := x509.BasicConstraintsValid tpl;
     tbs_isCA := x509.BasicConstraintsValid tpl && x509.IsCA tpl;
     tbs_dnsNames := x509.DNSNames tpl;
     tbs_key := pub |}.

Definition enc_tbs (t : TBS) : bytes :=
  (enc_Z (tbs_serial t)
   ++ enc_name (tbs_subject t)
   ++ enc_name (tbs_issuer t)
   ++ enc_Z (tbs_notBefore t)
   ++ enc_Z (tbs_notAfter t)
   ++ enc_Z (tbs_keyUsage t)
   ++ enc_list enc_eku (tbs_extKeyUsage t)
   ++ enc_bool (tbs_bcValid t)
   ++ enc_bool (tbs_isCA t)
   ++ enc_list enc_string (tbs_dnsNames t)
   ++ enc_key (tbs_key t))%list.

Definition dec_tbs : decoder TBS :=
  dbind dec_Z (fun serial =>
  dbind dec_name (fun subject =>
  dbind dec_name (fun issuer =>
  dbind dec_Z (fun nb =>
  dbind dec_Z (fun na =>
  dbind dec_Z (fun ku =>
  dbind (dec_list dec_eku) (fun eku =>
  dbind dec_bool (fun bcv =>
  dbind dec_bool (fun isca =>
  dbind (dec_list dec_string) (fun dns =>
  dbind dec_key (fun key =>
  dret (mkTBS serial subject issuer nb na ku eku bcv isca dns key)))))))))))).

(** A signature names the public half of the signing key and repeats what
    was signed. *)
Definition sign (priv : Key) (msg : bytes) : bytes :=
  (enc_key (public priv) ++ msg)%list.

Definition checkSignature (alg : x509.SignatureAlgorithm) (signed signature : bytes)
    (pub : option Key) : option error :=
  match pub with
  | None => Some "x509: unsupported public key algorithm"
  | Some k =>
      if bytes_eqb signature (enc_key k ++ signed)%list then None
      else Some "crypto/rsa: verification error"
  end.

Definition SHA256WithRSA : x509.SignatureAlgorithm := 4.

Definition CreateCertificate (r : Z) (tpl : x509.Certificate Key)
    (parent : option (x509.Certificate Key)) (pub : Key) (priv : option Key)
  : outcome bytes * Z :=
  match parent, priv with
  | Some parent, Some priv =>
      let tbs := enc_tbs (tbs_of tpl parent pub) in
      (Ok (enc_bytes tbs ++ enc_bytes (sign priv tbs))%list, r)
  | _, _ => (Panic nil_dereference, r)
  end.

Definition certificate_of (der tbs signature : bytes) (t : TBS) : x509.Certificate Key :=
  {| x509.Raw := der;
     x509.RawTBSCertificate := tbs;
     x509.Signature := signature;
     x509.SignatureAlgorithm_ := SHA256WithRSA;
     x509.PublicKeyAlgorithm_ := x509.RSA;
     x509.PublicKey := Some (tbs_key t);
     x509.Version := 3;
     x509.SerialNumber := tbs_serial t;
     x509.Issuer := tbs_issuer t;
     x509.Subject := tbs_subject t;
     x509.NotBefore := tbs_notBefore t;
     x509.NotAfter := tbs_notAfter t;
     x509.KeyUsage_ := tbs_keyUsage t;
     x509.ExtKeyUsage_ := tbs_extKeyUsage t;
     x509.BasicConstraintsValid := tbs_bcValid t;
     x509.IsCA := tbs_isCA t;
     x509.DNSNames := tbs_dnsNames t |}.

Definition ParseCertificate (der : bytes) : outcome (x509.Certificate Key) :=
  match dec_bytes der with
  | Some (tbs, rest) =>
      match dec_bytes rest with
      | Some (signature, []) =>
          match dec_tbs tbs with
          | Some (t, []) => Ok (certificate_of der tbs signature t)
          | _ => Err "x509: malformed tbs certificate"
          end
      | _ => Err "x509: malformed signature"
      end
  | None => Err "x509: malformed certificate"
  end.

Definition MarshalPKCS8PrivateKey (k : Key) : outcome bytes :=
  Ok (x30 :: enc_key k).

Definition ParsePKCS8PrivateKey (der : bytes) : outcome (x509.AnyKey Key) :=
  match der with
  | [] => Err "asn1: syntax error: sequence truncated"
  | b :: t =>
      if Byte.eqb b x30 then
        match dec_key t with
        | Some (k, []) =>
            if validate k then Ok (x509.KeyRSA k)
            else Err "crypto/rsa: invalid key"
        | _ => Err "x509: failed to parse private key"
        end
      else if Byte.eqb b x31 then Ok x509.KeyOther
      else Err "x509: unknown private key algorithm"
  end.

Definition EncodeToMemory (b : pem.Block) : bytes :=
  (enc_string (pem.Type_ b) ++ enc_bytes (pem.Bytes b))%list.

Definition Decode (data : bytes) : option pem.Block * bytes :=
  match dec_string data with
  | Some (label, r) =>
      match dec_bytes r with
      | Some (body, rest) => (Some (pem.mkBlock label [] body), rest)
      | None => (None, data)
      end
  | None => (None, data)
  end.

Definition lib : CryptoLib :=
  {| Rand := Z;
     PrivateKey := Key;
     PublicKey := Key;
     Public := public;
     BitLen := fst;
     rsa_Validate := validate;
     rsa_GenerateKey := GenerateKey;
     rand_Int := Int;
     x509_CreateCertificate := CreateCertificate;
     x509_ParseCertificate := ParseCertificate;
     x509_checkSignature := checkSignature;
     x509_MarshalPKCS8PrivateKey := MarshalPKCS8PrivateKey;
     x509_ParsePKCS8PrivateKey := ParsePKCS8PrivateKey;
     pem_EncodeToMemory := EncodeToMemory;
     pem_Decode := Decode |}.

(** A world for the examples: the clock is read on 14 November 2023,
    between two whole seconds, a few milliseconds later each time. *)
Definition world : @World lib :=
  @mkWorld Z 20231114 0
    (fun n => nth n [1700000000123456789; 1700000000125456789;
                     1700000000129456789; 1700000000136456789]
                1700000000150456789).

Definition example_config : config.CertificateConfig :=
  {| config.Domain := "example.com";
     config.Country := "SG";
     config.State := "Singapore";
     config.Locality := "Singapore";
     config.Organization := "Erfi Corp";
     config.OrganizationalUnit := "Erfi Proxy";
     config.ValidityDays := 90;
     config.KeySize := 2048;
     config.PKCS12Password := "yourPKCS12Password" |}.

End Reference.

(** ** Concrete runs on the reference implementation *)

Module Examples.

Definition generator : certificate.Generator :=
  certificate.NewGenerator (Some Reference.example_config).

(** The root CA of [example.com], then a leaf signed by it. *)
Definition root_run
  : outcome (x509.Certificate Reference.Key * Reference.Key) * @World Reference.lib :=
  @certificate.GenerateRootCA Reference.lib generator Reference.world.

Definition leaf_run
  : outcome (x509.Certificate Reference.Key * Reference.Key) * @World Reference.lib :=
  match root_run with
  | (Ok (caCert, caKey), w) =>
      @certificate.GenerateLeafCertificate Reference.lib generator
        (Some caCert) (Some caKey) w
  | (Err e, w) => (Err e, w)
  | (Panic p, w) => (Panic p, w)
  end.

Definition root_certificate : option (x509.Certificate Reference.Key) :=
  match fst root_run with
  | Ok (cert, _) => Some cert
  | _ => None
  end.

(** The encoding of the root certificate inside an envelope labelled
    [PRIVATE KEY]. *)
Definition mislabelled_envelope : bytes :=
  match root_certificate with
  | Some cert =>
      @pem_EncodeToMemory Reference.lib
        {| pem.Type_ := "PRIVATE KEY"; pem.Headers := []; pem.Bytes := x509.Raw cert |}
  | None => []
  end.

(** A configuration like the previous one, without a domain. *)
Definition empty_domain_config : config.CertificateConfig :=
  {| config.Domain := "";
     config.Country := "SG";
     config.State := "Singapore";
     config.Locality := "Singapore";
     config.Organization := "Erfi Corp";
     config.OrganizationalUnit := "Erfi Proxy";
     config.ValidityDays := 3650;
     config.KeySize := 2048;
     config.PKCS12Password := "yourPKCS12Password" |}.

(** A file system in which every call succeeds and every path lies in the
    current directory. *)
Definition recorder : FileSystem := fileio.Recorder (fun _ => None) (fun _ => ".").

End Examples.

(** ** The rest of the operating system

    Processes, temporary directories, reading and the standard streams,
    over the same file-system state: [exec.LookPath], [os.MkdirTemp],
    [os.ReadFile], [os.RemoveAll], [os.Stat], [exec.Command(...).Run],
    [filepath.Join], writes to standard output and standard error, the
    standard logger, [flag.PrintDefaults] and [os.Args[0]]. *)
Class Process (F : FileSystem) : Type := {
  exec_LookPath : string -> FS -> outcome string * FS;
  os_MkdirTemp : string -> string -> FS -> outcome string * FS;
  os_ReadFile : string -> FS -> outcome bytes * FS;
  os_RemoveAll : string -> FS -> option error * FS;
  os_Stat : string -> FS -> option error * FS;
  exec_Run : string -> list string -> FS -> option error * FS;
  filepath_Join : string -> string -> string;
  stdout_Write : string -> FS -> FS;
  stderr_Write : string -> FS -> FS;
  log_Print : string -> FS -> FS;
  flag_PrintDefaults : FS -> FS;
  os_Args0 : string
}.

(** Calls that only touch the operating system. *)
Section IO.

Context {F : FileSystem}.

Definition IO (A : Type) : Type := FS -> outcome A * FS.

Definition io_ret {A} (a : A) : IO A := fun fs => (Ok a, fs).

Definition io_bind {A B} (m : IO A) (k : A -> IO B) : IO B :=
  fun fs =>
    match m fs with
    | (Ok a, fs') => k a fs'
    | (Err e, fs') => (Err e, fs')
    | (Panic p, fs') => (Panic p, fs')
    end.

Definition io_lift {A} (o : outcome A) : IO A := fun fs => (o, fs).

(** A call that returns only an error. *)
Definition io_check (f : FS -> option error * FS) : IO unit :=
  fun fs =>
    match f fs with
    | (None, fs') => (Ok tt, fs')
    | (Some err, fs') => (Err err, fs')
    end.

Definition io_wrap {A} (prefix : string) (m : IO A) : IO A :=
  fun fs =>
    match m fs with
    | (Err e, fs') => (Err (Errorf_w prefix e), fs')
    | r => r
    end.

(** [defer f()]: [f] runs when the body is left, also by a panic, and what
    it returns is dropped. *)
Definition io_defer {A} (f : FS -> option error * FS) (body : IO A) : IO A :=
  fun fs =>
    let (result, fs1) := body fs in
    let (_, fs2) := f fs1 in
    (result, fs2).

End IO.

Definition newline : string := String "010"%char EmptyString.

Definition quote : string := String "034"%char EmptyString.

(** [%d] of an [int]. *)
Definition itoa (z : Z) : string := NilZero.string_of_int (Z.to_int z).

(** ** Package [pkcs12] *)

Module pkcs12.

(** [struct{}] *)
Inductive Generator : Type := mkGenerator.

Definition NewGenerator : Generator := mkGenerator.

Section WithOS.

Context {L : CryptoLib} {F : FileSystem} {P : Process F}.

Definition GeneratePKCS12 (g : Generator)
    (leafCert : option (x509.Certificate PublicKey)) (leafKey : option PrivateKey)
    (caCert : option (x509.Certificate PublicKey)) (password : string)
  : IO bytes :=
  io_bind (io_wrap "openssl command not found in PATH: " (exec_LookPath "openssl"))
    (fun _ =>
  io_bind (io_wrap "failed to create temp dir: " (os_MkdirTemp "" "certgen"))
    (fun tempDir =>
  io_defer (os_RemoveAll tempDir)
    (let leafCertPath := filepath_Join tempDir "leaf.pem" in
     let leafKeyPath := filepath_Join tempDir "leaf.key" in
     let p12Path := filepath_Join tempDir "bundle.p12" in
     io_bind (io_wrap "failed to encode leaf cert: "
                (io_lift (encoding.EncodeCertificateToPEM leafCert)))
       (fun leafCertPEM =>
     io_bind (io_wrap "failed to write leaf cert: "
                (io_check (os_WriteFile leafCertPath leafCertPEM fileio.mode_0644)))
       (fun _ =>
     io_bind (io_wrap "failed to encode leaf key: "
                (io_lift (encoding.EncodePrivateKeyToPEM leafKey)))
       (fun leafKeyPEM =>
     io_bind (io_wrap "failed to write leaf key: "
                (io_check (os_WriteFile leafKeyPath leafKeyPEM fileio.mode_0600)))
       (fun _ =>
     io_bind (io_wrap "failed to generate PKCS#12: "
                (io_check (exec_Run "openssl"
                             ["pkcs12"; "-export";
                              "-out"; p12Path;
                              "-inkey"; leafKeyPath;
                              "-in"; leafCertPath;
                              "-password"; "pass:" ++ password])))
       (fun _ =>
     io_bind (io_wrap "failed to read PKCS#12 file: " (os_ReadFile p12Path))
       (fun pfxData => io_ret pfxData))))))))).

End WithOS.

End pkcs12.

(** ** Package [fileio]: the functions that need the rest of the system *)

Module fileio_os.

Section WithOS.

Context {F : FileSystem} {P : Process F}.

Definition WriteBase64File (fw : fileio.FileWriter) (path : string)
    (base64Data : string) : FS -> option error * FS :=
  fun fs =>
    match fileio.WriteFile fw path (list_byte_of_string base64Data) fs with
    | (Some err, fs1) => (Some err, fs1)
    | (None, fs1) =>
        (None,
         stdout_Write ("Base64-encoded DER content written to " ++ path ++ ":"
                       ++ newline ++ base64Data ++ newline ++ newline) fs1)
    end.

Definition ReadFile (fw : fileio.FileWriter) (path : string) : IO bytes :=
  fun fs =>
    match os_ReadFile path fs with
    | (Err err, fs1) =>
        (Err (Errorf_w ("failed to read file " ++ path ++ ": ") err), fs1)
    | r => r
    end.

Definition FileExists (fw : fileio.FileWriter) (path : string) : FS -> bool * FS :=
  fun fs =>
    match os_Stat path fs with
    | (None, fs1) => (true, fs1)
    | (Some _, fs1) => (false, fs1)
    end.

End WithOS.

End fileio_os.

(** ** The command [certgen] *)

Module certgen.

Definition version : string := "1.0.0".

Section WithOS.

Context {L : CryptoLib} {F : FileSystem} {P : Process F}.

(** Calls of the program: they see the world of the generator and the
    operating system. *)
Definition App (A : Type) : Type := World * FS -> outcome A * (World * FS).

Definition app_ret {A} (a : A) : App A := fun st => (Ok a, st).

Definition app_bind {A B} (m : App A) (k : A -> App B) : App B :=
  fun st =>
    match m st with
    | (Ok a, st') => k a st'
    | (Err e, st') => (Err e, st')
    | (Panic p, st') => (Panic p, st')
    end.

Definition app_wrap {A} (prefix : string) (m : App A) : App A :=
  fun st =>
    match m st with
    | (Err e, st') => (Err (Errorf_w prefix e), st')
    | r => r
    end.

Definition crypto {A} (m : M A) : App A :=
  fun st => let (o, w') := m (fst st) in (o, (w', snd st)).

Definition io {A} (m : IO A) : App A :=
  fun st => let (o, fs') := m (snd st) in (o, (fst st, fs')).

Definition pure {A} (o : outcome A) : App A := fun st => (o, st).

(** [fmt.Printf], [fmt.Println] *)
Definition print (s : string) : App unit :=
  fun st => (Ok tt, (fst st, stdout_Write s (snd st))).

Definition tick : string := "✓".

Definition run (cfg : option config.CertificateConfig) : App unit :=
  match cfg with
  | None => fun st => (Panic nil_dereference, st)
  | Some c =>
      let certGen := certificate.NewGenerator cfg in
      let fileWriter := fileio.NewFileWriter (config.Domain c) in
      let pkcs12Gen := pkcs12.NewGenerator in
      app_bind (print ("Generating certificates for domain: " ++ config.Domain c
                       ++ newline)) (fun _ =>
      app_bind (print ("Organization: " ++ config.Organization c ++ newline)) (fun _ =>
      app_bind (print ("Validity: " ++ itoa (config.ValidityDays c) ++ " days"
                       ++ newline ++ newline)) (fun _ =>
      app_bind (app_wrap "failed to generate root CA: "
                  (crypto (certificate.GenerateRootCA certGen))) (fun root =>
      let rootCert := fst root in
      let rootKey := snd root in
      app_bind (print (tick ++ " Generated Root CA certificate" ++ newline)) (fun _ =>
      app_bind (app_wrap "failed to encode root key: "
                  (pure (encoding.EncodePrivateKeyToPEM (Some rootKey)))) (fun rootKeyPEM =>
      app_bind (io (io_check (fileio.WriteFile fileWriter
                                (fileio.GetRootKeyPath fileWriter) rootKeyPEM))) (fun _ =>
      app_bind (print (tick ++ " Saved Root CA key: "
                       ++ fileio.GetRootKeyPath fileWriter ++ newline)) (fun _ =>
      app_bind (app_wrap "failed to encode root certificate: "
                  (pure (encoding.EncodeCertificateToPEM (Some rootCert)))) (fun rootCertPEM =>
      app_bind (io (io_check (fileio.WriteFile fileWriter
                                (fileio.GetRootCertPath fileWriter) rootCertPEM))) (fun _ =>
      app_bind (print (tick ++ " Saved Root CA certificate: "
                       ++ fileio.GetRootCertPath fileWriter ++ newline)) (fun _ =>
      app_bind (app_wrap "failed to generate leaf certificate: "
                  (crypto (certificate.GenerateLeafCertificate certGen
                             (Some rootCert) (Some rootKey)))) (fun leaf =>
      let leafCert := fst leaf in
      let leafKey := snd leaf in
      app_bind (print (tick ++ " Generated leaf certificate" ++ newline)) (fun _ =>
      app_bind (app_wrap "failed to encode leaf key: "
                  (pure (encoding.EncodePrivateKeyToPEM (Some leafKey)))) (fun leafKeyPEM =>
      app_bind (io (io_check (fileio.WriteFile fileWriter
                                (fileio.GetLeafKeyPath fileWriter) leafKeyPEM))) (fun _ =>
      app_bind (print (tick ++ " Saved leaf key: "
                       ++ fileio.GetLeafKeyPath fileWriter ++ newline)) (fun _ =>
      app_bind (app_wrap "failed to encode leaf certificate: "
                  (pure (encoding.EncodeCertificateToPEM (Some leafCert)))) (fun leafCertPEM =>
      app_bind (io (io_check (fileio.WriteFile fileWriter
                                (fileio.GetLeafCertPath fileWriter) leafCertPEM))) (fun _ =>
      app_bind (print (tick ++ " Saved leaf certificate: "
                       ++ fileio.GetLeafCertPath fileWriter ++ newline)) (fun _ =>
      app_bind (app_wrap "failed to generate PKCS#12: "
                  (io (pkcs12.GeneratePKCS12 pkcs12Gen (Some leafCert) (Some leafKey)
                         (Some rootCert) (config.PKCS12Password c)))) (fun pfxData =>
      app_bind (io (io_check (fileio.WriteFile fileWriter
                                (fileio.GetPKCS12Path fileWriter) pfxData))) (fun _ =>
      app_bind (print (tick ++ " Generated PKCS#12 file: "
                       ++ fileio.GetPKCS12Path fileWriter ++ newline)) (fun _ =>
      app_bind (app_wrap "failed to convert leaf certificate to base64: "
                  (pure (encoding.ConvertCertificateToBase64DER (Some leafCert))))
        (fun leafBase64 =>
      app_bind (io (io_check (fileio_os.WriteBase64File fileWriter
                                (fileio.GetLeafBase64Path fileWriter) leafBase64))) (fun _ =>
      app_bind (app_wrap "failed to convert root certificate to base64: "
                  (pure (encoding.ConvertCertificateToBase64DER (Some rootCert))))
        (fun rootBase64 =>
      app_bind (io (io_check (fileio_os.WriteBase64File fileWriter
                                (fileio.GetRootBase64Path fileWriter) rootBase64))) (fun _ =>
      app_bind (print (newline ++ tick
                       ++ " Certificate generation completed successfully!"
                       ++ newline)) (fun _ =>
      app_bind (print (newline ++ "Generated files:" ++ newline)) (fun _ =>
      app_bind (print ("  - Root CA key:        "
                       ++ fileio.GetRootKeyPath fileWriter ++ newline)) (fun _ =>
      app_bind (print ("  - Root CA cert:       "
                       ++ fileio.GetRootCertPath fileWriter ++ newline)) (fun _ =>
      app_bind (print ("  - Leaf key:           "
                       ++ fileio.GetLeafKeyPath fileWriter ++ newline)) (fun _ =>
      app_bind (print ("  - Leaf cert:          "
                       ++ fileio.GetLeafCertPath fileWriter ++ newline)) (fun _ =>
      app_bind (print ("  - PKCS#12 bundle:     "
                       ++ fileio.GetPKCS12Path fileWriter ++ newline)) (fun _ =>
      app_bind (print ("  - Root CA (base64):   "
                       ++ fileio.GetRootBase64Path fileWriter ++ newline)) (fun _ =>
      app_bind (print ("  - Leaf cert (base64): "
                       ++ fileio.GetLeafBase64Path fileWriter ++ newline)) (fun _ =>
      app_ret tt)))))))))))))))))))))))))))))))))))
  end.

(** How the process ends. *)
Inductive exit : Type :=
| Exit (code : Z)
| Returned
| Panicked (msg : string).

(** The exit status of the process: that of [os.Exit], 0 when [main]
    returns, 2 when a panic ends it. *)
Definition status (e : exit) : Z :=
  match e with
  | Exit code => code
  | Returned => 0
  | Panicked _ => 2
  end.

(** [flag.Usage], as [main] sets it. *)
Definition Usage (fs : FS) : FS :=
  let fs := stderr_Write ("Certificate Generator v" ++ version ++ newline ++ newline) fs in
  let fs := stderr_Write ("Usage: " ++ os_Args0 ++ " [options]" ++ newline ++ newline) fs in
  let fs := stderr_Write ("Options:" ++ newline) fs in
  let fs := flag_PrintDefaults fs in
  let fs := stderr_Write (newline ++ "Example:" ++ newline) fs in
  stderr_Write ("  " ++ os_Args0
                ++ " --domain example.com --organization " ++ quote ++ "My Company"
                ++ quote ++ " --days 365" ++ newline) fs.

(** [main] from the return of [flag.Parse] on: [showVersion] and [cfg] hold
    what the flags set over the defaults.  A command line [flag.Parse]
    does not return from ([-h], an unknown flag, a value that does not
    parse) ends the process inside the library and is not modelled. *)
Definition main (showVersion : bool) (cfg : config.CertificateConfig)
  : World * FS -> exit * (World * FS) :=
  fun st =>
    if showVersion then
      (Exit 0, (fst st,
                stdout_Write ("Certificate Generator v" ++ version ++ newline) (snd st)))
    else if (config.Domain cfg =? "")%string then
      (Exit 1, (fst st,
                Usage (stderr_Write ("Error: --domain flag is required" ++ newline)
                         (snd st))))
    else if (config.ValidityDays cfg <=? 0) || (36500 <? config.ValidityDays cfg) then
      (Exit 1, (fst st,
                stderr_Write ("Error: --days must be between 1 and 36500 (100 years)"
                              ++ newline) (snd st)))
    else
      match run (Some cfg) st with
      | (Ok _, st') => (Returned, st')
      | (Err err, st') => (Exit 1, (fst st', log_Print ("Error: " ++ err) (snd st')))
      | (Panic p, st') => (Panicked p, st')
      end.

End WithOS.

End certgen.

(** ** A scripted operating system

    It records every call and answers as the script says: which calls
    fail, the directory [MkdirTemp] creates and the content [ReadFile]
    finds. *)

Module Scripted.

Inductive event : Type :=
| MkdirAll (path : string) (perm : Z)
| WriteFile (name : string) (data : bytes) (perm : Z)
| LookPath (file : string)
| MkdirTemp (dir pattern : string)
| ReadFile (name : string)
| RemoveAll (path : string)
| Stat (name : string)
| Run (name : string) (args : list string)
| Stdout (text : string)
| Stderr (text : string)
| Log (text : string)
| PrintDefaults.

Record script : Type := mkScript {
  fails : event -> option error;
  dirOf : string -> string;
  tempDir : string;
  content : string -> bytes
}.

Definition answer (s : script) (e : event) (log : list event)
  : option error * list event :=
  (fails s e, (log ++ [e])%list).

Definition answer_with {A} (s : script) (e : event) (a : A) (log : list event)
  : outcome A * list event :=
  (match fails s e with
   | Some err => Err err
   | None => Ok a
   end, (log ++ [e])%list).

Definition fs (s : script) : FileSystem :=
  {| FS := list event;
     os_MkdirAll := fun path perm => answer s (MkdirAll path perm);
     os_WriteFile := fun name data perm => answer s (WriteFile name data perm);
     filepath_Dir := dirOf s |}.

Definition process (s : script) : Process (fs s) :=
  @Build_Process (fs s)
    (* exec_LookPath *)
    (fun file => answer_with s (LookPath file) ("/usr/bin/" ++ file))
    (* os_MkdirTemp *)
    (fun dir pattern => answer_with s (MkdirTemp dir pattern) (tempDir s))
    (* os_ReadFile *)
    (fun name => answer_with s (ReadFile name) (content s name))
    (* os_RemoveAll *)
    (fun path => answer s (RemoveAll path))
    (* os_Stat *)
    (fun name => answer s (Stat name))
    (* exec_Run *)
    (fun name args => answer s (Run name args))
    (* filepath_Join *)
    (fun a b => a ++ "/" ++ b)
    (* stdout_Write, stderr_Write, log_Print, flag_PrintDefaults *)
    (fun text log => (log ++ [Stdout text])%list)
    (fun text log => (log ++ [Stderr text])%list)
    (fun text log => (log ++ [Log text])%list)
    (fun log => (log ++ [PrintDefaults])%list)
    (* os_Args0 *)
    "certgen".

(** The files written, in order, with their modes, and the directories
    removed. *)
Definition writes (log : list event) : list (string * bytes * Z) :=
  flat_map (fun e => match e with
                     | WriteFile name data perm => [(name, data, perm)]
                     | _ => []
                     end) log.

Definition written_modes (log : list event) : list (string * Z) :=
  map (fun f => (fst (fst f), snd f)) (writes log).

Definition removed (log : list event) : list string :=
  flat_map (fun e => match e with
                     | RemoveAll path => [path]
                     | _ => []
                     end) log.

Definition commands (log : list event) : list (string * list string) :=
  flat_map (fun e => match e with
                     | Run name args => [(name, args)]
                     | _ => []
                     end) log.

(** What a successful [GeneratePKCS12] asks of the system, in order. *)
Definition bundling (s : script) (certPEM keyPEM : bytes) (password : string)
  : list event :=
  [LookPath "openssl";
   MkdirTemp "" "certgen";
   WriteFile (tempDir s ++ "/leaf.pem") certPEM fileio.mode_0644;
   WriteFile (tempDir s ++ "/leaf.key") keyPEM fileio.mode_0600;
   Run "openssl"
     ["pkcs12"; "-export";
      "-out"; tempDir s ++ "/bundle.p12";
      "-inkey"; tempDir s ++ "/leaf.key";
      "-in"; tempDir s ++ "/leaf.pem";
      "-password"; "pass:" ++ password];
   ReadFile (tempDir s ++ "/bundle.p12");
   RemoveAll (tempDir s)].

(** The files the command [certgen] is meant to leave behind, with their
    modes. *)
Definition artifacts (fw : fileio.FileWriter) : list (string * Z) :=
  [(fileio.GetRootKeyPath fw, fileio.mode_0600);
   (fileio.GetRootCertPath fw, fileio.mode_0644);
   (fileio.GetLeafKeyPath fw, fileio.mode_0600);
   (fileio.GetLeafCertPath fw, fileio.mode_0644);
   (fileio.GetPKCS12Path fw, fileio.mode_0644);
   (fileio.GetLeafBase64Path fw, fileio.mode_0644);
   (fileio.GetRootBase64Path fw, fileio.mode_0644)].

(** What the command may ask of the system: its artifacts and their
    directories, the two files of the bundler in its temporary directory,
    the one openssl command, the removal of that directory, and standard
    output. *)
Definition allowed (s : script) (fw : fileio.FileWriter) (password : string)
    (e : event) : Prop :=
  match e with
  | MkdirAll path perm =>
      perm = fileio.mode_0755
      /\ exists name, In name (map fst (artifacts fw)) /\ path = dirOf s name
  | WriteFile name _ perm =>
      In (name, perm)
         (artifacts fw ++ [((tempDir s ++ "/leaf.pem")%string, fileio.mode_0644);
                           ((tempDir s ++ "/leaf.key")%string, fileio.mode_0600)])%list
  | LookPath file => file = "openssl"
  | MkdirTemp dir pattern => dir = "" /\ pattern = "certgen"
  | ReadFile name => name = tempDir s ++ "/bundle.p12"
  | RemoveAll path => path = tempDir s
  | Run name args =>
      name = "openssl"
      /\ args = ["pkcs12"; "-export";
                 "-out"; tempDir s ++ "/bundle.p12";
                 "-inkey"; tempDir s ++ "/leaf.key";
                 "-in"; tempDir s ++ "/leaf.pem";
                 "-password"; "pass:" ++ password]
  | Stdout _ => True
  | Stat _ | Stderr _ | Log _ | PrintDefaults => False
  end.

(** A call of the program that only adds to the trace, and only events
    that satisfy [ok]. *)
Definition adds {L : CryptoLib} (s : script) (ok : event -> Prop) {A : Type}
    (m : @certgen.App L (fs s) A) : Prop :=
  forall (w : World) (log : list event),
    exists ext, snd (snd (m (w, log))) = (log ++ ext)%list /\ Forall ok ext.

(** A script in which every call succeeds. *)
Definition all_succeed : script :=
  {| fails := fun _ => None;
     dirOf := fun _ => ".";
     tempDir := "/tmp/certgen123";
     content := fun _ => [x30; x82] |}.

(** A machine without openssl: [LookPath] fails and every other call
    succeeds. *)
Definition no_openssl : script :=
  {| fails := fun e => match e with
                       | LookPath _ =>
                           Some "exec: openssl: executable file not found in $PATH"
                       | _ => None
                       end;
     dirOf := fun _ => ".";
     tempDir := "/tmp/certgen123";
     content := fun _ => [x30; x82] |}.

(** A full disk: every [WriteFile] fails and every other call succeeds. *)
Definition disk_full : script :=
  {| fails := fun e => match e with
                       | WriteFile _ _ _ => Some "no space left on device"
                       | _ => None
                       end;
     dirOf := fun _ => ".";
     tempDir := "/tmp/certgen123";
     content := fun _ => [x30; x82] |}.

End Scripted.

(** ** Certificate requests

    [x509.CertificateRequest] with the fields the repository sets and
    reads, and the two functions of [crypto/x509] that build and parse
    one. *)

Module x509_csr.

Record CertificateRequest (PK : Type) : Type := mkCertificateRequest {
  Raw : bytes;
  RawTBSCertificateRequest : bytes;
  Signature : bytes;
  SignatureAlgorithm_ : x509.SignatureAlgorithm;
  PublicKey : option PK;
  Subject : pkix.Name;
  DNSNames : list string
}.

Arguments mkCertificateRequest {PK}.
Arguments Raw {PK}.
Arguments RawTBSCertificateRequest {PK}.
Arguments Signature {PK}.
Arguments SignatureAlgorithm_ {PK}.
Arguments PublicKey {PK}.
Arguments Subject {PK}.
Arguments DNSNames {PK}.

End x509_csr.

Class RequestLib (L : CryptoLib) : Type := {
  x509_CreateCertificateRequest :
    Rand -> x509_csr.CertificateRequest PublicKey -> option PrivateKey ->
    outcome bytes * Rand;
  x509_ParseCertificateRequest :
    bytes -> outcome (x509_csr.CertificateRequest PublicKey)
}.

(** Package [certificate], continued. *)

Module certificate_csr.

Section WithLib.

Context {L : CryptoLib} {Q : RequestLib L}.

Definition RequestTemplate (opts : config.CertificateOptions)
  : x509_csr.CertificateRequest PublicKey :=
  {| x509_csr.Raw := [];
     x509_csr.RawTBSCertificateRequest := [];
     x509_csr.Signature := [];
     x509_csr.SignatureAlgorithm_ := 0;
     x509_csr.PublicKey := None;
     x509_csr.Subject :=
       {| pkix.Country := [config.s_Country (config.o_Subject opts)];
          pkix.Province := [config.s_State (config.o_Subject opts)];
          pkix.Locality := [config.s_Locality (config.o_Subject opts)];
          pkix.Organization := [config.s_Organization (config.o_Subject opts)];
          pkix.OrganizationalUnit :=
            [config.s_OrganizationalUnit (config.o_Subject opts)];
          pkix.CommonName := config.s_CommonName (config.o_Subject opts) |};
     x509_csr.DNSNames := config.DNSNames opts |}.

Definition GenerateCertificateRequest (g : certificate.Generator)
    (key : option PrivateKey) : M (x509_csr.CertificateRequest PublicKey) :=
  opts <- config.GetLeafCertOptions (certificate.config g) ;;
  let template := RequestTemplate opts in
  csrDER <- wrap "failed to create certificate request: "
              (with_rand (fun r => x509_CreateCertificateRequest r template key)) ;;
  csr <- wrap "failed to parse certificate request: "
           (lift (x509_ParseCertificateRequest csrDER)) ;;
  ret csr.

(** [CertificateRequest.CheckSignature] *)
Definition CheckSignature (c : x509_csr.CertificateRequest PublicKey) : option error :=
  x509_checkSignature (x509_csr.SignatureAlgorithm_ c)
    (x509_csr.RawTBSCertificateRequest c) (x509_csr.Signature c)
    (x509_csr.PublicKey c).

End WithLib.

End certificate_csr.

(** What the repository takes for granted about certificate requests. *)
Section RequestContract.

Context {L : CryptoLib} {Q : RequestLib L}.

Class RequestLaws : Prop := {
  (** Parsing what [CreateCertificateRequest] built gives back the
      template's names, with the public half of the signing key, under a
      signature of that key. *)
  CreateCertificateRequest_sound : forall r tpl priv der r' csr,
    x509_CreateCertificateRequest r tpl (Some priv) = (Ok der, r') ->
    x509_ParseCertificateRequest der = Ok csr ->
    x509_csr.Raw csr = der
    /\ x509_csr.Subject csr = x509_csr.Subject tpl
    /\ x509_csr.DNSNames csr = x509_csr.DNSNames tpl
    /\ x509_csr.PublicKey csr = Some (Public priv)
    /\ certificate_csr.CheckSignature csr = None;
  (** [CreateCertificateRequest] accepts ASCII names and a valid key of
      at least 1024 bits; its result parses. *)
  CreateCertificateRequest_accepts : forall r tpl priv,
    rsa_Validate priv = true ->
    1024 <= BitLen (Public priv) ->
    name_encodable (x509_csr.Subject tpl) = true ->
    forallb x509.isIA5String (x509_csr.DNSNames tpl) = true ->
    exists der r' csr,
      x509_CreateCertificateRequest r tpl (Some priv) = (Ok der, r')
      /\ x509_ParseCertificateRequest der = Ok csr
}.

End RequestContract.

(** The reference implementation, continued. *)

Module ReferenceRequest.

Import Codec Reference.

(** The signed part of a request. *)
Definition enc_info (subject : pkix.Name) (dns : list string) (pub : Key) : bytes :=
  (enc_name subject ++ enc_list enc_string dns ++ enc_key pub)%list.

Definition dec_info : decoder (pkix.Name * list string * Key) :=
  dbind dec_name (fun subject =>
  dbind (dec_list dec_string) (fun dns =>
  dbind dec_key (fun key =>
  dret (subject, dns, key)))).

Definition CreateCertificateRequest (r : Z) (tpl : x509_csr.CertificateRequest Key)
    (priv : option Key) : outcome bytes * Z :=
  match priv with
  | Some priv =>
      let info := enc_info (x509_csr.Subject tpl) (x509_csr.DNSNames tpl)
                    (public priv) in
      (Ok (enc_bytes info ++ enc_bytes (sign priv info))%list, r)
  | None => (Panic nil_dereference, r)
  end.

Definition ParseCertificateRequest (der : bytes)
  : outcome (x509_csr.CertificateRequest Key) :=
  match dec_bytes der with
  | Some (info, rest) =>
      match dec_bytes rest with
      | Some (signature, []) =>
          match dec_info info with
          | Some ((subject, dns, key), []) =>
              Ok {| x509_csr.Raw := der;
                    x509_csr.RawTBSCertificateRequest := info;
                    x509_csr.Signature := signature;
                    x509_csr.SignatureAlgorithm_ := SHA256WithRSA;
                    x509_csr.PublicKey := Some key;
                    x509_csr.Subject := subject;
                    x509_csr.DNSNames := dns |}
          | _ => Err "x509: malformed certification request info"
          end
      | _ => Err "x509: malformed signature"
      end
  | None => Err "x509: malformed certificate request"
  end.

Definition lib : RequestLib Reference.lib :=
  @Build_RequestLib Reference.lib CreateCertificateRequest ParseCertificateRequest.

(** A configuration whose key size [GeneratePrivateKey] refuses. *)
Definition small_key_config : config.CertificateConfig :=
  {| config.Domain := "csr.example.com";
     config.Country := "CA";
     config.State := "Ontario";
     config.Locality := "Toronto";
     config.Organization := "CSR Test Org";
     config.OrganizationalUnit := "CSR Unit";
     config.ValidityDays := 0;
     config.KeySize := 512;
     config.PKCS12Password := "" |}.

(** A request for [csr.example.com] under a key of 2048 bits. *)
Definition request_run
  : outcome (x509_csr.CertificateRequest Key) * WorldOf Z :=
  @certificate_csr.GenerateCertificateRequest Reference.lib lib
    (certificate.NewGenerator (Some small_key_config)) (Some (2048, 77))
    Reference.world.

End ReferenceRequest.

(** ** More concrete runs *)

Module Scenarios.

(** A leaf of ten years under the root CA of [example.com]. *)
Definition long_lived_config : config.CertificateConfig :=
  {| config.Domain := "example.com";
     config.Country := "SG";
     config.State := "Singapore";
     config.Locality := "Singapore";
     config.Organization := "Erfi Corp";
     config.OrganizationalUnit := "Erfi Proxy";
     config.ValidityDays := 3650;
     config.KeySize := 2048;
     config.PKCS12Password := "yourPKCS12Password" |}.

Definition long_lived_leaf_run
  : outcome (x509.Certificate Reference.Key * Reference.Key) * @World Reference.lib :=
  match Examples.root_run with
  | (Ok (caCert, caKey), w) =>
      @certificate.GenerateLeafCertificate Reference.lib
        (certificate.NewGenerator (Some long_lived_config)) (Some caCert) (Some caKey) w
  | (Err e, w) => (Err e, w)
  | (Panic p, w) => (Panic p, w)
  end.

Definition leaf_certificate : option (x509.Certificate Reference.Key) :=
  match fst Examples.leaf_run with
  | Ok (cert, _) => Some cert
  | _ => None
  end.

Definition leaf_key : option Reference.Key :=
  match fst Examples.leaf_run with
  | Ok (_, key) => Some key
  | _ => None
  end.

(** The bundler on the leaf of [example.com]. *)
Definition bundle_run (s : Scripted.script) : outcome bytes * list Scripted.event :=
  @pkcs12.GeneratePKCS12 Reference.lib (Scripted.fs s) (Scripted.process s)
    pkcs12.NewGenerator leaf_certificate leaf_key Examples.root_certificate
    "yourPKCS12Password" [].

(** The command for [example.com]. *)
Definition program_run (s : Scripted.script)
  : outcome unit * (WorldOf Z * list Scripted.event) :=
  @certgen.run Reference.lib (Scripted.fs s) (Scripted.process s)
    (Some Reference.example_config) (Reference.world, []).

Definition main_run (s : Scripted.script)
  : certgen.exit * (WorldOf Z * list Scripted.event) :=
  @certgen.main Reference.lib (Scripted.fs s) (Scripted.process s)
    false Reference.example_config (Reference.world, []).

End Scenarios.

(** * Properties *)

(** ** Arithmetic of durations and instants *)

Lemma wrap64_id (z : Z) : int64_range z -> wrap64 z = z.
Proof.
  unfold int64_range, wrap64. intros H.
  rewrite Z.mod_small by lia. lia.
Qed.

Lemma day_is_whole_seconds : 24 * time.Hour = 86400 * time.Second.
Proof. reflexivity. Qed.

(** Within the validity range the command line accepts, the leaf's lifetime
    is computed without wrap-around. *)
Lemma leaf_ValidFor_exact (days : Z) :
  1 <= days <= 36500 ->
  mul64 (mul64 days 24) time.Hour = days * (24 * time.Hour).
Proof.
  intros H. unfold mul64.
  rewrite (wrap64_id (days * 24)) by (unfold int64_range; lia).
  rewrite wrap64_id.
  - unfold time.Hour, time.Minute, time.Second. lia.
  - unfold int64_range, time.Hour, time.Minute, time.Second. lia.
Qed.

(** Dropping the fraction of a second commutes with adding whole seconds. *)
Lemma asn1_time_Add (t : time.Time) (n : Z) :
  x509.asn1_time (time.Add t (n * time.Second))
  = time.Add (x509.asn1_time t) (n * time.Second).
Proof.
  unfold x509.asn1_time, time.Add.
  rewrite Z.div_add by (unfold time.Second; lia). lia.
Qed.

Lemma Sub_Add (t : time.Time) (d : time.Duration) :
  int64_range d -> time.Sub (time.Add t d) t = d.
Proof.
  unfold int64_range, time.Sub, time.Add, time.maxDuration, time.minDuration.
  intros H. replace (t + d - t) with d by lia.
  destruct (Z.ltb_spec (2 ^ 63 - 1) d); [lia|].
  destruct (Z.ltb_spec d (- 2 ^ 63)); [lia|reflexivity].
Qed.

(** ** Key-usage bit sets *)

Lemma root_keyUsage_bits (i : Z) :
  0 <= i ->
  Z.testbit (Z.lor x509.KeyUsageCertSign x509.KeyUsageCRLSign) i
  = (i =? 5) || (i =? 6).
Proof.
  intros Hi. change (Z.lor x509.KeyUsageCertSign x509.KeyUsageCRLSign) with 96.
  destruct (Z.ltb_spec i 7).
  - assert (H' : i = 0 \/ i = 1 \/ i = 2 \/ i = 3 \/ i = 4 \/ i = 5 \/ i = 6) by lia.
    destruct H' as [->|[->|[->|[->|[->|[->| ->]]]]]]; reflexivity.
  - replace 96 with (96 mod 2 ^ 7) by reflexivity.
    rewrite Z.mod_pow2_bits_high by lia.
    destruct (Z.eqb_spec i 5); [lia|]. destruct (Z.eqb_spec i 6); [lia|]. reflexivity.
Qed.

Lemma leaf_keyUsage_bits (i : Z) :
  0 <= i ->
  Z.testbit (Z.lor x509.KeyUsageDigitalSignature x509.KeyUsageKeyEncipherment) i
  = (i =? 0) || (i =? 2).
Proof.
  intros Hi.
  change (Z.lor x509.KeyUsageDigitalSignature x509.KeyUsageKeyEncipherment) with 5.
  destruct (Z.ltb_spec i 3).
  - assert (H' : i = 0 \/ i = 1 \/ i = 2) by lia.
    destruct H' as [->|[->| ->]]; reflexivity.
  - replace 5 with (5 mod 2 ^ 3) by reflexivity.
    rewrite Z.mod_pow2_bits_high by lia.
    destruct (Z.eqb_spec i 0); [lia|]. destruct (Z.eqb_spec i 2); [lia|]. reflexivity.
Qed.

(** ** Reading the monad *)

Section MonadLemmas.

Context {L : CryptoLib}.

Lemma bind_Ok_inv {A B} (m : M A) (k : A -> M B) (w w' : World) (b : B) :
  bind m k w = (Ok b, w') ->
  exists a w1, m w = (Ok a, w1) /\ k a w1 = (Ok b, w').
Proof.
  unfold bind. destruct (m w) as [[a|e|p] w1]; intros H; try discriminate.
  exists a, w1. split; [reflexivity|exact H].
Qed.

Lemma wrap_Ok_inv {A} (prefix : string) (m : M A) (w w' : World) (a : A) :
  wrap prefix m w = (Ok a, w') -> m w = (Ok a, w').
Proof.
  unfold wrap. destruct (m w) as [[a0|e|p] w1]; intros H; try discriminate; exact H.
Qed.

Lemma with_rand_Ok_inv {A} (f : Rand -> outcome A * Rand) (w w' : World) (a : A) :
  with_rand f w = (Ok a, w') ->
  exists r', f (rng w) = (Ok a, r') /\ w' = mkWorld r' (ticks w) (clock w).
Proof.
  unfold with_rand. destruct (f (rng w)) as [o r'] eqn:E. intros H.
  inversion H; subst. exists r'. split; reflexivity.
Qed.

Lemma lift_Ok_inv {A} (o : outcome A) (w w' : World) (a : A) :
  lift o w = (Ok a, w') -> o = Ok a /\ w' = w.
Proof. unfold lift. intros H. inversion H; subst. split; reflexivity. Qed.

Lemma GeneratePrivateKey_Ok_inv (g : certificate.Generator) (w w' : World)
    (k : PrivateKey) :
  certificate.GeneratePrivateKey g w = (Ok k, w') ->
  exists c r',
    certificate.config g = Some c
    /\ 1024 <= config.KeySize c
    /\ rsa_GenerateKey (rng w) (config.KeySize c) = (Ok k, r')
    /\ w' = mkWorld r' (ticks w) (clock w).
Proof.
  unfold certificate.GeneratePrivateKey.
  destruct (certificate.config g) as [c|]; [|discriminate].
  destruct (Z.ltb_spec (config.KeySize c) 1024); [discriminate|].
  intros Hk. apply wrap_Ok_inv, with_rand_Ok_inv in Hk. destruct Hk as (r' & H1 & H2).
  exists c, r'. auto.
Qed.

End MonadLemmas.

(** ** The options records *)

Section Options.

Context {L : CryptoLib}.

Lemma GetRootCAOptions_Ok_inv (c : option config.CertificateConfig) (w w' : World)
    (opts : config.CertificateOptions) :
  config.GetRootCAOptions c w = (Ok opts, w') ->
  exists cfg,
    c = Some cfg
    /\ w' = mkWorld (rng w) (S (ticks w)) (clock w)
    /\ config.s_CommonName (config.o_Subject opts) = config.Domain cfg
    /\ config.DNSNames opts = [config.Domain cfg]
    /\ config.ValidFrom opts = clock w (ticks w)
    /\ config.ValidFor opts = 1024 * 24 * time.Hour
    /\ config.IsCA opts = true
    /\ config.KeyUsage opts = ["keyCertSign"; "cRLSign"]
    /\ config.ExtKeyUsage opts = [].
Proof.
  destruct c as [cfg|]; simpl; [|discriminate].
  unfold bind, time_Now, ret. intros H. inversion H; subst; clear H.
  exists cfg. simpl. repeat split; reflexivity.
Qed.

Lemma GetLeafCertOptions_Ok_inv (c : option config.CertificateConfig) (w w' : World)
    (opts : config.CertificateOptions) :
  config.GetLeafCertOptions c w = (Ok opts, w') ->
  exists cfg,
    c = Some cfg
    /\ w' = mkWorld (rng w) (S (ticks w)) (clock w)
    /\ config.s_CommonName (config.o_Subject opts) = config.Domain cfg
    /\ config.DNSNames opts = [config.Domain cfg]
    /\ config.ValidFrom opts = clock w (ticks w)
    /\ config.ValidFor opts = mul64 (mul64 (config.ValidityDays cfg) 24) time.Hour
    /\ config.IsCA opts = false
    /\ config.KeyUsage opts = ["digitalSignature"; "nonRepudiation";
                               "keyEncipherment"; "dataEncipherment"]
    /\ config.ExtKeyUsage opts = ["serverAuth"; "clientAuth"].
Proof.
  destruct c as [cfg|]; simpl; [|discriminate].
  unfold bind, time_Now, ret. intros H. inversion H; subst; clear H.
  exists cfg. simpl. repeat split; reflexivity.
Qed.

(** The options records are always produced for a configuration that is
    there. *)
Lemma GetRootCAOptions_total (cfg : config.CertificateConfig) (w : World) :
  exists opts,
    config.GetRootCAOptions (Some cfg) w
    = (Ok opts, mkWorld (rng w) (S (ticks w)) (clock w)).
Proof. eexists. reflexivity. Qed.

Lemma GetLeafCertOptions_total (cfg : config.CertificateConfig) (w : World) :
  exists opts,
    config.GetLeafCertOptions (Some cfg) w
    = (Ok opts, mkWorld (rng w) (S (ticks w)) (clock w)).
Proof. eexists. reflexivity. Qed.

End Options.

(** ** What a successful run of the generator went through *)

Section Runs.

Context {L : CryptoLib}.

Lemma GenerateRootCA_Ok_inv (g : certificate.Generator) (w w' : World)
    (cert : x509.Certificate PublicKey) (key : PrivateKey) :
  certificate.GenerateRootCA g w = (Ok (cert, key), w') ->
  exists cfg r1 opts serialNumber r2 der r3,
    certificate.config g = Some cfg
    /\ 1024 <= config.KeySize cfg
    /\ rsa_GenerateKey (rng w) (config.KeySize cfg) = (Ok key, r1)
    /\ config.GetRootCAOptions (Some cfg) (mkWorld r1 (ticks w) (clock w))
       = (Ok opts, mkWorld r1 (S (ticks w)) (clock w))
    /\ rand_Int r1 certificate.serialLimit = (Ok serialNumber, r2)
    /\ x509_CreateCertificate r2
         (certificate.RootCATemplate opts serialNumber)
         (Some (certificate.RootCATemplate opts serialNumber))
         (Public key) (Some key) = (Ok der, r3)
    /\ x509_ParseCertificate der = Ok cert
    /\ w' = mkWorld r3 (S (ticks w)) (clock w).
Proof.
  unfold certificate.GenerateRootCA. intros H.
  apply bind_Ok_inv in H. destruct H as (k & w1 & Hk & H).
  apply GeneratePrivateKey_Ok_inv in Hk. destruct Hk as (cfg & r1 & Hc & Hsz & Hgen & ->).
  rewrite Hc in H.
  apply bind_Ok_inv in H. destruct H as (opts & w2 & Ho & H).
  pose proof Ho as Ho'.
  apply GetRootCAOptions_Ok_inv in Ho'. destruct Ho' as (cfg' & _ & -> & _).
  simpl in H, Ho.
  apply bind_Ok_inv in H. destruct H as (s & w3 & Hs & H).
  apply wrap_Ok_inv, with_rand_Ok_inv in Hs. destruct Hs as (r2 & Hs & ->).
  simpl in Hs, H.
  apply bind_Ok_inv in H. destruct H as (der & w4 & Hd & H).
  apply wrap_Ok_inv, with_rand_Ok_inv in Hd. destruct Hd as (r3 & Hd & ->).
  simpl in Hd, H.
  apply bind_Ok_inv in H. destruct H as (c & w5 & Hp & H).
  apply wrap_Ok_inv, lift_Ok_inv in Hp. destruct Hp as (Hp & ->).
  unfold ret in H. inversion H; subst; clear H.
  exists cfg, r1, opts, s, r2, der, r3. repeat split; assumption || reflexivity.
Qed.

Lemma GenerateLeafCertificate_Ok_inv (g : certificate.Generator)
    (caCert : option (x509.Certificate PublicKey)) (caKey : option PrivateKey)
    (w w' : World) (cert : x509.Certificate PublicKey) (key : PrivateKey) :
  certificate.GenerateLeafCertificate g caCert caKey w = (Ok (cert, key), w') ->
  exists cfg r1 opts serialNumber r2 der r3,
    certificate.config g = Some cfg
    /\ 1024 <= config.KeySize cfg
    /\ rsa_GenerateKey (rng w) (config.KeySize cfg) = (Ok key, r1)
    /\ config.GetLeafCertOptions (Some cfg) (mkWorld r1 (ticks w) (clock w))
       = (Ok opts, mkWorld r1 (S (ticks w)) (clock w))
    /\ rand_Int r1 certificate.serialLimit = (Ok serialNumber, r2)
    /\ x509_CreateCertificate r2
         (certificate.LeafTemplate opts serialNumber) caCert
         (Public key) caKey = (Ok der, r3)
    /\ x509_ParseCertificate der = Ok cert
    /\ w' = mkWorld r3 (S (ticks w)) (clock w).
Proof.
  unfold certificate.GenerateLeafCertificate. intros H.
  apply bind_Ok_inv in H. destruct H as (k & w1 & Hk & H).
  apply GeneratePrivateKey_Ok_inv in Hk. destruct Hk as (cfg & r1 & Hc & Hsz & Hgen & ->).
  rewrite Hc in H.
  apply bind_Ok_inv in H. destruct H as (opts & w2 & Ho & H).
  pose proof Ho as Ho'.
  apply GetLeafCertOptions_Ok_inv in Ho'. destruct Ho' as (cfg' & _ & -> & _).
  simpl in H, Ho.
  apply bind_Ok_inv in H. destruct H as (s & w3 & Hs & H).
  apply wrap_Ok_inv, with_rand_Ok_inv in Hs. destruct Hs as (r2 & Hs & ->).
  simpl in Hs, H.
  apply bind_Ok_inv in H. destruct H as (der & w4 & Hd & H).
  apply wrap_Ok_inv, with_rand_Ok_inv in Hd. destruct Hd as (r3 & Hd & ->).
  simpl in Hd, H.
  apply bind_Ok_inv in H. destruct H as (c & w5 & Hp & H).
  apply wrap_Ok_inv, lift_Ok_inv in Hp. destruct Hp as (Hp & ->).
  unfold ret in H. inversion H; subst; clear H.
  exists cfg, r1, opts, s, r2, der, r3. repeat split; assumption || reflexivity.
Qed.

(** Conversely, the root CA is returned as soon as each library call
    succeeds: the generator adds no check of its own after the key size. *)
Lemma GenerateRootCA_runs (g : certificate.Generator) (w : World)
    (cfg : config.CertificateConfig) (key : PrivateKey) (r1 r2 r3 : Rand)
    (opts : config.CertificateOptions) (serialNumber : Z) (der : bytes)
    (cert : x509.Certificate PublicKey) :
  certificate.config g = Some cfg ->
  1024 <= config.KeySize cfg ->
  rsa_GenerateKey (rng w) (config.KeySize cfg) = (Ok key, r1) ->
  config.GetRootCAOptions (Some cfg) (mkWorld r1 (ticks w) (clock w))
  = (Ok opts, mkWorld r1 (S (ticks w)) (clock w)) ->
  rand_Int r1 certificate.serialLimit = (Ok serialNumber, r2) ->
  x509_CreateCertificate r2
    (certificate.RootCATemplate opts serialNumber)
    (Some (certificate.RootCATemplate opts serialNumber))
    (Public key) (Some key) = (Ok der, r3) ->
  x509_ParseCertificate der = Ok cert ->
  certificate.GenerateRootCA g w
  = (Ok (cert, key), mkWorld r3 (S (ticks w)) (clock w)).
Proof.
  intros Hc Hsz Hgen Ho Hs Hd Hp.
  unfold certificate.GenerateRootCA, certificate.GeneratePrivateKey.
  rewrite Hc. destruct (Z.ltb_spec (config.KeySize cfg) 1024); [lia|].
  unfold bind at 1. unfold wrap at 1. unfold with_rand at 1. rewrite Hgen.
  unfold bind at 1. rewrite Ho.
  unfold bind at 1. unfold wrap at 1. unfold with_rand at 1. simpl rng. rewrite Hs.
  unfold bind at 1. unfold wrap at 1. unfold with_rand at 1. simpl rng. rewrite Hd.
  unfold bind at 1. unfold wrap at 1. unfold lift at 1. rewrite Hp.
  reflexivity.
Qed.

End Runs.

(** ** The reference implementation meets the contract *)

Section CodecLemmas.

Import Codec.
Local Open Scope list_scope.

Lemma bytes_eqb_refl (a : bytes) : bytes_eqb a a = true.
Proof.
  induction a as [|x a IH]; simpl; [reflexivity|].
  rewrite IH, (Byte.byte_dec_lb eq_refl). reflexivity.
Qed.

Lemma dbind_enc {A B} (d : decoder A) (k : A -> decoder B) (l r : bytes) (a : A) :
  d l = Some (a, r) -> dbind d k l = k a r.
Proof. unfold dbind. intros ->. reflexivity. Qed.

Lemma dec_pos_enc (p : positive) (rest : bytes) :
  dec_pos (enc_pos p ++ rest) = Some (p, rest).
Proof.
  induction p as [q IH|q IH|]; simpl; try rewrite IH; reflexivity.
Qed.

Lemma dec_Z_enc (z : Z) (rest : bytes) :
  dec_Z (enc_Z z ++ rest) = Some (z, rest).
Proof.
  destruct z as [|p|p]; simpl; try rewrite dec_pos_enc; reflexivity.
Qed.

Lemma dec_nat_enc (n : nat) (rest : bytes) :
  dec_nat (enc_nat n ++ rest) = Some (n, rest).
Proof.
  unfold dec_nat, enc_nat. rewrite (dbind_enc _ _ _ _ _ (dec_Z_enc _ _)).
  destruct (Z.ltb_spec (Z.of_nat n) 0); [lia|].
  unfold dret. rewrite Nat2Z.id. reflexivity.
Qed.

Lemma dec_bool_enc (b : bool) (rest : bytes) :
  dec_bool (enc_bool b ++ rest) = Some (b, rest).
Proof. destruct b; reflexivity. Qed.

Lemma firstn_length_app {A} (l r : list A) : firstn (List.length l) (l ++ r) = l.
Proof. induction l as [|x l IH]; simpl; [reflexivity|]. rewrite IH. reflexivity. Qed.

Lemma skipn_length_app {A} (l r : list A) : skipn (List.length l) (l ++ r) = r.
Proof. induction l as [|x l IH]; simpl; [reflexivity|exact IH]. Qed.

Lemma dec_bytes_enc (b rest : bytes) :
  dec_bytes (enc_bytes b ++ rest) = Some (b, rest).
Proof.
  unfold dec_bytes, enc_bytes. rewrite <- app_assoc.
  rewrite (dbind_enc _ _ _ _ _ (dec_nat_enc _ _)).
  rewrite length_app.
  destruct (Nat.leb_spec (List.length b) (List.length b + List.length rest)); [|lia].
  rewrite firstn_length_app, skipn_length_app. reflexivity.
Qed.

Lemma dec_string_enc (s : string) (rest : bytes) :
  dec_string (enc_string s ++ rest) = Some (s, rest).
Proof.
  unfold dec_string, enc_string.
  rewrite (dbind_enc _ _ _ _ _ (dec_bytes_enc _ _)).
  unfold dret. rewrite string_of_list_byte_of_string. reflexivity.
Qed.

Lemma dec_items_enc {A} (enc : A -> bytes) (dec : decoder A) :
  (forall a rest, dec (enc a ++ rest) = Some (a, rest)) ->
  forall xs rest,
    dec_items dec (List.length xs) (flat_map enc xs ++ rest) = Some (xs, rest).
Proof.
  intros Hdec xs. induction xs as [|x xs IH]; intros rest; simpl; [reflexivity|].
  rewrite <- app_assoc.
  rewrite (dbind_enc _ _ _ _ _ (Hdec _ _)).
  rewrite (dbind_enc _ _ _ _ _ (IH _)). reflexivity.
Qed.

Lemma dec_list_enc {A} (enc : A -> bytes) (dec : decoder A) :
  (forall a rest, dec (enc a ++ rest) = Some (a, rest)) ->
  forall xs rest, dec_list dec (enc_list enc xs ++ rest) = Some (xs, rest).
Proof.
  intros Hdec xs rest. unfold dec_list, enc_list. rewrite <- app_assoc.
  rewrite (dbind_enc _ _ _ _ _ (dec_nat_enc _ _)).
  apply dec_items_enc, Hdec.
Qed.

Lemma dec_strings_enc (xs : list string) (rest : bytes) :
  dec_list dec_string (enc_list enc_string xs ++ rest) = Some (xs, rest).
Proof. apply dec_list_enc, dec_string_enc. Qed.

End CodecLemmas.

Section ReferenceLemmas.

Import Codec Reference.
Local Open Scope list_scope.

Lemma dec_key_enc (k : Key) (rest : bytes) :
  dec_key (enc_key k ++ rest) = Some (k, rest).
Proof.
  destruct k as [a b]. unfold dec_key, enc_key. simpl fst. simpl snd.
  rewrite <- app_assoc.
  rewrite (dbind_enc _ _ _ _ _ (dec_Z_enc _ _)).
  rewrite (dbind_enc _ _ _ _ _ (dec_Z_enc _ _)). reflexivity.
Qed.

Lemma eku_of_code_code (e : x509.ExtKeyUsage) : eku_of_code (eku_code e) = Some e.
Proof. destruct e; reflexivity. Qed.

Lemma dec_eku_enc (e : x509.ExtKeyUsage) (rest : bytes) :
  dec_eku (enc_eku e ++ rest) = Some (e, rest).
Proof.
  unfold dec_eku, enc_eku. rewrite (dbind_enc _ _ _ _ _ (dec_Z_enc _ _)).
  rewrite eku_of_code_code. reflexivity.
Qed.

Lemma dec_ekus_enc (xs : list x509.ExtKeyUsage) (rest : bytes) :
  dec_list dec_eku (enc_list enc_eku xs ++ rest) = Some (xs, rest).
Proof. apply dec_list_enc, dec_eku_enc. Qed.

Lemma dec_name_enc (n : pkix.Name) (rest : bytes) :
  dec_name (enc_name n ++ rest) = Some (n, rest).
Proof.
  destruct n as [c o ou l p cn]. unfold dec_name, enc_name. simpl.
  rewrite <- !app_assoc.
  rewrite (dbind_enc _ _ _ _ _ (dec_strings_enc _ _)).
  rewrite (dbind_enc _ _ _ _ _ (dec_strings_enc _ _)).
  rewrite (dbind_enc _ _ _ _ _ (dec_strings_enc _ _)).
  rewrite (dbind_enc _ _ _ _ _ (dec_strings_enc _ _)).
  rewrite (dbind_enc _ _ _ _ _ (dec_strings_enc _ _)).
  rewrite (dbind_enc _ _ _ _ _ (dec_string_enc _ _)).
  reflexivity.
Qed.

Lemma dec_tbs_enc (t : TBS) (rest : bytes) :
  dec_tbs (enc_tbs t ++ rest) = Some (t, rest).
Proof.
  destruct t. unfold dec_tbs, enc_tbs. simpl.
  rewrite <- !app_assoc.
  rewrite (dbind_enc _ _ _ _ _ (dec_Z_enc _ _)).
  rewrite (dbind_enc _ _ _ _ _ (dec_name_enc _ _)).
  rewrite (dbind_enc _ _ _ _ _ (dec_name_enc _ _)).
  rewrite (dbind_enc _ _ _ _ _ (dec_Z_enc _ _)).
  rewrite (dbind_enc _ _ _ _ _ (dec_Z_enc _ _)).
  rewrite (dbind_enc _ _ _ _ _ (dec_Z_enc _ _)).
  rewrite (dbind_enc _ _ _ _ _ (dec_ekus_enc _ _)).
  rewrite (dbind_enc _ _ _ _ _ (dec_bool_enc _ _)).
  rewrite (dbind_enc _ _ _ _ _ (dec_bool_enc _ _)).
  rewrite (dbind_enc _ _ _ _ _ (dec_strings_enc _ _)).
  rewrite (dbind_enc _ _ _ _ _ (dec_key_enc _ _)).
  reflexivity.
Qed.

Lemma ParseCertificate_CreateCertificate (r : Z) (tpl parent : x509.Certificate Key)
    (pub priv : Key) :
  exists der,
    CreateCertificate r tpl (Some parent) pub (Some priv) = (Ok der, r)
    /\ ParseCertificate der
       = Ok (certificate_of der (enc_tbs (tbs_of tpl parent pub))
               (sign priv (enc_tbs (tbs_of tpl parent pub)))
               (tbs_of tpl parent pub)).
Proof.
  eexists. split; [reflexivity|].
  unfold ParseCertificate.
  rewrite dec_bytes_enc.
  rewrite <- (app_nil_r (enc_bytes (sign priv _))).
  rewrite dec_bytes_enc.
  rewrite <- (app_nil_r (enc_tbs _)) at 1.
  rewrite dec_tbs_enc. rewrite !app_nil_r. reflexivity.
Qed.

Lemma ParseCertificate_keeps_Raw (der : bytes) (c : x509.Certificate Key) :
  ParseCertificate der = Ok c -> x509.Raw c = der.
Proof.
  unfold ParseCertificate.
  destruct (dec_bytes der) as [[tbs rest]|]; [|discriminate].
  destruct (dec_bytes rest) as [[sg [|? ?]]|]; try discriminate.
  destruct (dec_tbs tbs) as [[t [|? ?]]|]; try discriminate.
  intros H. inversion H. reflexivity.
Qed.

(** The reference implementation meets every clause of the contract. *)
Lemma Reference_laws : CryptoLaws lib.
Proof.
  constructor.
  - (* GenerateKey_sound *)
    intros r bits k r'. cbn. unfold GenerateKey.
    destruct (Z.ltb_spec bits 2); [discriminate|].
    intros H0. inversion H0; subst. cbn. split; [reflexivity|].
    unfold validate. cbn. apply Z.ltb_lt. lia.
  - (* rand_Int_range *)
    intros r max n r'. cbn. unfold Int.
    destruct (Z.leb_spec max 0); [discriminate|].
    intros H0. inversion H0; subst. apply Z.mod_pos_bound. lia.
  - (* ParseCertificate_Raw *)
    exact ParseCertificate_keeps_Raw.
  - (* CreateCertificate_sound *)
    intros r tpl parent pub priv der r' c Hc Hp.
    destruct (ParseCertificate_CreateCertificate r tpl parent pub priv)
      as (der0 & Hc0 & Hp0).
    pose proof (eq_trans (eq_sym Hc0) Hc) as E. inversion E; subst der0 r'.
    pose proof (eq_trans (eq_sym Hp0) Hp) as E'. inversion E'; subst c.
    constructor; try reflexivity.
    cbn. unfold sign. rewrite bytes_eqb_refl. reflexivity.
  - (* CreateCertificate_accepts *)
    intros r tpl parent kp ks _ _ _ _ _ _ _.
    destruct (ParseCertificate_CreateCertificate r tpl parent (public kp) ks)
      as (der0 & Hc0 & Hp0).
    exists der0, r. eexists. split; [exact Hc0|exact Hp0].
  - (* PKCS8_roundtrip *)
    intros k Hk. eexists. split; [reflexivity|].
    cbn. unfold ParsePKCS8PrivateKey.
    change (Byte.eqb x30 x30) with true. cbv iota.
    rewrite <- (app_nil_r (enc_key k)), dec_key_enc.
    cbn in Hk. rewrite Hk. reflexivity.
  - (* PEM_roundtrip *)
    intros label body _. cbn. unfold Decode, EncodeToMemory. cbn.
    rewrite dec_string_enc.
    rewrite <- (app_nil_r (enc_bytes body)), dec_bytes_enc. reflexivity.
Qed.

End ReferenceLemmas.


(** ** The key and certificate generator *)

Section Generator.

Context {L : CryptoLib} {HL : CryptoLaws L}.

(** C3.  [GeneratePrivateKey] fails exactly when the configuration is nil,
    the key size is below 1024 bits (zero and negative sizes included) or
    the entropy source fails in [rsa.GenerateKey]; for a configuration with a
    key size of at least 1024 bits it returns the key [rsa.GenerateKey]
    returns, whose modulus has exactly the configured number of bits. *)
Theorem GeneratePrivateKey_spec (g : certificate.Generator) (w : World) :
  (is_err (fst (certificate.GeneratePrivateKey g w)) = true <->
     certificate.config g = None
     \/ exists c, certificate.config g = Some c
                  /\ (config.KeySize c < 1024
                      \/ is_err (fst (rsa_GenerateKey (rng w) (config.KeySize c))) = true))
  /\ (certificate.config g = None ->
      fst (certificate.GeneratePrivateKey g w) = Err "configuration is nil")
  /\ (forall c, certificate.config g = Some c -> config.KeySize c < 1024 ->
      fst (certificate.GeneratePrivateKey g w)
      = Err "key size must be at least 1024 bits")
  /\ (forall c k r', certificate.config g = Some c -> 1024 <= config.KeySize c ->
      rsa_GenerateKey (rng w) (config.KeySize c) = (Ok k, r') ->
      certificate.GeneratePrivateKey g w = (Ok k, mkWorld r' (ticks w) (clock w))
      /\ BitLen (Public k) = config.KeySize c)
  /\ (forall k w', certificate.GeneratePrivateKey g w = (Ok k, w') ->
      exists c, certificate.config g = Some c
                /\ 1024 <= config.KeySize c
                /\ BitLen (Public k) = config.KeySize c).
Proof.
  split; [|split; [|split; [|split]]].
  - unfold certificate.GeneratePrivateKey.
    destruct (certificate.config g) as [c|].
    + destruct (Z.ltb_spec (config.KeySize c) 1024) as [Hlt|Hge].
      * split; [|reflexivity]. intros _. right. exists c. auto.
      * unfold wrap, with_rand.
        destruct (rsa_GenerateKey (rng w) (config.KeySize c)) as [[k|e|p] r'] eqn:Hgen;
          simpl.
        -- split; [discriminate|].
           intros [E|(c' & E & [Hsz|E'])]; try discriminate.
           ++ inversion E; subst. lia.
           ++ inversion E; subst. rewrite Hgen in E'. discriminate.
        -- split; [|reflexivity]. intros _. right. exists c.
           rewrite Hgen. auto.
        -- split; [discriminate|].
           intros [E|(c' & E & [Hsz|E'])]; try discriminate.
           ++ inversion E; subst. lia.
           ++ inversion E; subst. rewrite Hgen in E'. discriminate.
    + split; [|reflexivity]. intros _. left. reflexivity.
  - unfold certificate.GeneratePrivateKey. intros ->. reflexivity.
  - unfold certificate.GeneratePrivateKey. intros c -> Hsz.
    destruct (Z.ltb_spec (config.KeySize c) 1024); [reflexivity|lia].
  - unfold certificate.GeneratePrivateKey. intros c k r' -> Hsz Hgen.
    destruct (Z.ltb_spec (config.KeySize c) 1024); [lia|].
    unfold wrap, with_rand. rewrite Hgen. split; [reflexivity|].
    apply (GenerateKey_sound _ _ _ _ Hgen).
  - intros k w' H. apply GeneratePrivateKey_Ok_inv in H.
    destruct H as (c & r' & Hc & Hsz & Hgen & _).
    exists c. repeat split; try assumption.
    apply (GenerateKey_sound _ _ _ _ Hgen).
Qed.

(** An issuer that [GenerateRootCA] returned may sign: every certificate
    whose signature its key accepts passes [CheckSignatureFrom] against it. *)
Lemma root_may_sign (opts : config.CertificateOptions) (serialNumber : Z)
    (key : PrivateKey) (caCert c : x509.Certificate PublicKey) :
  issued_from (certificate.RootCATemplate opts serialNumber)
    (certificate.RootCATemplate opts serialNumber) (Public key) key caCert ->
  x509_checkSignature (x509.SignatureAlgorithm_ c) (x509.RawTBSCertificate c)
    (x509.Signature c) (Some (Public key)) = None ->
  CheckSignatureFrom c caCert = None.
Proof.
  intros I Hsig. unfold CheckSignatureFrom.
  rewrite (iss_Version _ _ _ _ _ I), (iss_BasicConstraintsValid _ _ _ _ _ I),
    (iss_IsCA _ _ _ _ _ I), (iss_KeyUsage _ _ _ _ _ I),
    (iss_PublicKeyAlgorithm _ _ _ _ _ I), (iss_PublicKey _ _ _ _ _ I).
  simpl. exact Hsig.
Qed.

(** C1.  A certificate returned by [GenerateRootCA] is a CA certificate, its
    self-signature verifies, its key usage is exactly certificate signing
    and CRL signing, its DNS names are the configured domain alone, and it
    expires exactly 1024 days after its [NotBefore]; the configured
    [ValidityDays] has no influence on the call. *)
Theorem GenerateRootCA_certificate (g : certificate.Generator) (w w' : World)
    (cert : x509.Certificate PublicKey) (key : PrivateKey) :
  certificate.GenerateRootCA g w = (Ok (cert, key), w') ->
  exists cfg,
    certificate.config g = Some cfg
    /\ x509.IsCA cert = true
    /\ CheckSignatureFrom cert cert = None
    /\ x509.KeyUsage_ cert = Z.lor x509.KeyUsageCertSign x509.KeyUsageCRLSign
    /\ (forall i, 0 <= i ->
        Z.testbit (x509.KeyUsage_ cert) i = (i =? 5) || (i =? 6))
    /\ x509.DNSNames cert = [config.Domain cfg]
    /\ x509.NotAfter cert = time.Add (x509.NotBefore cert) (1024 * (24 * time.Hour))
    /\ time.Sub (x509.NotAfter cert) (x509.NotBefore cert) = 1024 * (24 * time.Hour)
    /\ (forall days,
        certificate.GenerateRootCA
          (certificate.NewGenerator
             (Some {| config.Domain := config.Domain cfg;
                      config.Country := config.Country cfg;
                      config.State := config.State cfg;
                      config.Locality := config.Locality cfg;
                      config.Organization := config.Organization cfg;
                      config.OrganizationalUnit := config.OrganizationalUnit cfg;
                      config.ValidityDays := days;
                      config.KeySize := config.KeySize cfg;
                      config.PKCS12Password := config.PKCS12Password cfg |})) w
        = (Ok (cert, key), w')).
Proof.
  intros H. pose proof H as Hrun. apply GenerateRootCA_Ok_inv in H.
  destruct H as (cfg & r1 & opts & s & r2 & der & r3 & Hc & _ & _ & Ho & _ & Hd & Hp & _).
  pose proof (CreateCertificate_sound _ _ _ _ _ _ _ _ Hd Hp) as I.
  apply GetRootCAOptions_Ok_inv in Ho.
  destruct Ho as (cfg' & E & _ & _ & Hdns & Hvf & Hfor & _).
  inversion E; subst cfg'; clear E.
  assert (Hku : x509.KeyUsage_ cert = Z.lor x509.KeyUsageCertSign x509.KeyUsageCRLSign).
  { rewrite (iss_KeyUsage _ _ _ _ _ I). reflexivity. }
  assert (Hna : x509.NotAfter cert
                = time.Add (x509.NotBefore cert) (1024 * (24 * time.Hour))).
  { rewrite (iss_NotAfter _ _ _ _ _ I), (iss_NotBefore _ _ _ _ _ I).
    unfold certificate.RootCATemplate. cbn [x509.NotAfter x509.NotBefore].
    rewrite Hfor.
    replace (1024 * 24 * time.Hour) with ((1024 * 86400) * time.Second) by reflexivity.
    replace (1024 * (24 * time.Hour)) with ((1024 * 86400) * time.Second) by reflexivity.
    apply asn1_time_Add. }
  exists cfg. split; [exact Hc|]. split.
  { rewrite (iss_IsCA _ _ _ _ _ I). reflexivity. }
  split.
  { eapply root_may_sign; [exact I|]. exact (iss_Signature _ _ _ _ _ I). }
  split; [exact Hku|]. split.
  { intros i Hi. rewrite Hku. apply root_keyUsage_bits, Hi. }
  split.
  { rewrite (iss_DNSNames _ _ _ _ _ I). exact Hdns. }
  split; [exact Hna|]. split.
  { rewrite Hna. apply Sub_Add.
    unfold int64_range, time.Hour, time.Minute, time.Second. lia. }
  intros days. rewrite <- Hrun.
  unfold certificate.GenerateRootCA, certificate.GeneratePrivateKey,
    certificate.NewGenerator.
  rewrite Hc. reflexivity.
Qed.

(** C2.  With [ValidityDays] between 1 and 36500 and an issuer that
    [GenerateRootCA] returned, a certificate returned by
    [GenerateLeafCertificate] is not a CA certificate, its signature
    verifies against the issuer's certificate, its extended key usage
    holds server and client authentication, and its lifetime is
    [ValidityDays] days to the nanosecond, hence within a minute of it. *)
Theorem GenerateLeafCertificate_certificate
    (g0 g : certificate.Generator) (cfg : config.CertificateConfig)
    (w0 w0' w w' : World)
    (caCert cert : x509.Certificate PublicKey) (caKey key : PrivateKey) :
  certificate.config g = Some cfg ->
  1 <= config.ValidityDays cfg <= 36500 ->
  certificate.GenerateRootCA g0 w0 = (Ok (caCert, caKey), w0') ->
  certificate.GenerateLeafCertificate g (Some caCert) (Some caKey) w
  = (Ok (cert, key), w') ->
  x509.IsCA cert = false
  /\ CheckSignatureFrom cert caCert = None
  /\ In x509.ExtKeyUsageServerAuth (x509.ExtKeyUsage_ cert)
  /\ In x509.ExtKeyUsageClientAuth (x509.ExtKeyUsage_ cert)
  /\ time.Sub (x509.NotAfter cert) (x509.NotBefore cert)
     = config.ValidityDays cfg * (24 * time.Hour)
  /\ config.ValidityDays cfg * (24 * time.Hour) - time.Minute
     <= time.Sub (x509.NotAfter cert) (x509.NotBefore cert)
     <= config.ValidityDays cfg * (24 * time.Hour) + time.Minute.
Proof.
  intros Hcfg Hdays Hroot Hleaf.
  apply GenerateRootCA_Ok_inv in Hroot.
  destruct Hroot as (cfg0 & q1 & opts0 & s0 & q2 & der0 & q3
                     & _ & _ & _ & _ & _ & Hd0 & Hp0 & _).
  pose proof (CreateCertificate_sound _ _ _ _ _ _ _ _ Hd0 Hp0) as I0.
  apply GenerateLeafCertificate_Ok_inv in Hleaf.
  destruct Hleaf as (cfg' & r1 & opts & s & r2 & der & r3
                     & Hc & _ & _ & Ho & _ & Hd & Hp & _).
  rewrite Hcfg in Hc. inversion Hc; subst cfg'; clear Hc.
  pose proof (CreateCertificate_sound _ _ _ _ _ _ _ _ Hd Hp) as I.
  apply GetLeafCertOptions_Ok_inv in Ho.
  destruct Ho as (cfg' & E & _ & _ & _ & _ & Hfor & _).
  inversion E; subst cfg'; clear E.
  assert (Hspan : time.Sub (x509.NotAfter cert) (x509.NotBefore cert)
                  = config.ValidityDays cfg * (24 * time.Hour)).
  { rewrite (iss_NotAfter _ _ _ _ _ I), (iss_NotBefore _ _ _ _ _ I).
    unfold certificate.LeafTemplate. cbn [x509.NotAfter x509.NotBefore].
    rewrite Hfor, (leaf_ValidFor_exact _ Hdays).
    replace (config.ValidityDays cfg * (24 * time.Hour))
      with ((config.ValidityDays cfg * 86400) * time.Second)
      by (unfold time.Hour, time.Minute, time.Second; lia).
    rewrite asn1_time_Add. apply Sub_Add.
    unfold int64_range, time.Second. lia. }
  split.
  { rewrite (iss_IsCA _ _ _ _ _ I). reflexivity. }
  split.
  { eapply root_may_sign; [exact I0|]. exact (iss_Signature _ _ _ _ _ I). }
  split.
  { rewrite (iss_ExtKeyUsage _ _ _ _ _ I). simpl. auto. }
  split.
  { rewrite (iss_ExtKeyUsage _ _ _ _ _ I). simpl. auto. }
  split; [exact Hspan|].
  rewrite Hspan. unfold time.Minute, time.Second. lia.
Qed.

End Generator.

Section GeneratorNamesAndUsages.

Context {L : CryptoLib} {HL : CryptoLaws L}.

(** The common name and the DNS names of a returned root CA certificate
    are the configured domain, whatever it is. *)
Lemma GenerateRootCA_names (g : certificate.Generator) (w w' : World)
    (cert : x509.Certificate PublicKey) (key : PrivateKey) :
  certificate.GenerateRootCA g w = (Ok (cert, key), w') ->
  exists cfg,
    certificate.config g = Some cfg
    /\ pkix.CommonName (x509.Subject cert) = config.Domain cfg
    /\ x509.DNSNames cert = [config.Domain cfg].
Proof.
  intros H. apply GenerateRootCA_Ok_inv in H.
  destruct H as (cfg & r1 & opts & s & r2 & der & r3 & Hc & _ & _ & Ho & _ & Hd & Hp & _).
  pose proof (CreateCertificate_sound _ _ _ _ _ _ _ _ Hd Hp) as I.
  apply GetRootCAOptions_Ok_inv in Ho.
  destruct Ho as (cfg' & E & _ & Hcn & Hdns & _).
  inversion E; subst cfg'; clear E.
  exists cfg. split; [exact Hc|]. split.
  - rewrite (iss_Subject _ _ _ _ _ I). exact Hcn.
  - rewrite (iss_DNSNames _ _ _ _ _ I). exact Hdns.
Qed.

(** C6.  With an empty domain [GenerateRootCA] succeeds whenever the key
    size is at least 1024 bits, the other subject fields are ASCII, the
    clock reads an instant of the years 1970 to 9999 and the entropy source
    delivers the key and the serial number; the certificate has an empty
    common name and exactly one DNS name, the empty string. *)
Theorem GenerateRootCA_empty_domain (g : certificate.Generator)
    (cfg : config.CertificateConfig) (w : World)
    (key : PrivateKey) (r1 r2 : Rand) (serialNumber : Z) :
  certificate.config g = Some cfg ->
  config.Domain cfg = "" ->
  1024 <= config.KeySize cfg ->
  x509.isIA5String (config.Country cfg) = true ->
  x509.isIA5String (config.State cfg) = true ->
  x509.isIA5String (config.Locality cfg) = true ->
  x509.isIA5String (config.Organization cfg) = true ->
  x509.isIA5String (config.OrganizationalUnit cfg) = true ->
  time_encodable (clock w (ticks w)) = true ->
  time_encodable (time.Add (clock w (ticks w)) (1024 * 24 * time.Hour)) = true ->
  rsa_GenerateKey (rng w) (config.KeySize cfg) = (Ok key, r1) ->
  rand_Int r1 certificate.serialLimit = (Ok serialNumber, r2) ->
  exists cert w',
    certificate.GenerateRootCA g w = (Ok (cert, key), w')
    /\ pkix.CommonName (x509.Subject cert) = ""
    /\ x509.DNSNames cert = [""].
Proof.
  intros Hc Hdom Hsz Hco Hst Hlo Hor Hou Hnb Hna Hgen Hser.
  destruct (GenerateKey_sound _ _ _ _ Hgen) as (Hbits & Hval).
  pose proof (rand_Int_range _ _ _ _ Hser) as Hrange.
  destruct (GetRootCAOptions_total cfg (mkWorld r1 (ticks w) (clock w)))
    as (opts & Ho).
  cbn [rng ticks clock] in Ho.
  assert (Henc : template_encodable (certificate.RootCATemplate opts serialNumber) = true).
  { unfold config.GetRootCAOptions, bind, time_Now, ret in Ho.
    inversion Ho; subst opts; clear Ho.
    unfold template_encodable, name_encodable, certificate.RootCATemplate.
    cbn [x509.SerialNumber x509.Subject x509.DNSNames x509.NotBefore x509.NotAfter
         pkix.Country pkix.Organization pkix.OrganizationalUnit pkix.Locality
         pkix.Province pkix.CommonName
         config.o_Subject config.s_Country config.s_State config.s_Locality
         config.s_Organization config.s_OrganizationalUnit config.s_CommonName
         config.DNSNames config.ValidFrom config.ValidFor forallb rng ticks clock].
    rewrite Hco, Hst, Hlo, Hor, Hou, Hdom, Hnb.
    change (1024 * 24 * time.Hour) with 88473600000000000 in Hna. rewrite Hna.
    destruct (Z.leb_spec 0 serialNumber); [reflexivity|lia]. }
  assert (Hname : name_encodable
                    (x509.Subject (certificate.RootCATemplate opts serialNumber)) = true).
  { unfold template_encodable in Henc.
    do 3 (apply andb_prop in Henc; destruct Henc as (Henc & _)).
    apply andb_prop in Henc. apply Henc. }
  destruct (CreateCertificate_accepts r2
              (certificate.RootCATemplate opts serialNumber)
              (certificate.RootCATemplate opts serialNumber) key key
              Hval Hval ltac:(rewrite Hbits; exact Hsz)
              ltac:(rewrite Hbits; exact Hsz) Henc Hname
              (or_introl eq_refl))
    as (der & r3 & cert & Hd & Hp).
  pose proof (GenerateRootCA_runs g w cfg key r1 r2 r3 opts serialNumber der cert
                Hc Hsz Hgen Ho Hser Hd Hp) as Hrun.
  exists cert, (mkWorld r3 (S (ticks w)) (clock w)).
  split; [exact Hrun|].
  destruct (GenerateRootCA_names _ _ _ _ _ Hrun) as (cfg' & Hc' & Hcn & Hdns).
  rewrite Hc in Hc'. inversion Hc'; subst cfg'.
  rewrite Hcn, Hdns, Hdom. split; reflexivity.
Qed.

(** C7.  The leaf options record lists four key usages; the template that
    [GenerateLeafCertificate] signs sets exactly digital signature and key
    encipherment, whatever the record lists; and so does the certificate
    it returns. *)
Theorem leaf_key_usage_discrepancy (cfg : config.CertificateConfig) (w : World) :
  (exists opts w',
     config.GetLeafCertOptions (Some cfg) w = (Ok opts, w')
     /\ config.KeyUsage opts = ["digitalSignature"; "nonRepudiation";
                                "keyEncipherment"; "dataEncipherment"])
  /\ (forall opts serialNumber,
      x509.KeyUsage_ (certificate.LeafTemplate opts serialNumber)
      = Z.lor x509.KeyUsageDigitalSignature x509.KeyUsageKeyEncipherment
      /\ forall i, 0 <= i ->
         Z.testbit (x509.KeyUsage_ (certificate.LeafTemplate opts serialNumber)) i
         = (i =? 0) || (i =? 2))
  /\ (forall opts serialNumber usages,
      certificate.LeafTemplate
        {| config.o_Subject := config.o_Subject opts;
           config.DNSNames := config.DNSNames opts;
           config.ValidFrom := config.ValidFrom opts;
           config.ValidFor := config.ValidFor opts;
           config.IsCA := config.IsCA opts;
           config.KeyUsage := usages;
           config.ExtKeyUsage := config.ExtKeyUsage opts |} serialNumber
      = certificate.LeafTemplate opts serialNumber)
  /\ (forall g caCert caKey w1 w2 cert key,
      certificate.config g = Some cfg ->
      certificate.GenerateLeafCertificate g (Some caCert) (Some caKey) w1
      = (Ok (cert, key), w2) ->
      x509.KeyUsage_ cert
      = Z.lor x509.KeyUsageDigitalSignature x509.KeyUsageKeyEncipherment).
Proof.
  split; [|split; [|split]].
  - destruct (GetLeafCertOptions_total cfg w) as (opts & Ho).
    exists opts. eexists. split; [exact Ho|].
    apply GetLeafCertOptions_Ok_inv in Ho.
    destruct Ho as (cfg' & _ & _ & _ & _ & _ & _ & _ & Hku & _). exact Hku.
  - intros opts s. split; [reflexivity|].
    intros i Hi. apply leaf_keyUsage_bits, Hi.
  - intros opts s usages. reflexivity.
  - intros g caCert caKey w1 w2 cert key _ H.
    apply GenerateLeafCertificate_Ok_inv in H.
    destruct H as (cfg' & r1 & opts & s & r2 & der & r3
                   & _ & _ & _ & _ & _ & Hd & Hp & _).
    pose proof (CreateCertificate_sound _ _ _ _ _ _ _ _ Hd Hp) as I.
    rewrite (iss_KeyUsage _ _ _ _ _ I). reflexivity.
Qed.

(** C9.  A certificate returned by [GenerateRootCA] carries the extended
    key usage server authentication, next to the key usages certificate
    signing and CRL signing, although the root CA options record of its
    configuration lists no extended key usage. *)
Theorem GenerateRootCA_ext_key_usage (g : certificate.Generator) (w w' : World)
    (cert : x509.Certificate PublicKey) (key : PrivateKey) :
  certificate.GenerateRootCA g w = (Ok (cert, key), w') ->
  x509.ExtKeyUsage_ cert = [x509.ExtKeyUsageServerAuth]
  /\ x509.KeyUsage_ cert = Z.lor x509.KeyUsageCertSign x509.KeyUsageCRLSign
  /\ (forall w1 opts w2,
      config.GetRootCAOptions (certificate.config g) w1 = (Ok opts, w2) ->
      config.ExtKeyUsage opts = []
      /\ config.KeyUsage opts = ["keyCertSign"; "cRLSign"])
  /\ exists opts w1 w2,
      config.GetRootCAOptions (certificate.config g) w1 = (Ok opts, w2).
Proof.
  intros H. apply GenerateRootCA_Ok_inv in H.
  destruct H as (cfg & r1 & opts & s & r2 & der & r3 & Hc & _ & _ & Ho & _ & Hd & Hp & _).
  pose proof (CreateCertificate_sound _ _ _ _ _ _ _ _ Hd Hp) as I.
  split.
  { rewrite (iss_ExtKeyUsage _ _ _ _ _ I). reflexivity. }
  split.
  { rewrite (iss_KeyUsage _ _ _ _ _ I). reflexivity. }
  split.
  { intros w1 opts' w2 Ho'. apply GetRootCAOptions_Ok_inv in Ho'.
    destruct Ho' as (cfg' & _ & _ & _ & _ & _ & _ & _ & Hku & Heku).
    split; assumption. }
  rewrite Hc. exists opts. eexists. eexists. exact Ho.
Qed.

End GeneratorNamesAndUsages.

(** ** The encoding layer *)

Section Encoding.

Context {L : CryptoLib} {HL : CryptoLaws L}.

Lemma pem_label_CERTIFICATE : pem_label "CERTIFICATE" = true.
Proof. reflexivity. Qed.

Lemma pem_label_PRIVATE_KEY : pem_label "PRIVATE KEY" = true.
Proof. reflexivity. Qed.

(** On a well-formed envelope [DecodePEMCertificate] is [ParseCertificate]
    on the inner bytes; the label plays no part. *)
Lemma DecodePEMCertificate_block (pemData : bytes) (block : pem.Block) :
  fst (pem_Decode pemData) = Some block ->
  encoding.DecodePEMCertificate pemData
  = owrap "failed to parse certificate: " (x509_ParseCertificate (pem.Bytes block)).
Proof.
  intros H. unfold encoding.DecodePEMCertificate. rewrite H.
  destruct (x509_ParseCertificate (pem.Bytes block)); reflexivity.
Qed.

(** Certificates and keys that the generator returns are signed artifacts
    and valid keys. *)
Lemma generated_wellformed (g : certificate.Generator) (w w' : World)
    (cert : x509.Certificate PublicKey) (key : PrivateKey) :
  certificate.GenerateRootCA g w = (Ok (cert, key), w')
  \/ (exists caCert caKey,
        certificate.GenerateLeafCertificate g caCert caKey w = (Ok (cert, key), w')) ->
  x509_ParseCertificate (x509.Raw cert) = Ok cert /\ rsa_Validate key = true.
Proof.
  intros [H|(caCert & caKey & H)].
  - apply GenerateRootCA_Ok_inv in H.
    destruct H as (cfg & r1 & opts & s & r2 & der & r3 & _ & _ & Hgen & _ & _ & _ & Hp & _).
    rewrite (ParseCertificate_Raw _ _ Hp). split; [exact Hp|].
    apply (GenerateKey_sound _ _ _ _ Hgen).
  - apply GenerateLeafCertificate_Ok_inv in H.
    destruct H as (cfg & r1 & opts & s & r2 & der & r3 & _ & _ & Hgen & _ & _ & _ & Hp & _).
    rewrite (ParseCertificate_Raw _ _ Hp). split; [exact Hp|].
    apply (GenerateKey_sound _ _ _ _ Hgen).
Qed.

(** C4.  Encoding then decoding loses nothing.  A certificate whose raw
    bytes are a certificate encoding is encoded to PEM, decoded to a
    certificate with the same raw bytes, and that one is encoded to the
    same PEM bytes; a valid RSA key is encoded to PEM and decoded to the
    same key, which is encoded to the same PEM bytes again. *)
Theorem PEM_encode_decode_lossless :
  (forall cert parsed,
     x509_ParseCertificate (x509.Raw cert) = Ok parsed ->
     exists pemData decoded,
       encoding.EncodeCertificateToPEM (Some cert) = Ok pemData
       /\ encoding.DecodePEMCertificate pemData = Ok decoded
       /\ x509.Raw decoded = x509.Raw cert
       /\ encoding.EncodeCertificateToPEM (Some decoded) = Ok pemData)
  /\ (forall key,
      rsa_Validate key = true ->
      exists pemData decoded,
        encoding.EncodePrivateKeyToPEM (Some key) = Ok pemData
        /\ encoding.DecodePEMPrivateKey pemData = Ok decoded
        /\ decoded = key
        /\ encoding.EncodePrivateKeyToPEM (Some decoded) = Ok pemData).
Proof.
  split.
  - intros cert parsed Hp.
    exists (pem_EncodeToMemory
              {| pem.Type_ := "CERTIFICATE"; pem.Headers := [];
                 pem.Bytes := x509.Raw cert |}), parsed.
    split; [reflexivity|]. split.
    { rewrite (DecodePEMCertificate_block _ _
                 (PEM_roundtrip "CERTIFICATE" (x509.Raw cert) pem_label_CERTIFICATE)).
      simpl. rewrite Hp. reflexivity. }
    split.
    { apply (ParseCertificate_Raw _ _ Hp). }
    unfold encoding.EncodeCertificateToPEM.
    rewrite (ParseCertificate_Raw _ _ Hp). reflexivity.
  - intros key Hk.
    destruct (PKCS8_roundtrip key Hk) as (der & Hm & Hp).
    exists (pem_EncodeToMemory
              {| pem.Type_ := "PRIVATE KEY"; pem.Headers := []; pem.Bytes := der |}), key.
    assert (He : encoding.EncodePrivateKeyToPEM (Some key)
                 = Ok (pem_EncodeToMemory
                         {| pem.Type_ := "PRIVATE KEY"; pem.Headers := [];
                            pem.Bytes := der |})).
    { unfold encoding.EncodePrivateKeyToPEM. rewrite Hm. reflexivity. }
    split; [exact He|]. split.
    { unfold encoding.DecodePEMPrivateKey.
      rewrite (PEM_roundtrip "PRIVATE KEY" der pem_label_PRIVATE_KEY).
      simpl. rewrite Hp. reflexivity. }
    split; [reflexivity|exact He].
Qed.

(** C5.  The code breaks the claim.  [DecodePEMCertificate] never reads the
    label of the envelope: on a well-formed envelope it fails exactly when
    [ParseCertificate] fails on the inner bytes, so an envelope of any
    label around a certificate encoding is decoded to that certificate,
    where the claim and the repository's own tests ask for an error. *)
Theorem DecodePEMCertificate_ignores_label (pemData : bytes) (block : pem.Block) :
  fst (pem_Decode pemData) = Some block ->
  (is_err (encoding.DecodePEMCertificate pemData)
   = is_err (x509_ParseCertificate (pem.Bytes block)))
  /\ (forall cert,
      x509_ParseCertificate (pem.Bytes block) = Ok cert ->
      encoding.DecodePEMCertificate pemData = Ok cert)
  /\ (forall label (cert parsed : x509.Certificate PublicKey),
      pem_label label = true ->
      x509_ParseCertificate (x509.Raw cert) = Ok parsed ->
      encoding.DecodePEMCertificate
        (pem_EncodeToMemory
           {| pem.Type_ := label; pem.Headers := []; pem.Bytes := x509.Raw cert |})
      = Ok parsed).
Proof.
  intros H. rewrite (DecodePEMCertificate_block _ _ H). split; [|split].
  - destruct (x509_ParseCertificate (pem.Bytes block)); reflexivity.
  - intros cert ->. reflexivity.
  - intros label cert parsed Hl Hp.
    rewrite (DecodePEMCertificate_block _ _ (PEM_roundtrip label (x509.Raw cert) Hl)).
    simpl. rewrite Hp. reflexivity.
Qed.

(** C10.  [ConvertCertificateToBase64DER] never returns an error: on a
    certificate it returns the base64 text of the raw bytes, and on nil it
    panics, where both PEM encoders return an error. *)
Theorem ConvertCertificateToBase64DER_nil_panics :
  (forall cert, is_err (encoding.ConvertCertificateToBase64DER cert) = false)
  /\ (forall cert,
      encoding.ConvertCertificateToBase64DER (Some cert)
      = Ok (base64.EncodeToString (x509.Raw cert)))
  /\ encoding.ConvertCertificateToBase64DER None = Panic nil_dereference
  /\ encoding.EncodeCertificateToPEM None = Err "certificate is nil"
  /\ encoding.EncodePrivateKeyToPEM None = Err "private key is nil".
Proof.
  repeat split. intros [cert|]; reflexivity.
Qed.

End Encoding.

(** C5 does not hold of the code: the root certificate of [example.com]
    inside an envelope labelled [PRIVATE KEY] is a well-formed envelope of
    another label, and [DecodePEMCertificate] returns the certificate. *)
Lemma DecodePEMCertificate_wrong_label_accepted :
  ~ (forall (L : CryptoLib), CryptoLaws L ->
     forall (pemData : bytes) (block : pem.Block),
       fst (pem_Decode pemData) = Some block ->
       pem.Type_ block <> "CERTIFICATE" ->
       is_err (encoding.DecodePEMCertificate pemData) = true).
Proof.
  intros H.
  specialize (H Reference.lib Reference_laws Examples.mislabelled_envelope
                (pem.mkBlock "PRIVATE KEY" []
                   (match Examples.root_certificate with
                    | Some cert => x509.Raw cert
                    | None => []
                    end))).
  assert (Hd : fst (@pem_Decode Reference.lib Examples.mislabelled_envelope)
               = Some (pem.mkBlock "PRIVATE KEY" []
                         (match Examples.root_certificate with
                          | Some cert => x509.Raw cert
                          | None => []
                          end))) by (vm_compute; reflexivity).
  specialize (H Hd ltac:(discriminate)).
  vm_compute in H. discriminate H.
Qed.

(** ** File permissions *)

(** [strings.Contains] and [base64.EncodeToString] do what the library
    documents. *)
Lemma prefix_app (p s : string) :
  prefix p s = true <-> exists rest, s = (p ++ rest)%string.
Proof.
  revert s. induction p as [|c p IH]; intros s.
  - split; [intros _; exists s; reflexivity|].
    intros _. destruct s; reflexivity.
  - destruct s as [|d s]; cbn [prefix].
    + split; [discriminate|]. intros [rest H]. discriminate H.
    + destruct (ascii_dec c d) as [<-|N].
      * rewrite IH. split; intros [rest H].
        -- exists rest. cbn. rewrite H. reflexivity.
        -- exists rest. cbn in H. inversion H. reflexivity.
      * split; [discriminate|]. intros [rest H]. cbn in H. congruence.
Qed.

Lemma Contains_spec (s substr : string) :
  strings.Contains s substr = true
  <-> exists before after, s = (before ++ substr ++ after)%string.
Proof.
  induction s as [|c s IH]; cbn [strings.Contains].
  - rewrite orb_false_r, prefix_app. split.
    + intros [rest H]. exists EmptyString, rest. exact H.
    + intros (before & after & H). destruct before as [|x before]; [|discriminate H].
      exists after. exact H.
  - rewrite orb_true_iff, prefix_app, IH. split.
    + intros [[rest H]|(before & after & H)].
      * exists EmptyString, rest. exact H.
      * exists (String c before), after. cbn. rewrite H. reflexivity.
    + intros (before & after & H). destruct before as [|x before].
      * left. exists after. exact H.
      * right. exists before, after. cbn in H. inversion H. reflexivity.
Qed.

Example base64_RFC4648_vectors :
  base64.EncodeToString (list_byte_of_string "") = ""
  /\ base64.EncodeToString (list_byte_of_string "f") = "Zg=="
  /\ base64.EncodeToString (list_byte_of_string "fo") = "Zm8="
  /\ base64.EncodeToString (list_byte_of_string "foo") = "Zm9v"
  /\ base64.EncodeToString (list_byte_of_string "foob") = "Zm9vYg=="
  /\ base64.EncodeToString (list_byte_of_string "fooba") = "Zm9vYmE="
  /\ base64.EncodeToString (list_byte_of_string "foobar") = "Zm9vYmFy".
Proof. repeat split; reflexivity. Qed.


Lemma prefix_refl (s : string) : prefix s s = true.
Proof.
  induction s as [|c s IH]; simpl; [reflexivity|].
  destruct (ascii_dec c c) as [_|N]; [exact IH|contradiction].
Qed.

(** A path that ends in a suffix contains it. *)
Lemma HasSuffix_Contains (s suffix : string) :
  strings.HasSuffix s suffix = true -> strings.Contains s suffix = true.
Proof.
  induction s as [|c s IH]; cbn [strings.HasSuffix strings.Contains].
  - rewrite orb_false_r. intros H. apply String.eqb_eq in H. subst suffix. reflexivity.
  - intros H. apply orb_true_iff in H. destruct H as [H|H].
    + apply String.eqb_eq in H. subst suffix.
      rewrite prefix_refl. reflexivity.
    + rewrite (IH H). apply orb_true_r.
Qed.

(** The first label of a domain holds no dot, so [.key] can only occur in
    what follows it. *)
Lemma Contains_Split_first (domain rest : string) :
  strings.Contains (strings.Split_first domain "."%char ++ rest) ".key"
  = strings.Contains rest ".key".
Proof.
  induction domain as [|c d IH]; simpl strings.Split_first; [reflexivity|].
  destruct (Ascii.eqb c "."%char) eqn:E; [reflexivity|].
  change (String c (strings.Split_first d "."%char) ++ rest)%string
    with (String c (strings.Split_first d "."%char ++ rest)%string).
  cbn [strings.Contains]. rewrite IH.
  replace (prefix ".key" (String c (strings.Split_first d "." ++ rest))) with false;
    [reflexivity|].
  cbn [prefix]. destruct (ascii_dec "."%char c) as [<-|N]; [|reflexivity].
  rewrite Ascii.eqb_refl in E. discriminate.
Qed.

(** C8, as the code has it.  [WriteFile] creates the directory and then
    writes the file with mode 0600 when the path contains [.key] anywhere
    and with mode 0644 otherwise.  Every path ending in [.key] is thus
    written with mode 0600, and of the program's artifacts exactly the two
    key files are. *)
Theorem WriteFile_permissions (answer : fileio.call -> option error)
    (dir : string -> string) (fw : fileio.FileWriter) (path : string) (data : bytes) :
  let log := snd (@fileio.WriteFile (fileio.Recorder answer dir) fw path data []) in
  let perm := if strings.Contains path ".key" then fileio.mode_0600
              else fileio.mode_0644 in
  (answer (fileio.MkdirAll (dir path) fileio.mode_0755) = None ->
   log = [fileio.MkdirAll (dir path) fileio.mode_0755;
          fileio.OsWriteFile path data perm])
  /\ (forall err, answer (fileio.MkdirAll (dir path) fileio.mode_0755) = Some err ->
      log = [fileio.MkdirAll (dir path) fileio.mode_0755])
  /\ (fileio.is_key_file path = true -> perm = fileio.mode_0600)
  /\ (forall domain,
      let a := fileio.NewFileWriter domain in
      strings.Contains (fileio.GetRootKeyPath a) ".key" = true
      /\ strings.Contains (fileio.GetLeafKeyPath a) ".key" = true
      /\ strings.Contains (fileio.GetRootCertPath a) ".key" = false
      /\ strings.Contains (fileio.GetLeafCertPath a) ".key" = false
      /\ strings.Contains (fileio.GetPKCS12Path a) ".key" = false
      /\ strings.Contains (fileio.GetRootBase64Path a) ".key" = false
      /\ strings.Contains (fileio.GetLeafBase64Path a) ".key" = false).
Proof.
  cbv zeta. split; [|split; [|split]].
  - intros H. unfold fileio.WriteFile. cbn [os_MkdirAll os_WriteFile filepath_Dir
      fileio.Recorder]. rewrite H.
    destruct (answer (fileio.OsWriteFile path data
                (if strings.Contains path ".key" then fileio.mode_0600
                 else fileio.mode_0644))); reflexivity.
  - intros err H. unfold fileio.WriteFile. cbn [os_MkdirAll os_WriteFile filepath_Dir
      fileio.Recorder]. rewrite H. reflexivity.
  - unfold fileio.is_key_file. intros H. rewrite (HasSuffix_Contains _ _ H). reflexivity.
  - intros domain. cbv zeta.
    unfold fileio.GetRootKeyPath, fileio.GetLeafKeyPath, fileio.GetRootCertPath,
      fileio.GetLeafCertPath, fileio.GetPKCS12Path, fileio.GetRootBase64Path,
      fileio.GetLeafBase64Path, fileio.NewFileWriter. cbn [fileio.subdomain].
    rewrite !Contains_Split_first. repeat split; reflexivity.
Qed.

(** C8, as stated, fails: [notes.keyboard.txt] is not a key file, and it
    is written with mode 0600, not 0644. *)
Lemma WriteFile_permissions_not_by_extension :
  ~ (forall (answer : fileio.call -> option error) (dir : string -> string)
            (fw : fileio.FileWriter) (path : string) (data : bytes)
            (name : string) (written : bytes) (perm : Z),
       In (fileio.OsWriteFile name written perm)
          (snd (@fileio.WriteFile (fileio.Recorder answer dir) fw path data [])) ->
       perm = if fileio.is_key_file path then fileio.mode_0600 else fileio.mode_0644).
Proof.
  intros H.
  specialize (H (fun _ => None) (fun _ => ".") (fileio.NewFileWriter "example.com")
                "notes.keyboard.txt" [] "notes.keyboard.txt" [] fileio.mode_0600).
  vm_compute in H.
  specialize (H (or_intror (or_introl eq_refl))).
  discriminate H.
Qed.

(** ** The theorems at concrete inputs

    Each lemma below runs the repository's code on the reference
    implementation and applies one of the theorems above to the run. *)

Lemma GeneratePrivateKey_spec_witness :
  exists key w',
    @certificate.GeneratePrivateKey Reference.lib Examples.generator Reference.world
    = (Ok key, w')
    /\ @BitLen Reference.lib (@Public Reference.lib key) = 2048.
Proof.
  destruct (@GeneratePrivateKey_spec Reference.lib Reference_laws
              Examples.generator Reference.world) as (_ & _ & _ & H & _).
  do 2 eexists.
  apply (H Reference.example_config (2048, 20231114) 20231115).
  - reflexivity.
  - vm_compute. discriminate.
  - reflexivity.
Defined.

Lemma GenerateRootCA_certificate_witness :
  exists cert key w',
    @certificate.GenerateRootCA Reference.lib Examples.generator Reference.world
    = (Ok (cert, key), w')
    /\ x509.IsCA cert = true
    /\ @CheckSignatureFrom Reference.lib cert cert = None
    /\ x509.KeyUsage_ cert = Z.lor x509.KeyUsageCertSign x509.KeyUsageCRLSign
    /\ x509.DNSNames cert = ["example.com"]
    /\ time.Sub (x509.NotAfter cert) (x509.NotBefore cert) = 1024 * (24 * time.Hour).
Proof.
  do 3 eexists. split; [vm_compute; reflexivity|].
  destruct (@GenerateRootCA_certificate Reference.lib Reference_laws
              Examples.generator Reference.world _ _ _
              ltac:(vm_compute; reflexivity))
    as (cfg & Hc & Hca & Hsig & Hku & _ & Hdns & _ & Hspan & _).
  inversion Hc; subst cfg.
  repeat split; assumption.
Defined.

Lemma GenerateLeafCertificate_certificate_witness :
  exists caCert caKey cert key,
    fst Examples.root_run = Ok (caCert, caKey)
    /\ fst Examples.leaf_run = Ok (cert, key)
    /\ (x509.IsCA cert = false
        /\ @CheckSignatureFrom Reference.lib cert caCert = None
        /\ In x509.ExtKeyUsageServerAuth (x509.ExtKeyUsage_ cert)
        /\ In x509.ExtKeyUsageClientAuth (x509.ExtKeyUsage_ cert)
        /\ time.Sub (x509.NotAfter cert) (x509.NotBefore cert)
           = config.ValidityDays Reference.example_config * (24 * time.Hour)
        /\ config.ValidityDays Reference.example_config * (24 * time.Hour) - time.Minute
           <= time.Sub (x509.NotAfter cert) (x509.NotBefore cert)
           <= config.ValidityDays Reference.example_config * (24 * time.Hour)
              + time.Minute).
Proof.
  do 4 eexists.
  split; [vm_compute; reflexivity|].
  split; [vm_compute; reflexivity|].
  eapply (@GenerateLeafCertificate_certificate Reference.lib Reference_laws
            Examples.generator Examples.generator Reference.example_config
            Reference.world (snd Examples.root_run)
            (snd Examples.root_run) (snd Examples.leaf_run)).
  - reflexivity.
  - vm_compute. split; discriminate.
  - vm_compute. reflexivity.
  - vm_compute. reflexivity.
Defined.

Lemma PEM_encode_decode_lossless_witness :
  exists cert key,
    fst Examples.root_run = Ok (cert, key)
    /\ (exists pemData decoded,
          @encoding.EncodeCertificateToPEM Reference.lib (Some cert) = Ok pemData
          /\ @encoding.DecodePEMCertificate Reference.lib pemData = Ok decoded
          /\ x509.Raw decoded = x509.Raw cert
          /\ @encoding.EncodeCertificateToPEM Reference.lib (Some decoded) = Ok pemData)
    /\ (exists pemData decoded,
          @encoding.EncodePrivateKeyToPEM Reference.lib (Some key) = Ok pemData
          /\ @encoding.DecodePEMPrivateKey Reference.lib pemData = Ok decoded
          /\ decoded = key
          /\ @encoding.EncodePrivateKeyToPEM Reference.lib (Some decoded) = Ok pemData).
Proof.
  do 2 eexists. split; [vm_compute; reflexivity|].
  destruct (@PEM_encode_decode_lossless Reference.lib Reference_laws) as (Hc & Hk).
  split.
  - eapply Hc. vm_compute. reflexivity.
  - apply Hk. vm_compute. reflexivity.
Defined.

Lemma DecodePEMCertificate_ignores_label_witness :
  exists cert,
    Examples.root_certificate = Some cert
    /\ @encoding.DecodePEMCertificate Reference.lib Examples.mislabelled_envelope
       = Ok cert.
Proof.
  eexists. split; [vm_compute; reflexivity|].
  destruct (@DecodePEMCertificate_ignores_label Reference.lib Reference_laws
              Examples.mislabelled_envelope
              (pem.mkBlock "PRIVATE KEY" []
                 (match Examples.root_certificate with
                  | Some cert => x509.Raw cert
                  | None => []
                  end))
              ltac:(vm_compute; reflexivity)) as (_ & H & _).
  apply H. vm_compute. reflexivity.
Defined.

Lemma GenerateRootCA_empty_domain_witness :
  exists cert key w',
    @certificate.GenerateRootCA Reference.lib
      (certificate.NewGenerator (Some Examples.empty_domain_config)) Reference.world
    = (Ok (cert, key), w')
    /\ pkix.CommonName (x509.Subject cert) = ""
    /\ x509.DNSNames cert = [""].
Proof.
  destruct (@GenerateRootCA_empty_domain Reference.lib Reference_laws
              (certificate.NewGenerator (Some Examples.empty_domain_config))
              Examples.empty_domain_config Reference.world
              (2048, 20231114) 20231115 20231116
              (20231115 mod certificate.serialLimit)
              eq_refl eq_refl
              ltac:(vm_compute; discriminate)
              eq_refl eq_refl eq_refl eq_refl eq_refl
              ltac:(vm_compute; reflexivity)
              ltac:(vm_compute; reflexivity)
              ltac:(vm_compute; reflexivity)
              ltac:(vm_compute; reflexivity))
    as (cert & w' & H).
  exists cert, (2048, 20231114), w'. exact H.
Defined.

Lemma leaf_key_usage_discrepancy_witness :
  exists opts w1 cert key,
    @config.GetLeafCertOptions Reference.lib (Some Reference.example_config)
      Reference.world = (Ok opts, w1)
    /\ config.KeyUsage opts = ["digitalSignature"; "nonRepudiation";
                               "keyEncipherment"; "dataEncipherment"]
    /\ fst Examples.leaf_run = Ok (cert, key)
    /\ x509.KeyUsage_ cert
       = Z.lor x509.KeyUsageDigitalSignature x509.KeyUsageKeyEncipherment.
Proof.
  destruct (@leaf_key_usage_discrepancy Reference.lib Reference_laws
              Reference.example_config Reference.world)
    as ((opts & w1 & Ho & Hku) & _ & _ & H).
  exists opts, w1. do 2 eexists.
  split; [exact Ho|]. split; [exact Hku|].
  split; [vm_compute; reflexivity|].
  eapply (H Examples.generator
            (match fst Examples.root_run with
             | Ok (caCert, _) => caCert
             | _ => certificate.LeafTemplate opts 0
             end)
            (match fst Examples.root_run with
             | Ok (_, caKey) => caKey
             | _ => (0, 0)
             end)
            (snd Examples.root_run) (snd Examples.leaf_run)).
  - reflexivity.
  - vm_compute. reflexivity.
Defined.

Lemma GenerateRootCA_ext_key_usage_witness :
  exists cert key w',
    @certificate.GenerateRootCA Reference.lib Examples.generator Reference.world
    = (Ok (cert, key), w')
    /\ x509.ExtKeyUsage_ cert = [x509.ExtKeyUsageServerAuth]
    /\ x509.KeyUsage_ cert = Z.lor x509.KeyUsageCertSign x509.KeyUsageCRLSign.
Proof.
  do 3 eexists. split; [vm_compute; reflexivity|].
  destruct (@GenerateRootCA_ext_key_usage Reference.lib Reference_laws
              Examples.generator Reference.world _ _ _
              ltac:(vm_compute; reflexivity)) as (He & Hk & _).
  split; assumption.
Defined.

Lemma WriteFile_permissions_witness :
  snd (@fileio.WriteFile Examples.recorder (fileio.NewFileWriter "example.com")
         "example_leaf.key" [x2d] [])
  = [fileio.MkdirAll "." fileio.mode_0755;
     fileio.OsWriteFile "example_leaf.key" [x2d] fileio.mode_0600]
  /\ snd (@fileio.WriteFile Examples.recorder (fileio.NewFileWriter "example.com")
            "notes.keyboard.txt" [x2d] [])
     = [fileio.MkdirAll "." fileio.mode_0755;
        fileio.OsWriteFile "notes.keyboard.txt" [x2d] fileio.mode_0600].
Proof.
  split.
  - destruct (WriteFile_permissions (fun _ => None) (fun _ => ".")
                (fileio.NewFileWriter "example.com") "example_leaf.key" [x2d])
      as (H & _).
    exact (H eq_refl).
  - destruct (WriteFile_permissions (fun _ => None) (fun _ => ".")
                (fileio.NewFileWriter "example.com") "notes.keyboard.txt" [x2d])
      as (H & _).
    exact (H eq_refl).
Defined.

(** * Further properties of the code *)

(** ** The generator: serial numbers, names, instants and failures *)

Section GeneratorFurther.

Context {L : CryptoLib} {HL : CryptoLaws L}.

(** A successful run of either generator, with what the contract says of
    the certificate it returns. *)
Lemma GenerateRootCA_Ok_issued (g : certificate.Generator) (w w' : World)
    (cert : x509.Certificate PublicKey) (key : PrivateKey) :
  certificate.GenerateRootCA g w = (Ok (cert, key), w') ->
  exists cfg opts serialNumber w1 w2,
    certificate.config g = Some cfg
    /\ config.GetRootCAOptions (Some cfg) w1 = (Ok opts, w2)
    /\ ticks w1 = ticks w /\ clock w1 = clock w
    /\ 0 <= serialNumber < certificate.serialLimit
    /\ ticks w' = S (ticks w) /\ clock w' = clock w
    /\ issued_from (certificate.RootCATemplate opts serialNumber)
         (certificate.RootCATemplate opts serialNumber) (Public key) key cert.
Proof.
  intros H. apply GenerateRootCA_Ok_inv in H.
  destruct H as (cfg & r1 & opts & s & r2 & der & r3
                 & Hc & _ & _ & Ho & Hs & Hd & Hp & ->).
  exists cfg, opts, s. eexists. eexists.
  split; [exact Hc|]. split; [exact Ho|].
  split; [reflexivity|]. split; [reflexivity|].
  split; [exact (rand_Int_range _ _ _ _ Hs)|].
  split; [reflexivity|]. split; [reflexivity|].
  exact (CreateCertificate_sound _ _ _ _ _ _ _ _ Hd Hp).
Qed.

Lemma GenerateLeafCertificate_Ok_issued (g : certificate.Generator)
    (caCert : x509.Certificate PublicKey) (caKey : PrivateKey) (w w' : World)
    (cert : x509.Certificate PublicKey) (key : PrivateKey) :
  certificate.GenerateLeafCertificate g (Some caCert) (Some caKey) w
  = (Ok (cert, key), w') ->
  exists cfg opts serialNumber w1 w2,
    certificate.config g = Some cfg
    /\ config.GetLeafCertOptions (Some cfg) w1 = (Ok opts, w2)
    /\ ticks w1 = ticks w /\ clock w1 = clock w
    /\ 0 <= serialNumber < certificate.serialLimit
    /\ ticks w' = S (ticks w) /\ clock w' = clock w
    /\ issued_from (certificate.LeafTemplate opts serialNumber)
         caCert (Public key) caKey cert.
Proof.
  intros H. apply GenerateLeafCertificate_Ok_inv in H.
  destruct H as (cfg & r1 & opts & s & r2 & der & r3
                 & Hc & _ & _ & Ho & Hs & Hd & Hp & ->).
  exists cfg, opts, s. eexists. eexists.
  split; [exact Hc|]. split; [exact Ho|].
  split; [reflexivity|]. split; [reflexivity|].
  split; [exact (rand_Int_range _ _ _ _ Hs)|].
  split; [reflexivity|]. split; [reflexivity|].
  exact (CreateCertificate_sound _ _ _ _ _ _ _ _ Hd Hp).
Qed.

(** X1.  The serial number of every certificate the generator returns,
    root CA or leaf, lies in [0, 2^128). *)
Theorem generated_serial_number_range (g : certificate.Generator) (w w' : World)
    (cert : x509.Certificate PublicKey) (key : PrivateKey) :
  certificate.GenerateRootCA g w = (Ok (cert, key), w')
  \/ (exists caCert caKey,
        certificate.GenerateLeafCertificate g (Some caCert) (Some caKey) w
        = (Ok (cert, key), w')) ->
  0 <= x509.SerialNumber cert < 2 ^ 128.
Proof.
  intros [H|(caCert & caKey & H)].
  - apply GenerateRootCA_Ok_issued in H.
    destruct H as (cfg & opts & s & w1 & w2 & _ & _ & _ & _ & Hs & _ & _ & I).
    rewrite (iss_SerialNumber _ _ _ _ _ I). exact Hs.
  - apply GenerateLeafCertificate_Ok_issued in H.
    destruct H as (cfg & opts & s & w1 & w2 & _ & _ & _ & _ & Hs & _ & _ & I).
    rewrite (iss_SerialNumber _ _ _ _ _ I). exact Hs.
Qed.

(** Both options records carry the subject of the configuration and the
    instant the clock shows. *)
Lemma options_Subject (leaf : bool) (cfg : config.CertificateConfig) (w w' : World)
    (opts : config.CertificateOptions) :
  (if leaf then config.GetLeafCertOptions (Some cfg) w
   else config.GetRootCAOptions (Some cfg) w) = (Ok opts, w') ->
  config.o_Subject opts
  = {| config.s_Country := config.Country cfg;
       config.s_State := config.State cfg;
       config.s_Locality := config.Locality cfg;
       config.s_Organization := config.Organization cfg;
       config.s_OrganizationalUnit := config.OrganizationalUnit cfg;
       config.s_CommonName := config.Domain cfg |}
  /\ config.DNSNames opts = [config.Domain cfg]
  /\ config.ValidFrom opts = clock w (ticks w).
Proof.
  destruct leaf; unfold config.GetLeafCertOptions, config.GetRootCAOptions,
    bind, time_Now, ret; intros H; inversion H; subst; repeat split.
Qed.

(** The distinguished name both templates build from a configuration. *)
Lemma template_Subject (cfg : config.CertificateConfig)
    (opts : config.CertificateOptions) (serialNumber : Z) :
  config.o_Subject opts
  = {| config.s_Country := config.Country cfg;
       config.s_State := config.State cfg;
       config.s_Locality := config.Locality cfg;
       config.s_Organization := config.Organization cfg;
       config.s_OrganizationalUnit := config.OrganizationalUnit cfg;
       config.s_CommonName := config.Domain cfg |} ->
  x509.Subject (certificate.RootCATemplate opts serialNumber)
  = {| pkix.Country := [config.Country cfg];
       pkix.Organization := [config.Organization cfg];
       pkix.OrganizationalUnit := [config.OrganizationalUnit cfg];
       pkix.Locality := [config.Locality cfg];
       pkix.Province := [config.State cfg];
       pkix.CommonName := config.Domain cfg |}
  /\ x509.Subject (certificate.LeafTemplate opts serialNumber)
     = x509.Subject (certificate.RootCATemplate opts serialNumber).
Proof.
  intros H. unfold certificate.RootCATemplate, certificate.LeafTemplate.
  cbn [x509.Subject]. rewrite H. split; reflexivity.
Qed.

(** X2.  A returned root CA certificate is self-issued, and its subject has
    exactly one country, organization, unit, locality and province, those
    of the configuration (an empty field gives one empty string, not an
    absent attribute), with the domain as common name. *)
Theorem GenerateRootCA_subject (g : certificate.Generator) (w w' : World)
    (cert : x509.Certificate PublicKey) (key : PrivateKey) :
  certificate.GenerateRootCA g w = (Ok (cert, key), w') ->
  exists cfg,
    certificate.config g = Some cfg
    /\ x509.Subject cert
       = {| pkix.Country := [config.Country cfg];
            pkix.Organization := [config.Organization cfg];
            pkix.OrganizationalUnit := [config.OrganizationalUnit cfg];
            pkix.Locality := [config.Locality cfg];
            pkix.Province := [config.State cfg];
            pkix.CommonName := config.Domain cfg |}
    /\ x509.Issuer cert = x509.Subject cert
    /\ x509.PublicKey cert = Some (Public key).
Proof.
  intros H. apply GenerateRootCA_Ok_issued in H.
  destruct H as (cfg & opts & s & w1 & w2 & Hc & Ho & _ & _ & _ & _ & _ & I).
  destruct (options_Subject false cfg w1 w2 opts Ho) as (Hsub & _).
  destruct (template_Subject cfg opts s Hsub) as (Ht & _).
  exists cfg. split; [exact Hc|]. split.
  { rewrite (iss_Subject _ _ _ _ _ I). exact Ht. }
  split.
  { rewrite (iss_Issuer _ _ _ _ _ I), (iss_Subject _ _ _ _ _ I). reflexivity. }
  exact (iss_PublicKey _ _ _ _ _ I).
Qed.

(** X3.  A returned leaf certificate names the issuer it was given: its
    issuer is the subject of the CA certificate.  Its own subject and DNS
    name come from the configuration, so a CA and a leaf generated from
    configurations with the same subject fields and domain (as the program
    does, from one configuration) carry the same distinguished name: the
    leaf's subject equals its issuer. *)
Theorem GenerateLeafCertificate_names (g0 g : certificate.Generator)
    (cfg0 cfg : config.CertificateConfig) (w0 w0' w w' : World)
    (caCert cert : x509.Certificate PublicKey) (caKey key : PrivateKey) :
  certificate.config g0 = Some cfg0 ->
  certificate.config g = Some cfg ->
  certificate.GenerateRootCA g0 w0 = (Ok (caCert, caKey), w0') ->
  certificate.GenerateLeafCertificate g (Some caCert) (Some caKey) w
  = (Ok (cert, key), w') ->
  x509.Issuer cert = x509.Subject caCert
  /\ pkix.CommonName (x509.Subject cert) = config.Domain cfg
  /\ x509.DNSNames cert = [config.Domain cfg]
  /\ x509.PublicKey cert = Some (Public key)
  /\ (config.Domain cfg0 = config.Domain cfg ->
      config.Country cfg0 = config.Country cfg ->
      config.State cfg0 = config.State cfg ->
      config.Locality cfg0 = config.Locality cfg ->
      config.Organization cfg0 = config.Organization cfg ->
      config.OrganizationalUnit cfg0 = config.OrganizationalUnit cfg ->
      x509.Subject cert = x509.Issuer cert).
Proof.
  intros Hc0 Hc Hroot Hleaf.
  apply GenerateRootCA_Ok_issued in Hroot.
  destruct Hroot as (c0 & opts0 & s0 & u1 & u2 & Hc0' & Ho0 & _ & _ & _ & _ & _ & I0).
  rewrite Hc0 in Hc0'. inversion Hc0'; subst c0; clear Hc0'.
  apply GenerateLeafCertificate_Ok_issued in Hleaf.
  destruct Hleaf as (c & opts & s & w1 & w2 & Hc' & Ho & _ & _ & _ & _ & _ & I).
  rewrite Hc in Hc'. inversion Hc'; subst c; clear Hc'.
  destruct (options_Subject false cfg0 u1 u2 opts0 Ho0) as (Hsub0 & _).
  destruct (options_Subject true cfg w1 w2 opts Ho) as (Hsub & Hdns & _).
  destruct (template_Subject cfg0 opts0 s0 Hsub0) as (Ht0 & _).
  destruct (template_Subject cfg opts s Hsub) as (Ht & Hl).
  split; [exact (iss_Issuer _ _ _ _ _ I)|]. split.
  { rewrite (iss_Subject _ _ _ _ _ I), Hl, Ht. reflexivity. }
  split.
  { rewrite (iss_DNSNames _ _ _ _ _ I). exact Hdns. }
  split; [exact (iss_PublicKey _ _ _ _ _ I)|].
  intros E1 E2 E3 E4 E5 E6.
  rewrite (iss_Issuer _ _ _ _ _ I), (iss_Subject _ _ _ _ _ I),
    (iss_Subject _ _ _ _ _ I0), Hl, Ht, Ht0.
  rewrite E1, E2, E3, E4, E5, E6. reflexivity.
Qed.

Lemma asn1_time_bounds (t : time.Time) :
  x509.asn1_time t <= t < x509.asn1_time t + time.Second.
Proof.
  unfold x509.asn1_time, time.Second.
  pose proof (Z.div_mod t 1000000000 ltac:(lia)).
  pose proof (Z.mod_pos_bound t 1000000000 ltac:(lia)). lia.
Qed.

Lemma asn1_time_monotone (t u : time.Time) :
  t <= u -> x509.asn1_time t <= x509.asn1_time u.
Proof.
  intros H. unfold x509.asn1_time, time.Second.
  pose proof (Z.div_le_mono t u 1000000000 ltac:(lia) H). lia.
Qed.

(** X4.  Each generator call reads the clock exactly once, and the
    certificate it returns starts at that reading cut down to the whole
    second: [NotBefore] is never after the instant of issuance and less than
    a second before it. *)
Theorem generated_NotBefore (g : certificate.Generator) (w w' : World)
    (cert : x509.Certificate PublicKey) (key : PrivateKey) :
  certificate.GenerateRootCA g w = (Ok (cert, key), w')
  \/ (exists caCert caKey,
        certificate.GenerateLeafCertificate g (Some caCert) (Some caKey) w
        = (Ok (cert, key), w')) ->
  x509.NotBefore cert = x509.asn1_time (clock w (ticks w))
  /\ x509.NotBefore cert <= clock w (ticks w) < x509.NotBefore cert + time.Second
  /\ ticks w' = S (ticks w)
  /\ clock w' = clock w.
Proof.
  assert (Hgen : forall now, x509.NotBefore cert = x509.asn1_time now ->
            x509.NotBefore cert = x509.asn1_time now
            /\ x509.NotBefore cert <= now < x509.NotBefore cert + time.Second).
  { intros now E. split; [exact E|]. rewrite E. apply asn1_time_bounds. }
  intros [H|(caCert & caKey & H)].
  - apply GenerateRootCA_Ok_issued in H.
    destruct H as (cfg & opts & s & w1 & w2 & _ & Ho & Ht & Hk & _ & Ht' & Hk' & I).
    destruct (options_Subject false cfg w1 w2 opts Ho) as (_ & _ & Hvf).
    rewrite Ht, Hk in Hvf.
    destruct (Hgen (clock w (ticks w))) as (E & B).
    { rewrite (iss_NotBefore _ _ _ _ _ I). cbn [certificate.RootCATemplate x509.NotBefore].
      rewrite Hvf. reflexivity. }
    auto.
  - apply GenerateLeafCertificate_Ok_issued in H.
    destruct H as (cfg & opts & s & w1 & w2 & _ & Ho & Ht & Hk & _ & Ht' & Hk' & I).
    destruct (options_Subject true cfg w1 w2 opts Ho) as (_ & _ & Hvf).
    rewrite Ht, Hk in Hvf.
    destruct (Hgen (clock w (ticks w))) as (E & B).
    { rewrite (iss_NotBefore _ _ _ _ _ I). cbn [certificate.LeafTemplate x509.NotBefore].
      rewrite Hvf. reflexivity. }
    auto.
Qed.

(** X5.  The CA lives 1024 days whatever the configuration says, so with
    [ValidityDays] above 1024 (the default is 3650) a leaf issued no
    earlier than its CA expires after the CA does. *)
Theorem leaf_outlives_CA (g0 g : certificate.Generator)
    (cfg : config.CertificateConfig) (w0 w0' w w' : World)
    (caCert cert : x509.Certificate PublicKey) (caKey key : PrivateKey) :
  certificate.config g = Some cfg ->
  1024 < config.ValidityDays cfg <= 36500 ->
  clock w0 (ticks w0) <= clock w (ticks w) ->
  certificate.GenerateRootCA g0 w0 = (Ok (caCert, caKey), w0') ->
  certificate.GenerateLeafCertificate g (Some caCert) (Some caKey) w
  = (Ok (cert, key), w') ->
  x509.NotAfter caCert < x509.NotAfter cert.
Proof.
  intros Hc Hdays Hclock Hroot Hleaf.
  apply GenerateRootCA_Ok_issued in Hroot.
  destruct Hroot as (c0 & opts0 & s0 & u1 & u2 & _ & Ho0 & Ht0 & Hk0 & _ & _ & _ & I0).
  apply GenerateLeafCertificate_Ok_issued in Hleaf.
  destruct Hleaf as (c & opts & s & w1 & w2 & Hc' & Ho & Ht & Hk & _ & _ & _ & I).
  rewrite Hc in Hc'. inversion Hc'; subst c; clear Hc'.
  destruct (options_Subject false c0 u1 u2 opts0 Ho0) as (_ & _ & Hvf0).
  destruct (options_Subject true cfg w1 w2 opts Ho) as (_ & _ & Hvf).
  rewrite Ht0, Hk0 in Hvf0. rewrite Ht, Hk in Hvf.
  apply GetRootCAOptions_Ok_inv in Ho0.
  destruct Ho0 as (? & _ & _ & _ & _ & _ & Hfor0 & _).
  apply GetLeafCertOptions_Ok_inv in Ho.
  destruct Ho as (c' & E & _ & _ & _ & _ & Hfor & _).
  inversion E; subst c'; clear E.
  rewrite (iss_NotAfter _ _ _ _ _ I0), (iss_NotAfter _ _ _ _ _ I).
  cbn [certificate.RootCATemplate certificate.LeafTemplate x509.NotAfter].
  rewrite Hvf0, Hvf, Hfor0, Hfor.
  rewrite (leaf_ValidFor_exact (config.ValidityDays cfg)) by lia.
  replace (1024 * 24 * time.Hour) with ((1024 * 86400) * time.Second) by reflexivity.
  replace (config.ValidityDays cfg * (24 * time.Hour))
    with ((config.ValidityDays cfg * 86400) * time.Second)
    by (unfold time.Hour, time.Minute, time.Second; lia).
  rewrite !asn1_time_Add. unfold time.Add.
  pose proof (asn1_time_monotone _ _ Hclock). unfold time.Second. lia.
Qed.

(** X6.  With a nil configuration or a key size below 1024 bits both
    generators return the error of [GeneratePrivateKey] and leave the world
    as it was: no entropy is drawn and the clock is not read.  The leaf
    generator does so before it looks at the issuer, so a nil issuer
    certificate or key gives this error and no panic. *)
Theorem generators_fail_before_effects (g : certificate.Generator)
    (caCert : option (x509.Certificate PublicKey)) (caKey : option PrivateKey)
    (w : World) :
  certificate.config g = None
  \/ (exists cfg, certificate.config g = Some cfg /\ config.KeySize cfg < 1024) ->
  exists e,
    (e = "configuration is nil" \/ e = "key size must be at least 1024 bits")
    /\ certificate.GeneratePrivateKey g w = (Err e, w)
    /\ certificate.GenerateRootCA g w = (Err e, w)
    /\ certificate.GenerateLeafCertificate g caCert caKey w = (Err e, w).
Proof.
  intros [Hc|(cfg & Hc & Hsz)].
  - exists "configuration is nil". split; [left; reflexivity|].
    unfold certificate.GenerateRootCA, certificate.GenerateLeafCertificate,
      certificate.GeneratePrivateKey, bind. rewrite Hc. repeat split.
  - exists "key size must be at least 1024 bits". split; [right; reflexivity|].
    unfold certificate.GenerateRootCA, certificate.GenerateLeafCertificate,
      certificate.GeneratePrivateKey, bind. rewrite Hc.
    destruct (Z.ltb_spec (config.KeySize cfg) 1024); [|lia]. repeat split.
Qed.

End GeneratorFurther.

Section GeneratorErrors.

Context {L : CryptoLib}.

Lemma bind_Err_inv {A B} (m : M A) (k : A -> M B) (w w' : World) (e : error) :
  bind m k w = (Err e, w') ->
  m w = (Err e, w') \/ exists a w1, m w = (Ok a, w1) /\ k a w1 = (Err e, w').
Proof.
  unfold bind. destruct (m w) as [[a|e0|p] w1]; intros H; try discriminate.
  - right. exists a, w1. split; [reflexivity|exact H].
  - left. inversion H; subst. reflexivity.
Qed.

Lemma wrap_Err_inv {A} (prefix : string) (m : M A) (w w' : World) (e : error) :
  wrap prefix m w = (Err e, w') ->
  exists cause, m w = (Err cause, w') /\ e = (prefix ++ cause)%string.
Proof.
  unfold wrap. destruct (m w) as [[a|e0|p] w1]; intros H; try discriminate.
  inversion H; subst. exists e0. split; reflexivity.
Qed.

Lemma GeneratePrivateKey_Err_inv (g : certificate.Generator) (w w' : World)
    (e : error) :
  certificate.GeneratePrivateKey g w = (Err e, w') ->
  e = "configuration is nil"
  \/ e = "key size must be at least 1024 bits"
  \/ exists cause, e = ("failed to generate private key: " ++ cause)%string.
Proof.
  unfold certificate.GeneratePrivateKey.
  destruct (certificate.config g) as [c|].
  - destruct (config.KeySize c <? 1024).
    + intros H. inversion H. auto.
    + intros H. apply wrap_Err_inv in H. destruct H as (cause & _ & ->). eauto.
  - intros H. inversion H. auto.
Qed.

Lemma options_never_Err (leaf : bool) (c : option config.CertificateConfig)
    (w w' : World) (e : error) :
  (if leaf then config.GetLeafCertOptions c w else config.GetRootCAOptions c w)
  <> (Err e, w').
Proof. destruct leaf, c; discriminate. Qed.

(** X7.  Every error the generators return is one of the two messages of
    [GeneratePrivateKey] or the cause a library call reported, behind the
    prefix of the step that failed. *)
Theorem generator_errors (g : certificate.Generator)
    (caCert : option (x509.Certificate PublicKey)) (caKey : option PrivateKey)
    (w w' : World) (e : error) :
  certificate.GenerateRootCA g w = (Err e, w')
  \/ certificate.GenerateLeafCertificate g caCert caKey w = (Err e, w') ->
  e = "configuration is nil"
  \/ e = "key size must be at least 1024 bits"
  \/ exists cause,
       e = ("failed to generate private key: " ++ cause)%string
       \/ e = ("failed to generate serial number: " ++ cause)%string
       \/ e = ("failed to create root CA certificate: " ++ cause)%string
       \/ e = ("failed to parse root CA certificate: " ++ cause)%string
       \/ e = ("failed to create leaf certificate: " ++ cause)%string
       \/ e = ("failed to parse leaf certificate: " ++ cause)%string.
Proof.
  intros [H|H].
  - unfold certificate.GenerateRootCA in H.
    apply bind_Err_inv in H. destruct H as [H|(key & w1 & _ & H)].
    { apply GeneratePrivateKey_Err_inv in H.
      destruct H as [->|[->|(cause & ->)]]; eauto 8. }
    apply bind_Err_inv in H. destruct H as [H|(opts & w2 & _ & H)].
    { exfalso. exact (options_never_Err false _ _ _ _ H). }
    apply bind_Err_inv in H. destruct H as [H|(s & w3 & _ & H)].
    { apply wrap_Err_inv in H. destruct H as (cause & _ & ->). eauto 10. }
    apply bind_Err_inv in H. destruct H as [H|(der & w4 & _ & H)].
    { apply wrap_Err_inv in H. destruct H as (cause & _ & ->). eauto 10. }
    apply bind_Err_inv in H. destruct H as [H|(c & w5 & _ & H)].
    { apply wrap_Err_inv in H. destruct H as (cause & _ & ->). eauto 10. }
    discriminate H.
  - unfold certificate.GenerateLeafCertificate in H.
    apply bind_Err_inv in H. destruct H as [H|(key & w1 & _ & H)].
    { apply GeneratePrivateKey_Err_inv in H.
      destruct H as [->|[->|(cause & ->)]]; eauto 8. }
    apply bind_Err_inv in H. destruct H as [H|(opts & w2 & _ & H)].
    { exfalso. exact (options_never_Err true _ _ _ _ H). }
    apply bind_Err_inv in H. destruct H as [H|(s & w3 & _ & H)].
    { apply wrap_Err_inv in H. destruct H as (cause & _ & ->). eauto 10. }
    apply bind_Err_inv in H. destruct H as [H|(der & w4 & _ & H)].
    { apply wrap_Err_inv in H. destruct H as (cause & _ & ->). eauto 12. }
    apply bind_Err_inv in H. destruct H as [H|(c & w5 & _ & H)].
    { apply wrap_Err_inv in H. destruct H as (cause & _ & ->). eauto 12. }
    discriminate H.
Qed.

Lemma wrap64_range (z : Z) : int64_range (wrap64 z).
Proof.
  unfold int64_range, wrap64.
  pose proof (Z.mod_pos_bound (z + 2 ^ 63) (2 ^ 64) ltac:(lia)). lia.
Qed.

(** X8.  The leaf options compute the lifetime in int64 nanoseconds:
    [ValidFor] is [ValidityDays] days exactly when [ValidityDays] lies
    between -106751 and 106751; beyond that the product wraps around, as it
    does to a negative lifetime at 106752 days. *)
Theorem GetLeafCertOptions_ValidFor (cfg : config.CertificateConfig) (w : World) :
  exists opts,
    config.GetLeafCertOptions (Some cfg) w
    = (Ok opts, mkWorld (rng w) (S (ticks w)) (clock w))
    /\ int64_range (config.ValidFor opts)
    /\ (config.ValidFor opts = config.ValidityDays cfg * (24 * time.Hour)
        <-> -106751 <= config.ValidityDays cfg <= 106751)
    /\ (config.ValidityDays cfg = 106752 -> config.ValidFor opts < 0).
Proof.
  destruct (GetLeafCertOptions_total cfg w) as (opts & Ho).
  exists opts. split; [exact Ho|].
  apply GetLeafCertOptions_Ok_inv in Ho.
  destruct Ho as (c & E & _ & _ & _ & _ & Hfor & _).
  inversion E; subst c; clear E. rewrite Hfor. clear Hfor.
  split; [apply wrap64_range|]. split; [split|].
  - intros H. pose proof (wrap64_range (mul64 (config.ValidityDays cfg) 24 * time.Hour)) as R.
    unfold mul64 at 1 in H. rewrite H in R.
    unfold int64_range, time.Hour, time.Minute, time.Second in R. lia.
  - intros H. unfold mul64.
    rewrite (wrap64_id (config.ValidityDays cfg * 24)) by (unfold int64_range; lia).
    rewrite wrap64_id; unfold int64_range, time.Hour, time.Minute, time.Second; lia.
  - intros ->. vm_compute. reflexivity.
Qed.

End GeneratorErrors.

(** ** The encoding layer: conversions, key decoding, base64 text *)

Section EncodingFurther.

Context {L : CryptoLib} {HL : CryptoLaws L}.

(** X9.  Converting a certificate's PEM to DER gives back its raw bytes,
    so the base64 text of [ConvertCertificateToBase64DER] is the one
    obtained by way of PEM and DER; likewise the PEM of a private key holds
    its PKCS #8 encoding.  This needs no well-formed certificate: nothing
    is parsed. *)
Theorem ConvertPEMToDER_of_encoded :
  (forall cert : x509.Certificate PublicKey,
     exists pemData derData,
       encoding.EncodeCertificateToPEM (Some cert) = Ok pemData
       /\ encoding.ConvertPEMToDER pemData = Ok derData
       /\ derData = x509.Raw cert
       /\ encoding.ConvertCertificateToBase64DER (Some cert)
          = Ok (encoding.EncodeDERToBase64 derData))
  /\ (forall (key : PrivateKey) (pkcs8 : bytes),
      x509_MarshalPKCS8PrivateKey key = Ok pkcs8 ->
      exists pemData,
        encoding.EncodePrivateKeyToPEM (Some key) = Ok pemData
        /\ encoding.ConvertPEMToDER pemData = Ok pkcs8).
Proof.
  split.
  - intros cert. eexists. exists (x509.Raw cert).
    split; [reflexivity|]. split.
    { unfold encoding.ConvertPEMToDER.
      rewrite (PEM_roundtrip "CERTIFICATE" (x509.Raw cert) pem_label_CERTIFICATE).
      reflexivity. }
    split; reflexivity.
  - intros key pkcs8 Hm. eexists. split.
    { unfold encoding.EncodePrivateKeyToPEM. rewrite Hm. reflexivity. }
    unfold encoding.ConvertPEMToDER.
    rewrite (PEM_roundtrip "PRIVATE KEY" pkcs8 pem_label_PRIVATE_KEY). reflexivity.
Qed.

(** X10.  [DecodePEMPrivateKey] does not look at the label either.  On a
    well-formed envelope the outcome is that of [ParsePKCS8PrivateKey] on the
    inner bytes: an RSA key is returned, a key of another algorithm is the
    error [key is not an RSA private key], a parse error is passed on behind
    a prefix.  So a [CERTIFICATE] envelope around the PKCS #8 encoding of a
    valid RSA key decodes to that key. *)
Theorem DecodePEMPrivateKey_outcomes (pemData : bytes) (block : pem.Block) :
  fst (pem_Decode pemData) = Some block ->
  (forall key,
     x509_ParsePKCS8PrivateKey (pem.Bytes block) = Ok (x509.KeyRSA key) ->
     encoding.DecodePEMPrivateKey pemData = Ok key)
  /\ (x509_ParsePKCS8PrivateKey (pem.Bytes block) = Ok x509.KeyOther ->
      encoding.DecodePEMPrivateKey pemData = Err "key is not an RSA private key")
  /\ (forall cause,
      x509_ParsePKCS8PrivateKey (pem.Bytes block) = Err cause ->
      encoding.DecodePEMPrivateKey pemData
      = Err ("failed to parse private key: " ++ cause)%string)
  /\ (forall key,
      rsa_Validate key = true ->
      exists pkcs8,
        x509_MarshalPKCS8PrivateKey key = Ok pkcs8
        /\ encoding.DecodePEMPrivateKey
             (pem_EncodeToMemory
                {| pem.Type_ := "CERTIFICATE"; pem.Headers := [];
                   pem.Bytes := pkcs8 |})
           = Ok key).
Proof.
  intros H. unfold encoding.DecodePEMPrivateKey. rewrite H.
  split; [|split; [|split]].
  - intros key ->. reflexivity.
  - intros ->. reflexivity.
  - intros cause ->. reflexivity.
  - intros key Hk. destruct (PKCS8_roundtrip key Hk) as (der & Hm & Hp).
    exists der. split; [exact Hm|].
    rewrite (PEM_roundtrip "CERTIFICATE" der pem_label_CERTIFICATE).
    cbn [pem.Bytes]. rewrite Hp. reflexivity.
Qed.

End EncodingFurther.

Section Base64Text.

Lemma list_ind3 {A} (P : list A -> Prop) :
  P [] -> (forall a, P [a]) -> (forall a b, P [a; b]) ->
  (forall a b c l, P l -> P (a :: b :: c :: l)) ->
  forall l, P l.
Proof.
  intros H0 H1 H2 H3.
  assert (H : forall l, P l /\ (forall a, P (a :: l)) /\ (forall a b, P (a :: b :: l))).
  { induction l as [|x l (IH0 & IH1 & IH2)].
    - repeat split; auto.
    - repeat split; auto. }
  intros l. apply H.
Qed.

Lemma land_63_range (x : Z) : 0 <= Z.land x 63 < 64.
Proof.
  change 63 with (Z.ones 6). rewrite Z.land_ones by lia.
  apply Z.mod_pos_bound. reflexivity.
Qed.

Lemma digit_in_alphabet (n : Z) :
  0 <= n < 64 ->
  In (base64.digit n) (list_ascii_of_string base64.encodeStd).
Proof.
  intros Hn.
  assert (Hall : forallb
            (fun k => existsb (Ascii.eqb (base64.digit (Z.of_nat k)))
                        (list_ascii_of_string base64.encodeStd))
            (seq 0 64) = true) by (vm_compute; reflexivity).
  rewrite forallb_forall in Hall.
  specialize (Hall (Z.to_nat n)).
  rewrite Z2Nat.id in Hall by lia.
  assert (Hin : In (Z.to_nat n) (seq 0 64)) by (apply in_seq; lia).
  apply Hall in Hin. apply existsb_exists in Hin.
  destruct Hin as (c & Hc & E). apply Ascii.eqb_eq in E. rewrite E. exact Hc.
Qed.

(** X11.  [EncodeDERToBase64] is total and its text is not wrapped: it has
    four characters for every three bytes begun, each a digit of the
    standard alphabet or the padding sign, so it holds no line break. *)
Theorem EncodeDERToBase64_text (derData : bytes) :
  String.length (encoding.EncodeDERToBase64 derData)
  = (4 * ((List.length derData + 2) / 3))%nat
  /\ Forall (fun c => In c (list_ascii_of_string base64.encodeStd) \/ c = "="%char)
       (list_ascii_of_string (encoding.EncodeDERToBase64 derData))
  /\ ~ In "010"%char (list_ascii_of_string (encoding.EncodeDERToBase64 derData))
  /\ ~ In "013"%char (list_ascii_of_string (encoding.EncodeDERToBase64 derData)).
Proof.
  assert (Hchars : Forall (fun c => In c (list_ascii_of_string base64.encodeStd)
                                    \/ c = "="%char)
                     (list_ascii_of_string (encoding.EncodeDERToBase64 derData))).
  { unfold encoding.EncodeDERToBase64.
    induction derData as [|a|a b|a b c l IH] using list_ind3;
      cbn [base64.EncodeToString list_ascii_of_string];
      repeat (apply Forall_cons;
              [first [right; reflexivity
                     |left; apply digit_in_alphabet, land_63_range]|]);
      try apply Forall_nil.
    exact IH. }
  split; [|split; [exact Hchars|]].
  - clear Hchars. unfold encoding.EncodeDERToBase64.
    induction derData as [|a|a b|a b c l IH] using list_ind3;
      try reflexivity.
    cbn [base64.EncodeToString String.length List.length]. rewrite IH.
    replace (S (S (S (List.length l))) + 2)%nat with (List.length l + 2 + 1 * 3)%nat by lia.
    rewrite Nat.div_add by discriminate. lia.
  - rewrite Forall_forall in Hchars. split; intros Hin; apply Hchars in Hin;
      destruct Hin as [Hin|Hin]; try discriminate Hin;
      vm_compute in Hin; intuition discriminate.
Qed.

End Base64Text.

(** ** File names *)

Lemma append_inj_l (s a b : string) : (s ++ a = s ++ b)%string -> a = b.
Proof.
  induction s as [|c s IH]; cbn; intros H; [exact H|].
  inversion H. auto.
Qed.

(** X12.  The eight paths of a file writer are pairwise different, whatever
    the domain: no artifact overwrites another. *)
Theorem FileWriter_paths_distinct (fw : fileio.FileWriter) :
  NoDup [fileio.GetRootKeyPath fw; fileio.GetRootCertPath fw;
         fileio.GetLeafKeyPath fw; fileio.GetLeafCertPath fw;
         fileio.GetLeafCSRPath fw; fileio.GetPKCS12Path fw;
         fileio.GetRootBase64Path fw; fileio.GetLeafBase64Path fw].
Proof.
  unfold fileio.GetRootKeyPath, fileio.GetRootCertPath, fileio.GetLeafKeyPath,
    fileio.GetLeafCertPath, fileio.GetLeafCSRPath, fileio.GetPKCS12Path,
    fileio.GetRootBase64Path, fileio.GetLeafBase64Path.
  repeat (constructor;
          [cbn [In]; intros H;
           repeat (destruct H as [H|H]; [apply append_inj_l in H; discriminate H|]);
           exact H|]).
  constructor.
Qed.

Lemma Split_first_spec (domain : string) :
  ~ In "."%char (list_ascii_of_string (strings.Split_first domain "."%char))
  /\ exists rest,
       domain = (strings.Split_first domain "."%char ++ rest)%string
       /\ (rest = EmptyString \/ exists r, rest = String "."%char r).
Proof.
  induction domain as [|c d (IHn & rest & IHe & IHr)]; cbn [strings.Split_first].
  - split; [intros []|]. exists EmptyString. auto.
  - destruct (Ascii.eqb_spec c "."%char) as [->|N].
    + split; [intros []|]. exists (String "."%char d). split; [reflexivity|eauto].
    + split.
      * cbn. intros [E|E]; [congruence|exact (IHn E)].
      * exists rest. split; [cbn; rewrite <- IHe; reflexivity|exact IHr].
Qed.

(** X13.  A file writer keeps the domain up to its first dot, and that
    alone names the files: a label without a dot is kept whole, and two
    domains with the same first label, such as [example.com] and
    [example.org], are written to the same eight paths. *)
Theorem NewFileWriter_first_label (label rest1 rest2 : string) :
  ~ In "."%char (list_ascii_of_string label) ->
  fileio.NewFileWriter label = {| fileio.subdomain := label |}
  /\ fileio.NewFileWriter (label ++ String "."%char rest1)
     = {| fileio.subdomain := label |}
  /\ fileio.NewFileWriter (label ++ String "."%char rest1)
     = fileio.NewFileWriter (label ++ String "."%char rest2)
  /\ (forall domain,
      ~ In "."%char
          (list_ascii_of_string (fileio.subdomain (fileio.NewFileWriter domain)))
      /\ exists rest,
           domain = (fileio.subdomain (fileio.NewFileWriter domain) ++ rest)%string
           /\ (rest = EmptyString \/ exists r, rest = String "."%char r)).
Proof.
  intros Hnd.
  assert (H : forall rest,
            strings.Split_first (label ++ rest) "."%char
            = (label ++ strings.Split_first rest "."%char)%string).
  { induction label as [|c l IH]; intros rest; [reflexivity|].
    cbn. destruct (Ascii.eqb_spec c "."%char) as [->|N].
    - exfalso. apply Hnd. left. reflexivity.
    - rewrite IH; [reflexivity|]. intros Hin. apply Hnd. right. exact Hin. }
  assert (E : (label ++ "")%string = label).
  { clear. induction label as [|c l IH]; [reflexivity|cbn; rewrite IH; reflexivity]. }
  assert (H0 : strings.Split_first label "."%char = label).
  { specialize (H EmptyString). rewrite E in H. cbn [strings.Split_first] in H.
    rewrite E in H. exact H. }
  unfold fileio.NewFileWriter. rewrite H0, !H. cbn [strings.Split_first].
  rewrite Ascii.eqb_refl. rewrite E. repeat split; try reflexivity.
  - apply (Split_first_spec domain).
  - apply (Split_first_spec domain).
Qed.

(** ** The PKCS #12 bundler *)

Section Bundler.

Context {L : CryptoLib}.

Local Open Scope list_scope.

Ltac unfold_pkcs12 :=
  unfold pkcs12.GeneratePKCS12, io_bind, io_wrap, io_defer, io_check, io_lift, io_ret;
  cbn [exec_LookPath os_MkdirTemp os_ReadFile os_RemoveAll exec_Run filepath_Join
       os_WriteFile Scripted.process Scripted.fs Scripted.answer Scripted.answer_with].

Ltac unfold_pkcs12_in H :=
  unfold pkcs12.GeneratePKCS12, io_bind, io_wrap, io_defer, io_check, io_lift, io_ret in H;
  cbn [exec_LookPath os_MkdirTemp os_ReadFile os_RemoveAll exec_Run filepath_Join
       os_WriteFile Scripted.process Scripted.fs Scripted.answer Scripted.answer_with]
    in H.

(** X14.  A successful [GeneratePKCS12] did exactly this, in this order: it
    found openssl, created a temporary directory, wrote the leaf
    certificate there with mode 0644 and the leaf key with mode 0600, both
    as PEM, ran [openssl pkcs12 -export] with the password on the command
    line, read the bundle back and removed the directory.  What it returns
    is the content of the bundle file.  The CA certificate it is given
    plays no part: no call mentions it and any other gives the same run. *)
Theorem GeneratePKCS12_success (s : Scripted.script)
    (leafCert caCert : option (x509.Certificate PublicKey))
    (leafKey : option PrivateKey) (password : string)
    (trace : list Scripted.event) (pfxData : bytes) :
  @pkcs12.GeneratePKCS12 L (Scripted.fs s) (Scripted.process s)
    pkcs12.NewGenerator leafCert leafKey caCert password [] = (Ok pfxData, trace) ->
  exists cert key certPEM keyPEM,
    leafCert = Some cert /\ leafKey = Some key
    /\ encoding.EncodeCertificateToPEM (Some cert) = Ok certPEM
    /\ encoding.EncodePrivateKeyToPEM (Some key) = Ok keyPEM
    /\ pfxData = Scripted.content s (Scripted.tempDir s ++ "/bundle.p12")%string
    /\ trace =
        [Scripted.LookPath "openssl";
         Scripted.MkdirTemp "" "certgen";
         Scripted.WriteFile (Scripted.tempDir s ++ "/leaf.pem")%string certPEM
           fileio.mode_0644;
         Scripted.WriteFile (Scripted.tempDir s ++ "/leaf.key")%string keyPEM
           fileio.mode_0600;
         Scripted.Run "openssl"
           ["pkcs12"; "-export";
            "-out"; (Scripted.tempDir s ++ "/bundle.p12")%string;
            "-inkey"; (Scripted.tempDir s ++ "/leaf.key")%string;
            "-in"; (Scripted.tempDir s ++ "/leaf.pem")%string;
            "-password"; ("pass:" ++ password)%string];
         Scripted.ReadFile (Scripted.tempDir s ++ "/bundle.p12")%string;
         Scripted.RemoveAll (Scripted.tempDir s)]
    /\ forall otherCA,
         @pkcs12.GeneratePKCS12 L (Scripted.fs s) (Scripted.process s)
           pkcs12.NewGenerator leafCert leafKey otherCA password []
         = (Ok pfxData, trace).
Proof.
  intros H. pose proof H as Hrun. unfold_pkcs12_in H.
  destruct (Scripted.fails s (Scripted.LookPath "openssl")) eqn:E1;
    cbv beta iota zeta in H; [discriminate H|].
  destruct (Scripted.fails s (Scripted.MkdirTemp "" "certgen")) eqn:E2;
    cbv beta iota zeta in H; [discriminate H|].
  destruct leafCert as [cert|]; cbn [encoding.EncodeCertificateToPEM] in H;
    cbv beta iota zeta in H; [|discriminate H].
  match type of H with context [Scripted.fails s (Scripted.WriteFile ?a ?b ?c)] =>
    destruct (Scripted.fails s (Scripted.WriteFile a b c)) eqn:E3 end;
    cbv beta iota zeta in H; [discriminate H|].
  destruct leafKey as [key|]; cbn [encoding.EncodePrivateKeyToPEM obind owrap] in H;
    cbv beta iota zeta in H; [|discriminate H].
  destruct (x509_MarshalPKCS8PrivateKey key) as [keyBytes|e|p] eqn:Em;
    cbn [obind owrap] in H; cbv beta iota zeta in H; try discriminate H.
  match type of H with context [Scripted.fails s (Scripted.WriteFile ?a ?b ?c)] =>
    destruct (Scripted.fails s (Scripted.WriteFile a b c)) eqn:E4 end;
    cbv beta iota zeta in H; [discriminate H|].
  match type of H with context [Scripted.fails s (Scripted.Run ?a ?b)] =>
    destruct (Scripted.fails s (Scripted.Run a b)) eqn:E5 end;
    cbv beta iota zeta in H; [discriminate H|].
  match type of H with context [Scripted.fails s (Scripted.ReadFile ?a)] =>
    destruct (Scripted.fails s (Scripted.ReadFile a)) eqn:E6 end;
    cbv beta iota zeta in H; [discriminate H|].
  inversion H; subst pfxData trace; clear H.
  exists cert, key. eexists. eexists.
  split; [reflexivity|]. split; [reflexivity|].
  split; [reflexivity|]. split.
  { unfold encoding.EncodePrivateKeyToPEM. rewrite Em. reflexivity. }
  split; [reflexivity|]. split; [reflexivity|].
  intros otherCA. exact Hrun.
Qed.

Ltac leave_bundler H :=
  inversion H; subst; clear H;
  repeat split; try reflexivity;
  try (intros C; exfalso; apply C; reflexivity).

(** X15.  Once [GeneratePKCS12] has its temporary directory, it removes it
    on every way out, by an error of any step, by a panic of the library
    or by success: the removal is the last thing it does and the only
    removal.  It starts openssl only after both files are in the
    directory, the certificate with mode 0644 and the key with mode
    0600. *)
Theorem GeneratePKCS12_removes_temp_dir (s : Scripted.script)
    (leafCert caCert : option (x509.Certificate PublicKey))
    (leafKey : option PrivateKey) (password : string)
    (result : outcome bytes) (trace : list Scripted.event) :
  Scripted.fails s (Scripted.LookPath "openssl") = None ->
  Scripted.fails s (Scripted.MkdirTemp "" "certgen") = None ->
  @pkcs12.GeneratePKCS12 L (Scripted.fs s) (Scripted.process s)
    pkcs12.NewGenerator leafCert leafKey caCert password [] = (result, trace) ->
  last trace (Scripted.LookPath "openssl") = Scripted.RemoveAll (Scripted.tempDir s)
  /\ Scripted.removed trace = [Scripted.tempDir s]
  /\ (Scripted.commands trace <> [] ->
      Scripted.written_modes trace
      = [((Scripted.tempDir s ++ "/leaf.pem")%string, fileio.mode_0644);
         ((Scripted.tempDir s ++ "/leaf.key")%string, fileio.mode_0600)]).
Proof.
  intros E1 E2 H. unfold_pkcs12_in H. rewrite E1, E2 in H. cbv beta iota zeta in H.
  destruct leafCert as [cert|]; cbn [encoding.EncodeCertificateToPEM] in H;
    cbv beta iota zeta in H; [|leave_bundler H].
  match type of H with context [Scripted.fails s (Scripted.WriteFile ?a ?b ?c)] =>
    destruct (Scripted.fails s (Scripted.WriteFile a b c)) eqn:E3 end;
    cbv beta iota zeta in H; [leave_bundler H|].
  destruct leafKey as [key|]; cbn [encoding.EncodePrivateKeyToPEM obind owrap] in H;
    cbv beta iota zeta in H; [|leave_bundler H].
  destruct (x509_MarshalPKCS8PrivateKey key) as [keyBytes|e|p] eqn:Em;
    cbn [obind owrap] in H; cbv beta iota zeta in H;
    [|leave_bundler H|leave_bundler H].
  match type of H with context [Scripted.fails s (Scripted.WriteFile ?a ?b ?c)] =>
    destruct (Scripted.fails s (Scripted.WriteFile a b c)) eqn:E4 end;
    cbv beta iota zeta in H; [leave_bundler H|].
  match type of H with context [Scripted.fails s (Scripted.Run ?a ?b)] =>
    destruct (Scripted.fails s (Scripted.Run a b)) eqn:E5 end;
    cbv beta iota zeta in H; [leave_bundler H|].
  match type of H with context [Scripted.fails s (Scripted.ReadFile ?a)] =>
    destruct (Scripted.fails s (Scripted.ReadFile a)) eqn:E6 end;
    cbv beta iota zeta in H; leave_bundler H.
Qed.

(** X16.  A missing certificate or key is an error of [GeneratePKCS12],
    not a panic: with no certificate it stops before writing anything,
    with a certificate and no key after writing the certificate; both
    times openssl is not run and the temporary directory is removed. *)
Theorem GeneratePKCS12_nil_inputs (s : Scripted.script)
    (caCert : option (x509.Certificate PublicKey)) (password : string) :
  Scripted.fails s (Scripted.LookPath "openssl") = None ->
  Scripted.fails s (Scripted.MkdirTemp "" "certgen") = None ->
  (forall leafKey,
     @pkcs12.GeneratePKCS12 L (Scripted.fs s) (Scripted.process s)
       pkcs12.NewGenerator None leafKey caCert password []
     = (Err "failed to encode leaf cert: certificate is nil",
        [Scripted.LookPath "openssl"; Scripted.MkdirTemp "" "certgen";
         Scripted.RemoveAll (Scripted.tempDir s)]))
  /\ (forall cert,
        Scripted.fails s
          (Scripted.WriteFile (Scripted.tempDir s ++ "/leaf.pem")%string
             (pem_EncodeToMemory
                {| pem.Type_ := "CERTIFICATE"; pem.Headers := [];
                   pem.Bytes := x509.Raw cert |})
             fileio.mode_0644) = None ->
        @pkcs12.GeneratePKCS12 L (Scripted.fs s) (Scripted.process s)
          pkcs12.NewGenerator (Some cert) None caCert password []
        = (Err "failed to encode leaf key: private key is nil",
           [Scripted.LookPath "openssl"; Scripted.MkdirTemp "" "certgen";
            Scripted.WriteFile (Scripted.tempDir s ++ "/leaf.pem")%string
              (pem_EncodeToMemory
                 {| pem.Type_ := "CERTIFICATE"; pem.Headers := [];
                    pem.Bytes := x509.Raw cert |})
              fileio.mode_0644;
            Scripted.RemoveAll (Scripted.tempDir s)])).
Proof.
  intros E1 E2. split.
  - intros leafKey. unfold_pkcs12. rewrite E1, E2. reflexivity.
  - intros cert E3. unfold_pkcs12. rewrite E1, E2.
    cbn [encoding.EncodeCertificateToPEM]. cbv beta iota zeta.
    cbn [append]. rewrite E3. reflexivity.
Qed.

End Bundler.

(** ** The command *)

Section Program.

Context {L : CryptoLib}.

Variable s : Scripted.script.

Local Open Scope list_scope.

(** *** One step of [run] at a time *)

Lemma app_bind_print {B} (text : string) (k : unit -> @certgen.App L (Scripted.fs s) B)
    (w : World) (log : list Scripted.event) :
  @certgen.app_bind L (Scripted.fs s) unit B
    (@certgen.print L (Scripted.fs s) (Scripted.process s) text) k (w, log)
  = k tt (w, log ++ [Scripted.Stdout text]).
Proof. reflexivity. Qed.

Lemma app_bind_crypto_Ok {A B} (prefix : string) (m : M A)
    (k : A -> @certgen.App L (Scripted.fs s) B)
    (w : World) (log : list Scripted.event) (b : B) st' :
  @certgen.app_bind L (Scripted.fs s) A B
    (certgen.app_wrap prefix (certgen.crypto m)) k (w, log) = (Ok b, st') ->
  exists a w1, m w = (Ok a, w1) /\ k a (w1, log) = (Ok b, st').
Proof.
  unfold certgen.app_bind, certgen.app_wrap, certgen.crypto. cbn [fst snd].
  destruct (m w) as [[a|e|p] w1]; intros H; try discriminate H.
  exists a, w1. split; [reflexivity|exact H].
Qed.

Lemma app_bind_crypto_eq {A B} (prefix : string) (m : M A)
    (k : A -> @certgen.App L (Scripted.fs s) B)
    (w w1 : World) (log : list Scripted.event) (a : A) :
  m w = (Ok a, w1) ->
  @certgen.app_bind L (Scripted.fs s) A B
    (certgen.app_wrap prefix (certgen.crypto m)) k (w, log) = k a (w1, log).
Proof.
  intros H. unfold certgen.app_bind, certgen.app_wrap, certgen.crypto. cbn [fst snd].
  rewrite H. reflexivity.
Qed.

Lemma app_bind_pure_Ok {A B} (prefix : string) (o : outcome A)
    (k : A -> @certgen.App L (Scripted.fs s) B) st (b : B) st' :
  @certgen.app_bind L (Scripted.fs s) A B
    (certgen.app_wrap prefix (certgen.pure o)) k st = (Ok b, st') ->
  exists a, o = Ok a /\ k a st = (Ok b, st').
Proof.
  unfold certgen.app_bind, certgen.app_wrap, certgen.pure.
  destruct o as [a|e|p]; intros H; try discriminate H.
  exists a. split; [reflexivity|exact H].
Qed.

Lemma app_bind_pure_eq {A B} (prefix : string) (o : outcome A)
    (k : A -> @certgen.App L (Scripted.fs s) B) st (a : A) :
  o = Ok a ->
  @certgen.app_bind L (Scripted.fs s) A B
    (certgen.app_wrap prefix (certgen.pure o)) k st = k a st.
Proof. intros ->. reflexivity. Qed.

Lemma app_bind_WriteFile_Ok {B} (fw : fileio.FileWriter) (path : string) (data : bytes)
    (k : unit -> @certgen.App L (Scripted.fs s) B) (w : World)
    (log : list Scripted.event) (b : B) st' :
  @certgen.app_bind L (Scripted.fs s) unit B
    (certgen.io (io_check (@fileio.WriteFile (Scripted.fs s) fw path data))) k (w, log)
  = (Ok b, st') ->
  k tt (w, log ++ [Scripted.MkdirAll (Scripted.dirOf s path) fileio.mode_0755;
                   Scripted.WriteFile path data
                     (if strings.Contains path ".key" then fileio.mode_0600
                      else fileio.mode_0644)])
  = (Ok b, st').
Proof.
  unfold certgen.app_bind, certgen.io, io_check, fileio.WriteFile.
  cbn [fst snd os_MkdirAll os_WriteFile filepath_Dir Scripted.fs Scripted.answer].
  destruct (Scripted.fails s (Scripted.MkdirAll _ _)); [discriminate|].
  destruct (Scripted.fails s (Scripted.WriteFile _ _ _)); [discriminate|].
  rewrite <- app_assoc. exact (fun H => H).
Qed.

Lemma app_bind_WriteFile_eq {B} (fw : fileio.FileWriter) (path : string) (data : bytes)
    (k : unit -> @certgen.App L (Scripted.fs s) B) (w : World)
    (log : list Scripted.event) :
  (forall dir perm, Scripted.fails s (Scripted.MkdirAll dir perm) = None) ->
  (forall name written perm,
     Scripted.fails s (Scripted.WriteFile name written perm) = None) ->
  @certgen.app_bind L (Scripted.fs s) unit B
    (certgen.io (io_check (@fileio.WriteFile (Scripted.fs s) fw path data))) k (w, log)
  = k tt (w, log ++ [Scripted.MkdirAll (Scripted.dirOf s path) fileio.mode_0755;
                     Scripted.WriteFile path data
                       (if strings.Contains path ".key" then fileio.mode_0600
                        else fileio.mode_0644)]).
Proof.
  intros Hd Hw.
  unfold certgen.app_bind, certgen.io, io_check, fileio.WriteFile.
  cbn [fst snd os_MkdirAll os_WriteFile filepath_Dir Scripted.fs Scripted.answer].
  rewrite Hd, Hw, <- app_assoc. reflexivity.
Qed.

Lemma app_bind_WriteBase64File_Ok {B} (fw : fileio.FileWriter) (path text : string)
    (k : unit -> @certgen.App L (Scripted.fs s) B) (w : World)
    (log : list Scripted.event) (b : B) st' :
  @certgen.app_bind L (Scripted.fs s) unit B
    (certgen.io (io_check (@fileio_os.WriteBase64File (Scripted.fs s) (Scripted.process s)
                             fw path text))) k (w, log)
  = (Ok b, st') ->
  k tt (w, log ++ [Scripted.MkdirAll (Scripted.dirOf s path) fileio.mode_0755;
                   Scripted.WriteFile path (list_byte_of_string text)
                     (if strings.Contains path ".key" then fileio.mode_0600
                      else fileio.mode_0644);
                   Scripted.Stdout ("Base64-encoded DER content written to " ++ path
                                    ++ ":" ++ newline ++ text ++ newline ++ newline)])
  = (Ok b, st').
Proof.
  unfold certgen.app_bind, certgen.io, io_check, fileio_os.WriteBase64File,
    fileio.WriteFile.
  cbn [fst snd os_MkdirAll os_WriteFile filepath_Dir stdout_Write Scripted.fs
       Scripted.process Scripted.answer].
  destruct (Scripted.fails s (Scripted.MkdirAll _ _)); [discriminate|].
  destruct (Scripted.fails s (Scripted.WriteFile _ _ _)); [discriminate|].
  rewrite <- !app_assoc. exact (fun H => H).
Qed.

Ltac unfold_bundler_in H :=
  unfold pkcs12.GeneratePKCS12, io_bind, io_wrap, io_defer, io_check, io_lift, io_ret in H;
  cbn [exec_LookPath os_MkdirTemp os_ReadFile os_RemoveAll exec_Run filepath_Join
       os_WriteFile Scripted.process Scripted.fs Scripted.answer Scripted.answer_with]
    in H.

Lemma GeneratePKCS12_Ok_inv
    (leafCert caCert : option (x509.Certificate PublicKey))
    (leafKey : option PrivateKey) (password : string)
    (log log' : list Scripted.event) (pfxData : bytes) :
  @pkcs12.GeneratePKCS12 L (Scripted.fs s) (Scripted.process s)
    pkcs12.NewGenerator leafCert leafKey caCert password log = (Ok pfxData, log') ->
  exists certPEM keyPEM,
    encoding.EncodeCertificateToPEM leafCert = Ok certPEM
    /\ encoding.EncodePrivateKeyToPEM leafKey = Ok keyPEM
    /\ pfxData = Scripted.content s (Scripted.tempDir s ++ "/bundle.p12")%string
    /\ log' = log ++ Scripted.bundling s certPEM keyPEM password.
Proof.
  intros H. unfold_bundler_in H.
  destruct (Scripted.fails s (Scripted.LookPath "openssl")) eqn:E1;
    cbv beta iota zeta in H; [discriminate H|].
  destruct (Scripted.fails s (Scripted.MkdirTemp "" "certgen")) eqn:E2;
    cbv beta iota zeta in H; [discriminate H|].
  destruct (encoding.EncodeCertificateToPEM leafCert) as [certPEM|e|p] eqn:Ec;
    cbv beta iota zeta in H; try discriminate H.
  match type of H with context [Scripted.fails s (Scripted.WriteFile ?a ?b ?c)] =>
    destruct (Scripted.fails s (Scripted.WriteFile a b c)) eqn:E3 end;
    cbv beta iota zeta in H; [discriminate H|].
  destruct (encoding.EncodePrivateKeyToPEM leafKey) as [keyPEM|e|p] eqn:Ek;
    cbv beta iota zeta in H; try discriminate H.
  match type of H with context [Scripted.fails s (Scripted.WriteFile ?a ?b ?c)] =>
    destruct (Scripted.fails s (Scripted.WriteFile a b c)) eqn:E4 end;
    cbv beta iota zeta in H; [discriminate H|].
  match type of H with context [Scripted.fails s (Scripted.Run ?a ?b)] =>
    destruct (Scripted.fails s (Scripted.Run a b)) eqn:E5 end;
    cbv beta iota zeta in H; [discriminate H|].
  match type of H with context [Scripted.fails s (Scripted.ReadFile ?a)] =>
    destruct (Scripted.fails s (Scripted.ReadFile a)) eqn:E6 end;
    cbv beta iota zeta in H; [discriminate H|].
  inversion H; subst pfxData log'; clear H.
  exists certPEM, keyPEM. repeat split.
  rewrite <- !app_assoc. reflexivity.
Qed.

Lemma app_bind_GeneratePKCS12_Ok {B} (prefix : string)
    (leafCert caCert : option (x509.Certificate PublicKey))
    (leafKey : option PrivateKey) (password : string)
    (k : bytes -> @certgen.App L (Scripted.fs s) B) (w : World)
    (log : list Scripted.event) (b : B) st' :
  @certgen.app_bind L (Scripted.fs s) bytes B
    (certgen.app_wrap prefix
       (certgen.io (@pkcs12.GeneratePKCS12 L (Scripted.fs s) (Scripted.process s)
                      pkcs12.NewGenerator leafCert leafKey caCert password)))
    k (w, log) = (Ok b, st') ->
  exists certPEM keyPEM,
    encoding.EncodeCertificateToPEM leafCert = Ok certPEM
    /\ encoding.EncodePrivateKeyToPEM leafKey = Ok keyPEM
    /\ k (Scripted.content s (Scripted.tempDir s ++ "/bundle.p12")%string)
         (w, log ++ Scripted.bundling s certPEM keyPEM password) = (Ok b, st').
Proof.
  unfold certgen.app_bind, certgen.app_wrap, certgen.io. cbn [fst snd].
  destruct (@pkcs12.GeneratePKCS12 L (Scripted.fs s) (Scripted.process s)
              pkcs12.NewGenerator leafCert leafKey caCert password log)
    as [[pfx|e|p] log'] eqn:E; intros H; try discriminate H.
  apply GeneratePKCS12_Ok_inv in E. destruct E as (certPEM & keyPEM & Hc & Hk & -> & ->).
  exists certPEM, keyPEM. repeat split; assumption.
Qed.

(** Of the seven artifacts, the two key files are the ones whose path
    contains [.key]. *)
Lemma artifact_modes (domain : string) :
  let fw := fileio.NewFileWriter domain in
  strings.Contains (fileio.GetRootKeyPath fw) ".key" = true
  /\ strings.Contains (fileio.GetLeafKeyPath fw) ".key" = true
  /\ strings.Contains (fileio.GetRootCertPath fw) ".key" = false
  /\ strings.Contains (fileio.GetLeafCertPath fw) ".key" = false
  /\ strings.Contains (fileio.GetPKCS12Path fw) ".key" = false
  /\ strings.Contains (fileio.GetRootBase64Path fw) ".key" = false
  /\ strings.Contains (fileio.GetLeafBase64Path fw) ".key" = false.
Proof.
  cbv zeta.
  unfold fileio.GetRootKeyPath, fileio.GetLeafKeyPath, fileio.GetRootCertPath,
    fileio.GetLeafCertPath, fileio.GetPKCS12Path, fileio.GetRootBase64Path,
    fileio.GetLeafBase64Path, fileio.NewFileWriter. cbn [fileio.subdomain].
  rewrite !Contains_Split_first. repeat split; reflexivity.
Qed.

(** X17.  A run of the command that returns without error generated the
    root CA and then, from the world the root CA left, the leaf signed by
    it, and wrote nine files, in this order: the root key (0600) and
    certificate, the leaf key (0600) and certificate, all four as PEM; the
    bundler's copies of the leaf certificate and key in its temporary
    directory; the bundle openssl produced, with mode 0644; and the base64
    text of the leaf's and of the root's raw certificate.  It removed the
    temporary directory and nothing else, and ran one command, openssl
    with the configured password on its command line. *)
Theorem run_success (c : config.CertificateConfig) (w w' : World)
    (trace : list Scripted.event) :
  @certgen.run L (Scripted.fs s) (Scripted.process s) (Some c) (w, [])
  = (Ok tt, (w', trace)) ->
  let g := certificate.NewGenerator (Some c) in
  let fw := fileio.NewFileWriter (config.Domain c) in
  exists rootCert rootKey leafCert leafKey w1 rootKeyPEM rootCertPEM leafKeyPEM leafCertPEM,
    certificate.GenerateRootCA g w = (Ok (rootCert, rootKey), w1)
    /\ certificate.GenerateLeafCertificate g (Some rootCert) (Some rootKey) w1
       = (Ok (leafCert, leafKey), w')
    /\ encoding.EncodePrivateKeyToPEM (Some rootKey) = Ok rootKeyPEM
    /\ encoding.EncodeCertificateToPEM (Some rootCert) = Ok rootCertPEM
    /\ encoding.EncodePrivateKeyToPEM (Some leafKey) = Ok leafKeyPEM
    /\ encoding.EncodeCertificateToPEM (Some leafCert) = Ok leafCertPEM
    /\ Scripted.writes trace =
       [(fileio.GetRootKeyPath fw, rootKeyPEM, fileio.mode_0600);
        (fileio.GetRootCertPath fw, rootCertPEM, fileio.mode_0644);
        (fileio.GetLeafKeyPath fw, leafKeyPEM, fileio.mode_0600);
        (fileio.GetLeafCertPath fw, leafCertPEM, fileio.mode_0644);
        ((Scripted.tempDir s ++ "/leaf.pem")%string, leafCertPEM, fileio.mode_0644);
        ((Scripted.tempDir s ++ "/leaf.key")%string, leafKeyPEM, fileio.mode_0600);
        (fileio.GetPKCS12Path fw,
         Scripted.content s (Scripted.tempDir s ++ "/bundle.p12")%string,
         fileio.mode_0644);
        (fileio.GetLeafBase64Path fw,
         list_byte_of_string (base64.EncodeToString (x509.Raw leafCert)),
         fileio.mode_0644);
        (fileio.GetRootBase64Path fw,
         list_byte_of_string (base64.EncodeToString (x509.Raw rootCert)),
         fileio.mode_0644)]
    /\ Scripted.removed trace = [Scripted.tempDir s]
    /\ Scripted.commands trace =
       [("openssl",
         ["pkcs12"; "-export";
          "-out"; (Scripted.tempDir s ++ "/bundle.p12")%string;
          "-inkey"; (Scripted.tempDir s ++ "/leaf.key")%string;
          "-in"; (Scripted.tempDir s ++ "/leaf.pem")%string;
          "-password"; ("pass:" ++ config.PKCS12Password c)%string])].
Proof.
  intros H. cbv zeta.
  destruct (artifact_modes (config.Domain c)) as (M1 & M2 & M3 & M4 & M5 & M6 & M7).
  cbv zeta in M1, M2, M3, M4, M5, M6, M7.
  unfold certgen.run in H. cbv zeta in H.
  rewrite !app_bind_print in H.
  apply app_bind_crypto_Ok in H. destruct H as ([rootCert rootKey] & w1 & Hroot & H).
  cbn [fst snd] in H.
  rewrite !app_bind_print in H.
  apply app_bind_pure_Ok in H. destruct H as (rootKeyPEM & Hrk & H).
  apply app_bind_WriteFile_Ok in H. rewrite M1 in H.
  rewrite !app_bind_print in H.
  apply app_bind_pure_Ok in H. destruct H as (rootCertPEM & Hrc & H).
  apply app_bind_WriteFile_Ok in H. rewrite M3 in H.
  rewrite !app_bind_print in H.
  apply app_bind_crypto_Ok in H. destruct H as ([leafCert leafKey] & w2 & Hleaf & H).
  cbn [fst snd] in H.
  rewrite !app_bind_print in H.
  apply app_bind_pure_Ok in H. destruct H as (leafKeyPEM & Hlk & H).
  apply app_bind_WriteFile_Ok in H. rewrite M2 in H.
  rewrite !app_bind_print in H.
  apply app_bind_pure_Ok in H. destruct H as (leafCertPEM & Hlc & H).
  apply app_bind_WriteFile_Ok in H. rewrite M4 in H.
  rewrite !app_bind_print in H.
  apply app_bind_GeneratePKCS12_Ok in H.
  destruct H as (certPEM & keyPEM & Hc & Hk & H).
  rewrite Hlc in Hc. rewrite Hlk in Hk. inversion Hc; inversion Hk; subst certPEM keyPEM.
  apply app_bind_WriteFile_Ok in H. rewrite M5 in H.
  rewrite !app_bind_print in H.
  apply app_bind_pure_Ok in H. destruct H as (leafBase64 & Hlb & H).
  apply app_bind_WriteBase64File_Ok in H. rewrite M7 in H.
  apply app_bind_pure_Ok in H. destruct H as (rootBase64 & Hrb & H).
  apply app_bind_WriteBase64File_Ok in H. rewrite M6 in H.
  rewrite !app_bind_print in H.
  unfold certgen.app_ret in H. inversion H; subst w2 trace; clear H.
  cbn [encoding.ConvertCertificateToBase64DER] in Hlb, Hrb.
  unfold encoding.EncodeDERToBase64 in Hlb, Hrb.
  inversion Hlb; inversion Hrb; subst leafBase64 rootBase64.
  exists rootCert, rootKey, leafCert, leafKey, w1,
    rootKeyPEM, rootCertPEM, leafKeyPEM, leafCertPEM.
  repeat (split; [assumption|]).
  repeat split; reflexivity.
Qed.

(** X18.  The command does not look for openssl before it starts: on a
    machine without it, it generates both certificates, writes the four
    PEM files, and only then fails, with the error of the bundler.  The
    four files stay; no bundle and no base64 file is written. *)
Theorem run_without_openssl (c : config.CertificateConfig) (w w1 w2 : World)
    (rootCert leafCert : x509.Certificate PublicKey) (rootKey leafKey : PrivateKey)
    (rootKeyPEM leafKeyPEM : bytes) (err : error) :
  let g := certificate.NewGenerator (Some c) in
  let fw := fileio.NewFileWriter (config.Domain c) in
  Scripted.fails s (Scripted.LookPath "openssl") = Some err ->
  (forall dir perm, Scripted.fails s (Scripted.MkdirAll dir perm) = None) ->
  (forall name written perm,
     Scripted.fails s (Scripted.WriteFile name written perm) = None) ->
  certificate.GenerateRootCA g w = (Ok (rootCert, rootKey), w1) ->
  certificate.GenerateLeafCertificate g (Some rootCert) (Some rootKey) w1
  = (Ok (leafCert, leafKey), w2) ->
  encoding.EncodePrivateKeyToPEM (Some rootKey) = Ok rootKeyPEM ->
  encoding.EncodePrivateKeyToPEM (Some leafKey) = Ok leafKeyPEM ->
  exists rootCertPEM leafCertPEM trace,
    @certgen.run L (Scripted.fs s) (Scripted.process s) (Some c) (w, [])
    = (Err ("failed to generate PKCS#12: openssl command not found in PATH: "
            ++ err)%string,
       (w2, trace))
    /\ encoding.EncodeCertificateToPEM (Some rootCert) = Ok rootCertPEM
    /\ encoding.EncodeCertificateToPEM (Some leafCert) = Ok leafCertPEM
    /\ Scripted.writes trace =
       [(fileio.GetRootKeyPath fw, rootKeyPEM, fileio.mode_0600);
        (fileio.GetRootCertPath fw, rootCertPEM, fileio.mode_0644);
        (fileio.GetLeafKeyPath fw, leafKeyPEM, fileio.mode_0600);
        (fileio.GetLeafCertPath fw, leafCertPEM, fileio.mode_0644)]
    /\ Scripted.removed trace = []
    /\ Scripted.commands trace = []
    /\ last trace (Scripted.Stat "") = Scripted.LookPath "openssl".
Proof.
  cbv zeta. intros Hlook Hdir Hwrite Hroot Hleaf Hrk Hlk.
  destruct (artifact_modes (config.Domain c)) as (M1 & M2 & M3 & M4 & M5 & M6 & M7).
  cbv zeta in M1, M2, M3, M4, M5, M6, M7.
  do 3 eexists.
  unfold certgen.run. cbv zeta.
  rewrite !app_bind_print.
  rewrite (app_bind_crypto_eq _ _ _ _ _ _ _ Hroot). cbn [fst snd].
  rewrite !app_bind_print.
  rewrite (app_bind_pure_eq _ _ _ _ _ Hrk).
  rewrite (app_bind_WriteFile_eq _ _ _ _ _ _ Hdir Hwrite), M1.
  rewrite !app_bind_print.
  rewrite (app_bind_pure_eq _ (encoding.EncodeCertificateToPEM (Some rootCert))
             _ _ _ eq_refl).
  rewrite (app_bind_WriteFile_eq _ _ _ _ _ _ Hdir Hwrite), M3.
  rewrite !app_bind_print.
  rewrite (app_bind_crypto_eq _ _ _ _ _ _ _ Hleaf). cbn [fst snd].
  rewrite !app_bind_print.
  rewrite (app_bind_pure_eq _ _ _ _ _ Hlk).
  rewrite (app_bind_WriteFile_eq _ _ _ _ _ _ Hdir Hwrite), M2.
  rewrite !app_bind_print.
  rewrite (app_bind_pure_eq _ (encoding.EncodeCertificateToPEM (Some leafCert))
             _ _ _ eq_refl).
  rewrite (app_bind_WriteFile_eq _ _ _ _ _ _ Hdir Hwrite), M4.
  rewrite !app_bind_print.
  unfold certgen.app_bind at 1, certgen.app_wrap, certgen.io, pkcs12.GeneratePKCS12,
    io_bind at 1, io_wrap at 1.
  cbn [fst snd exec_LookPath Scripted.process Scripted.answer_with].
  rewrite Hlook.
  split; [reflexivity|].
  split; [reflexivity|].
  split; [reflexivity|].
  cbn. repeat split; reflexivity.
Qed.


(** *** What [run] asks of the system, whatever happens *)

Lemma adds_bind {A B} (ok : Scripted.event -> Prop)
    (m : @certgen.App L (Scripted.fs s) A) (k : A -> @certgen.App L (Scripted.fs s) B) :
  Scripted.adds s ok m -> (forall a, Scripted.adds s ok (k a)) ->
  Scripted.adds s ok (certgen.app_bind m k).
Proof.
  intros Hm Hk w log. unfold certgen.app_bind.
  destruct (Hm w log) as (ext1 & E1 & F1).
  destruct (m (w, log)) as [[a|e|p] [w1 log1]]; cbn [snd] in E1; subst log1;
    cbv beta iota; cbn [snd].
  - destruct (Hk a w1 (log ++ ext1)) as (ext2 & E2 & F2).
    exists (ext1 ++ ext2). split; [rewrite app_assoc; exact E2|].
    apply Forall_app. split; assumption.
  - exists ext1. split; [reflexivity|assumption].
  - exists ext1. split; [reflexivity|assumption].
Qed.

Lemma adds_wrap {A} (ok : Scripted.event -> Prop) (prefix : string)
    (m : @certgen.App L (Scripted.fs s) A) :
  Scripted.adds s ok m -> Scripted.adds s ok (certgen.app_wrap prefix m).
Proof.
  intros Hm w log. unfold certgen.app_wrap.
  destruct (Hm w log) as (ext & E & F).
  destruct (m (w, log)) as [[a|e|p] st]; exists ext; split; assumption.
Qed.

Lemma adds_crypto {A} (ok : Scripted.event -> Prop) (m : M A) :
  Scripted.adds s ok (@certgen.crypto L (Scripted.fs s) A m).
Proof.
  intros w log. unfold certgen.crypto. cbn [fst snd].
  destruct (m w) as [o w1]. exists []. rewrite app_nil_r. split; [reflexivity|constructor].
Qed.

Lemma adds_pure {A} (ok : Scripted.event -> Prop) (o : outcome A) :
  Scripted.adds s ok (@certgen.pure L (Scripted.fs s) A o).
Proof.
  intros w log. exists []. rewrite app_nil_r. split; [reflexivity|constructor].
Qed.

Lemma adds_ret {A} (ok : Scripted.event -> Prop) (a : A) :
  Scripted.adds s ok (@certgen.app_ret L (Scripted.fs s) A a).
Proof.
  intros w log. exists []. rewrite app_nil_r. split; [reflexivity|constructor].
Qed.

Lemma adds_print (ok : Scripted.event -> Prop) (text : string) :
  ok (Scripted.Stdout text) ->
  Scripted.adds s ok (@certgen.print L (Scripted.fs s) (Scripted.process s) text).
Proof.
  intros H w log. exists [Scripted.Stdout text]. split; [reflexivity|].
  constructor; [assumption|constructor].
Qed.

Lemma adds_WriteFile (ok : Scripted.event -> Prop) (fw : fileio.FileWriter)
    (path : string) (data : bytes) :
  ok (Scripted.MkdirAll (Scripted.dirOf s path) fileio.mode_0755) ->
  ok (Scripted.WriteFile path data
        (if strings.Contains path ".key" then fileio.mode_0600 else fileio.mode_0644)) ->
  Scripted.adds s ok
    (@certgen.io L (Scripted.fs s) unit
       (io_check (@fileio.WriteFile (Scripted.fs s) fw path data))).
Proof.
  intros Hd Hw w log. unfold certgen.io, io_check, fileio.WriteFile.
  cbn [fst snd os_MkdirAll os_WriteFile filepath_Dir Scripted.fs Scripted.answer].
  destruct (Scripted.fails s (Scripted.MkdirAll _ _)).
  - eexists. split; [reflexivity|]. repeat constructor; assumption.
  - destruct (Scripted.fails s (Scripted.WriteFile _ _ _));
      (eexists; split; [cbn [snd]; rewrite <- app_assoc; reflexivity|];
       repeat constructor; assumption).
Qed.

Lemma adds_WriteBase64File (ok : Scripted.event -> Prop) (fw : fileio.FileWriter)
    (path text : string) :
  ok (Scripted.MkdirAll (Scripted.dirOf s path) fileio.mode_0755) ->
  ok (Scripted.WriteFile path (list_byte_of_string text)
        (if strings.Contains path ".key" then fileio.mode_0600 else fileio.mode_0644)) ->
  (forall t, ok (Scripted.Stdout t)) ->
  Scripted.adds s ok
    (@certgen.io L (Scripted.fs s) unit
       (io_check (@fileio_os.WriteBase64File (Scripted.fs s) (Scripted.process s)
                    fw path text))).
Proof.
  intros Hd Hw Ho w log.
  unfold certgen.io, io_check, fileio_os.WriteBase64File, fileio.WriteFile.
  cbn [fst snd os_MkdirAll os_WriteFile filepath_Dir stdout_Write Scripted.fs
       Scripted.process Scripted.answer].
  destruct (Scripted.fails s (Scripted.MkdirAll _ _)).
  - eexists. split; [reflexivity|]. repeat constructor; assumption.
  - destruct (Scripted.fails s (Scripted.WriteFile _ _ _));
      (eexists; split; [cbn [snd]; rewrite <- !app_assoc; reflexivity|];
       repeat constructor; auto).
Qed.

Ltac close_trace H :=
  inversion H; subst; clear H;
  rewrite <- ?app_assoc; eexists; split; [reflexivity|]; cbn [app];
  repeat (constructor; [solve [auto]|]); constructor.

Lemma adds_GeneratePKCS12 (fw : fileio.FileWriter)
    (leafCert caCert : option (x509.Certificate PublicKey))
    (leafKey : option PrivateKey) (password : string) :
  Scripted.adds s (Scripted.allowed s fw password)
    (@certgen.io L (Scripted.fs s) bytes
       (@pkcs12.GeneratePKCS12 L (Scripted.fs s) (Scripted.process s)
          pkcs12.NewGenerator leafCert leafKey caCert password)).
Proof.
  intros w log. unfold certgen.io. cbn [fst snd].
  destruct (@pkcs12.GeneratePKCS12 L (Scripted.fs s) (Scripted.process s)
              pkcs12.NewGenerator leafCert leafKey caCert password log)
    as [result log'] eqn:H. cbn [snd].
  assert (Hin1 : forall data,
    Scripted.allowed s fw password
      (Scripted.WriteFile (Scripted.tempDir s ++ "/leaf.pem")%string data
         fileio.mode_0644)).
  { intros data. cbn [Scripted.allowed]. apply in_or_app. right. left. reflexivity. }
  assert (Hin2 : forall data,
    Scripted.allowed s fw password
      (Scripted.WriteFile (Scripted.tempDir s ++ "/leaf.key")%string data
         fileio.mode_0600)).
  { intros data. cbn [Scripted.allowed]. apply in_or_app. right. right. left.
    reflexivity. }
  assert (Hrun : Scripted.allowed s fw password
    (Scripted.Run "openssl"
       ["pkcs12"; "-export";
        "-out"; (Scripted.tempDir s ++ "/bundle.p12")%string;
        "-inkey"; (Scripted.tempDir s ++ "/leaf.key")%string;
        "-in"; (Scripted.tempDir s ++ "/leaf.pem")%string;
        "-password"; ("pass:" ++ password)%string])).
  { split; reflexivity. }
  assert (Hlook : Scripted.allowed s fw password (Scripted.LookPath "openssl"))
    by reflexivity.
  assert (Htemp : Scripted.allowed s fw password (Scripted.MkdirTemp "" "certgen"))
    by (split; reflexivity).
  assert (Hread : Scripted.allowed s fw password
    (Scripted.ReadFile (Scripted.tempDir s ++ "/bundle.p12")%string)) by reflexivity.
  assert (Hrm : Scripted.allowed s fw password (Scripted.RemoveAll (Scripted.tempDir s)))
    by reflexivity.
  unfold_bundler_in H.
  destruct (Scripted.fails s (Scripted.LookPath "openssl")) eqn:E1;
    cbv beta iota zeta in H; [close_trace H|].
  destruct (Scripted.fails s (Scripted.MkdirTemp "" "certgen")) eqn:E2;
    cbv beta iota zeta in H; [close_trace H|].
  destruct (encoding.EncodeCertificateToPEM leafCert) as [certPEM|e|p] eqn:Ec;
    cbv beta iota zeta in H; [|close_trace H|close_trace H].
  match type of H with context [Scripted.fails s (Scripted.WriteFile ?a ?b ?c)] =>
    destruct (Scripted.fails s (Scripted.WriteFile a b c)) eqn:E3 end;
    cbv beta iota zeta in H; [close_trace H|].
  destruct (encoding.EncodePrivateKeyToPEM leafKey) as [keyPEM|e|p] eqn:Ek;
    cbv beta iota zeta in H; [|close_trace H|close_trace H].
  match type of H with context [Scripted.fails s (Scripted.WriteFile ?a ?b ?c)] =>
    destruct (Scripted.fails s (Scripted.WriteFile a b c)) eqn:E4 end;
    cbv beta iota zeta in H; [close_trace H|].
  match type of H with context [Scripted.fails s (Scripted.Run ?a ?b)] =>
    destruct (Scripted.fails s (Scripted.Run a b)) eqn:E5 end;
    cbv beta iota zeta in H; [close_trace H|].
  match type of H with context [Scripted.fails s (Scripted.ReadFile ?a)] =>
    destruct (Scripted.fails s (Scripted.ReadFile a)) eqn:E6 end;
    cbv beta iota zeta in H; close_trace H.
Qed.


Ltac in_list := repeat first [left; reflexivity | right].

Ltac allowed_artifact M :=
  apply adds_WriteFile;
  [ split; [reflexivity|]; eexists; split; [|reflexivity];
    cbn [Scripted.artifacts map fst]; in_list
  | rewrite M; cbn [Scripted.allowed]; apply in_or_app; left;
    cbn [Scripted.artifacts]; in_list ].

Ltac allowed_base64 M :=
  apply adds_WriteBase64File;
  [ split; [reflexivity|]; eexists; split; [|reflexivity];
    cbn [Scripted.artifacts map fst]; in_list
  | rewrite M; cbn [Scripted.allowed]; apply in_or_app; left;
    cbn [Scripted.artifacts]; in_list
  | intros t; exact I ].

Lemma adds_run (c : config.CertificateConfig) :
  Scripted.adds s
    (Scripted.allowed s (fileio.NewFileWriter (config.Domain c))
       (config.PKCS12Password c))
    (@certgen.run L (Scripted.fs s) (Scripted.process s) (Some c)).
Proof.
  destruct (artifact_modes (config.Domain c)) as (M1 & M2 & M3 & M4 & M5 & M6 & M7).
  cbv zeta in M1, M2, M3, M4, M5, M6, M7.
  unfold certgen.run. cbv zeta.
  do 3 (apply adds_bind; [apply adds_print; exact I|intros _]).
  apply adds_bind; [apply adds_wrap, adds_crypto|intros root].
  apply adds_bind; [apply adds_print; exact I|intros _].
  apply adds_bind; [apply adds_wrap, adds_pure|intros rootKeyPEM].
  apply adds_bind; [allowed_artifact M1|intros _].
  apply adds_bind; [apply adds_print; exact I|intros _].
  apply adds_bind; [apply adds_wrap, adds_pure|intros rootCertPEM].
  apply adds_bind; [allowed_artifact M3|intros _].
  apply adds_bind; [apply adds_print; exact I|intros _].
  apply adds_bind; [apply adds_wrap, adds_crypto|intros leaf].
  apply adds_bind; [apply adds_print; exact I|intros _].
  apply adds_bind; [apply adds_wrap, adds_pure|intros leafKeyPEM].
  apply adds_bind; [allowed_artifact M2|intros _].
  apply adds_bind; [apply adds_print; exact I|intros _].
  apply adds_bind; [apply adds_wrap, adds_pure|intros leafCertPEM].
  apply adds_bind; [allowed_artifact M4|intros _].
  apply adds_bind; [apply adds_print; exact I|intros _].
  apply adds_bind; [apply adds_wrap, adds_GeneratePKCS12|intros pfxData].
  apply adds_bind; [allowed_artifact M5|intros _].
  apply adds_bind; [apply adds_print; exact I|intros _].
  apply adds_bind; [apply adds_wrap, adds_pure|intros leafBase64].
  apply adds_bind; [allowed_base64 M7|intros _].
  apply adds_bind; [apply adds_wrap, adds_pure|intros rootBase64].
  apply adds_bind; [allowed_base64 M6|intros _].
  do 9 (apply adds_bind; [apply adds_print; exact I|intros _]).
  apply adds_ret.
Qed.

(** X19.  Whatever happens in a run of the command, be it success, an
    error of any step or a panic of the library, all it asks of the system
    is allowed: it creates directories only for its seven artifacts, with
    mode 0755; it writes only those seven files and the bundler's two,
    with mode 0600 for the three key files and 0644 for the others; it
    removes nothing but the bundler's temporary directory; it runs no
    command but the one openssl export; it reads only the bundle; it
    writes nothing to standard error or the log. *)
Theorem run_confined (c : config.CertificateConfig) (w w' : World)
    (result : outcome unit) (trace : list Scripted.event) :
  @certgen.run L (Scripted.fs s) (Scripted.process s) (Some c) (w, [])
  = (result, (w', trace)) ->
  Forall (Scripted.allowed s (fileio.NewFileWriter (config.Domain c))
            (config.PKCS12Password c)) trace.
Proof.
  intros H. destruct (adds_run c w []) as (ext & E & F).
  rewrite H in E. cbn [snd app] in E. subst trace. exact F.
Qed.


(** X20.  [WriteBase64File] writes the text as it is, byte for byte, with
    the mode [WriteFile] chooses, and prints it to standard output after
    the file is written.  When the directory or the file cannot be
    written it returns the error of [WriteFile] and prints nothing. *)
Theorem WriteBase64File_outcomes (fw : fileio.FileWriter) (path text : string)
    (result : option error) (trace : list Scripted.event) :
  @fileio_os.WriteBase64File (Scripted.fs s) (Scripted.process s) fw path text []
  = (result, trace) ->
  let mkdir := Scripted.MkdirAll (Scripted.dirOf s path) fileio.mode_0755 in
  let write := Scripted.WriteFile path (list_byte_of_string text)
                 (if strings.Contains path ".key" then fileio.mode_0600
                  else fileio.mode_0644) in
  string_of_list_byte (list_byte_of_string text) = text
  /\ ((result = None
       /\ trace = [mkdir; write;
                   Scripted.Stdout ("Base64-encoded DER content written to " ++ path
                                    ++ ":" ++ newline ++ text ++ newline ++ newline)])
      \/ (exists err, Scripted.fails s mkdir = Some err
            /\ result = Some (Errorf_w "failed to create directory: " err)
            /\ trace = [mkdir])
      \/ (exists err, Scripted.fails s mkdir = None
            /\ Scripted.fails s write = Some err
            /\ result = Some (Errorf_w ("failed to write file " ++ path ++ ": ") err)
            /\ trace = [mkdir; write])).
Proof.
  intros H. cbv zeta. split; [apply string_of_list_byte_of_string|].
  unfold fileio_os.WriteBase64File, fileio.WriteFile in H.
  cbn [fst snd os_MkdirAll os_WriteFile filepath_Dir stdout_Write Scripted.fs
       Scripted.process Scripted.answer] in H.
  destruct (Scripted.fails s (Scripted.MkdirAll _ _)) as [e1|] eqn:E1.
  - right. left. exists e1. inversion H. repeat split; reflexivity.
  - destruct (Scripted.fails s (Scripted.WriteFile _ _ _)) as [e2|] eqn:E2.
    + right. right. exists e2. inversion H. repeat split; reflexivity.
    + left. inversion H. split; reflexivity.
Qed.

(** X21.  Once [flag.Parse] has returned, [main] lets nothing happen
    before its arguments are checked.  With [--version] it prints the
    version and exits, whatever the other arguments.  If a file is
    written, a command is run, or the clock or the entropy source is
    used, then the version was not asked for, the domain is not empty and
    the days lie between 1 and 36500.  [main] returns normally exactly
    when [run] returned without error on such arguments.  The process
    ends with status 0 exactly when the version was asked for or [run]
    returned without error; every other end is status 1, with a message
    on standard error or in the log as the last thing done, or a panic,
    status 2. *)
Theorem main_gate (showVersion : bool) (cfg : config.CertificateConfig)
    (w w' : World) (e : certgen.exit) (trace : list Scripted.event) :
  @certgen.main L (Scripted.fs s) (Scripted.process s) showVersion cfg (w, [])
  = (e, (w', trace)) ->
  let valid := showVersion = false /\ config.Domain cfg <> ""
               /\ 1 <= config.ValidityDays cfg <= 36500 in
  (showVersion = true ->
   e = certgen.Exit 0 /\ w' = w
   /\ trace = [Scripted.Stdout ("Certificate Generator v" ++ certgen.version
                                ++ newline)])
  /\ (certgen.status e = 0 <->
      showVersion = true
      \/ (valid
          /\ @certgen.run L (Scripted.fs s) (Scripted.process s) (Some cfg) (w, [])
             = (Ok tt, (w', trace))))
  /\ (Scripted.writes trace <> [] \/ Scripted.commands trace <> [] \/ w' <> w -> valid)
  /\ (e = certgen.Returned <->
      valid
      /\ @certgen.run L (Scripted.fs s) (Scripted.process s) (Some cfg) (w, [])
         = (Ok tt, (w', trace)))
  /\ (e = certgen.Exit 0 /\ showVersion = true
      \/ e = certgen.Exit 1 \/ e = certgen.Returned
      \/ exists p, e = certgen.Panicked p)
  /\ (e = certgen.Exit 1 ->
      exists text, last trace (Scripted.Stat "") = Scripted.Stderr text
                   \/ last trace (Scripted.Stat "") = Scripted.Log text).
Proof.
  intros H. cbv zeta. unfold certgen.main in H. cbn [fst snd] in H.
  destruct showVersion.
  { inversion H; subst e w' trace; clear H.
    split; [intros _; repeat split; reflexivity|].
    split; [split; [intros _; left; reflexivity|reflexivity]|].
    split.
    { intros [C|[C|C]]; exfalso; apply C; reflexivity. }
    split.
    { split; [discriminate|]. intros [[C _] _]. discriminate C. }
    split; [left; split; reflexivity|]. discriminate. }
  destruct (config.Domain cfg =? "")%string eqn:Ed.
  { inversion H; subst e w' trace; clear H.
    apply String.eqb_eq in Ed.
    split; [discriminate|].
    split.
    { split; [discriminate|].
      intros [C|[(_ & C & _) _]]; [discriminate C|contradiction]. }
    split.
    { intros [C|[C|C]]; exfalso; apply C; reflexivity. }
    split.
    { split; [discriminate|]. intros [(_ & C & _) _]. contradiction. }
    split; [right; left; reflexivity|].
    intros _. eexists. left. reflexivity. }
  apply String.eqb_neq in Ed.
  destruct ((config.ValidityDays cfg <=? 0) || (36500 <? config.ValidityDays cfg))
    eqn:Ev.
  { inversion H; subst e w' trace; clear H.
    apply orb_true_iff in Ev.
    assert (Hbad : ~ 1 <= config.ValidityDays cfg <= 36500).
    { destruct Ev as [Ev|Ev]; [apply Z.leb_le in Ev|apply Z.ltb_lt in Ev]; lia. }
    split; [discriminate|].
    split.
    { split; [discriminate|].
      intros [C|[(_ & _ & C) _]]; [discriminate C|contradiction]. }
    split.
    { intros [C|[C|C]]; exfalso; apply C; reflexivity. }
    split.
    { split; [discriminate|]. intros [(_ & _ & C) _]. contradiction. }
    split; [right; left; reflexivity|].
    intros _. eexists. left. reflexivity. }
  apply orb_false_iff in Ev. destruct Ev as [Ev1 Ev2].
  apply Z.leb_gt in Ev1. apply Z.ltb_ge in Ev2.
  assert (Hvalid : false = false /\ config.Domain cfg <> ""
                   /\ 1 <= config.ValidityDays cfg <= 36500).
  { split; [reflexivity|]. split; [exact Ed|lia]. }
  split; [discriminate|].
  destruct (@certgen.run L (Scripted.fs s) (Scripted.process s) (Some cfg) (w, []))
    as [[[]|err|p] [w2 tr]] eqn:R; inversion H; subst e w' trace; clear H.
  - split.
    { split; [intros _; right; split; [exact Hvalid|reflexivity]|reflexivity]. }
    split; [intros _; exact Hvalid|].
    split; [split; [intros _; split; [exact Hvalid|reflexivity]|reflexivity]|].
    split; [right; right; left; reflexivity|]. discriminate.
  - split.
    { split; [discriminate|]. intros [C|[_ C]]; discriminate C. }
    split; [intros _; exact Hvalid|].
    split; [split; [discriminate|intros [_ C]; discriminate C]|].
    split; [right; left; reflexivity|].
    intros _. exists ("Error: " ++ err)%string. right.
    cbn [fst snd log_Print Scripted.process]. apply last_last.
  - split.
    { split; [discriminate|]. intros [C|[_ C]]; discriminate C. }
    split; [intros _; exact Hvalid|].
    split; [split; [discriminate|intros [_ C]; discriminate C]|].
    split; [right; right; right; exists p; reflexivity|]. discriminate.
Qed.

End Program.

(** ** Certificate requests *)

Section Requests.

Context {L : CryptoLib} {Q : RequestLib L}.

(** X22.  [GenerateCertificateRequest] checks nothing itself.  Without a
    configuration it panics on a nil dereference, where the other
    generators return an error; the entropy source is not used and the
    library is not asked for a request.  (Whether the clock has been read
    by then is the compiler's choice, and is not stated.)  With a
    configuration, the key size, the validity and the password play no
    part: two configurations with the same six names give the same run,
    so a request is made under a configuration [GeneratePrivateKey]
    refuses.  The clock is then read once, for options that are dropped. *)
Theorem GenerateCertificateRequest_unchecked :
  (forall key w,
     let r := certificate_csr.GenerateCertificateRequest
                (certificate.NewGenerator None) key w in
     fst r = Panic nil_dereference
     /\ rng (snd r) = rng w
     /\ clock (snd r) = clock w)
  /\ (forall c1 c2 key w,
        config.Domain c1 = config.Domain c2 ->
        config.Country c1 = config.Country c2 ->
        config.State c1 = config.State c2 ->
        config.Locality c1 = config.Locality c2 ->
        config.Organization c1 = config.Organization c2 ->
        config.OrganizationalUnit c1 = config.OrganizationalUnit c2 ->
        certificate_csr.GenerateCertificateRequest
          (certificate.NewGenerator (Some c1)) key w
        = certificate_csr.GenerateCertificateRequest
            (certificate.NewGenerator (Some c2)) key w)
  /\ (forall c key w,
        let w' := snd (certificate_csr.GenerateCertificateRequest
                         (certificate.NewGenerator (Some c)) key w) in
        ticks w' = S (ticks w) /\ clock w' = clock w).
Proof.
  split; [intros key w; cbv zeta; repeat split; reflexivity|]. split.
  - intros c1 c2 key w E1 E2 E3 E4 E5 E6.
    unfold certificate_csr.GenerateCertificateRequest, certificate.NewGenerator.
    cbn [certificate.config config.GetLeafCertOptions].
    unfold bind at 1 3. unfold bind at 1 3. unfold time_Now, ret at 1 3.
    cbv beta iota. unfold certificate_csr.RequestTemplate.
    cbn [config.o_Subject config.DNSNames config.s_Country config.s_State
         config.s_Locality config.s_Organization config.s_OrganizationalUnit
         config.s_CommonName].
    rewrite E1, E2, E3, E4, E5, E6. reflexivity.
  - intros c key w. cbv zeta.
    unfold certificate_csr.GenerateCertificateRequest, certificate.NewGenerator.
    cbn [certificate.config config.GetLeafCertOptions].
    unfold bind, time_Now, ret, wrap, with_rand, lift. cbn [rng ticks clock].
    destruct (x509_CreateCertificateRequest _ _ _) as [[der|e|p] r'];
      cbn [snd ticks clock]; try (split; reflexivity).
    destruct (x509_ParseCertificateRequest der) as [csr|e|p];
      cbn [snd ticks clock]; split; reflexivity.
Qed.

Context {HL : CryptoLaws L} {HQ : RequestLaws}.

(** X23.  A request [GenerateCertificateRequest] returns names what the
    configuration says: each of the five subject fields as a list of one,
    the domain as common name and as the only DNS name.  It carries the
    public half of the key it was given and verifies under it.  Any leaf
    certificate issued from the same generator has the same subject and
    DNS names. *)
Theorem GenerateCertificateRequest_names (g : certificate.Generator)
    (key : PrivateKey) (w w' : World) (csr : x509_csr.CertificateRequest PublicKey) :
  certificate_csr.GenerateCertificateRequest g (Some key) w = (Ok csr, w') ->
  exists cfg,
    certificate.config g = Some cfg
    /\ x509_csr.Subject csr
       = {| pkix.Country := [config.Country cfg];
            pkix.Organization := [config.Organization cfg];
            pkix.OrganizationalUnit := [config.OrganizationalUnit cfg];
            pkix.Locality := [config.Locality cfg];
            pkix.Province := [config.State cfg];
            pkix.CommonName := config.Domain cfg |}
    /\ x509_csr.DNSNames csr = [config.Domain cfg]
    /\ x509_csr.PublicKey csr = Some (Public key)
    /\ certificate_csr.CheckSignature csr = None
    /\ forall caCert caKey u u' leafCert leafKey,
         certificate.GenerateLeafCertificate g (Some caCert) (Some caKey) u
         = (Ok (leafCert, leafKey), u') ->
         x509.Subject leafCert = x509_csr.Subject csr
         /\ x509.DNSNames leafCert = x509_csr.DNSNames csr.
Proof.
  intros H. unfold certificate_csr.GenerateCertificateRequest in H.
  apply bind_Ok_inv in H. destruct H as (opts & w1 & Ho & H).
  apply bind_Ok_inv in H. destruct H as (der & w2 & Hd & H).
  apply bind_Ok_inv in H. destruct H as (c & w3 & Hp & H).
  unfold ret in H. inversion H; subst c w3; clear H.
  apply wrap_Ok_inv, with_rand_Ok_inv in Hd. destruct Hd as (r' & Hd & _).
  apply wrap_Ok_inv, lift_Ok_inv in Hp. destruct Hp as (Hp & _).
  destruct (CreateCertificateRequest_sound _ _ _ _ _ _ Hd Hp)
    as (_ & Hsub & Hdns & Hpub & Hsig).
  destruct (certificate.config g) as [cfg|] eqn:Hc; [|discriminate Ho].
  destruct (options_Subject true cfg w w1 opts Ho) as (Es & Ed & _).
  exists cfg. split; [reflexivity|].
  assert (Hs : x509_csr.Subject csr
               = {| pkix.Country := [config.Country cfg];
                    pkix.Organization := [config.Organization cfg];
                    pkix.OrganizationalUnit := [config.OrganizationalUnit cfg];
                    pkix.Locality := [config.Locality cfg];
                    pkix.Province := [config.State cfg];
                    pkix.CommonName := config.Domain cfg |}).
  { rewrite Hsub. unfold certificate_csr.RequestTemplate. cbn [x509_csr.Subject].
    rewrite Es. reflexivity. }
  assert (Hn : x509_csr.DNSNames csr = [config.Domain cfg]).
  { rewrite Hdns. exact Ed. }
  split; [exact Hs|]. split; [exact Hn|]. split; [exact Hpub|].
  split; [exact Hsig|].
  intros caCert caKey u u' leafCert leafKey Hleaf.
  apply GenerateLeafCertificate_Ok_issued in Hleaf.
  destruct Hleaf as (cfg' & opts' & sn & u1 & u2 & Hc' & Ho' & _ & _ & _ & _ & _ & I).
  rewrite Hc in Hc'. inversion Hc'; subst cfg'; clear Hc'.
  destruct (options_Subject true cfg u1 u2 opts' Ho') as (Es' & Ed' & _).
  destruct (template_Subject cfg opts' sn Es') as (Ht & Hl).
  split.
  - rewrite (iss_Subject _ _ _ _ _ I), Hl, Ht, Hs. reflexivity.
  - rewrite (iss_DNSNames _ _ _ _ _ I), Hn. exact Ed'.
Qed.

(** X24.  [GenerateCertificateRequest] succeeds for every valid key of at
    least 1024 bits when the names are ASCII, whatever key size, validity
    and password the configuration holds; and when it fails, the error is
    the library's under one of its two prefixes. *)
Theorem GenerateCertificateRequest_outcomes (cfg : config.CertificateConfig)
    (key : PrivateKey) (w : World) :
  let g := certificate.NewGenerator (Some cfg) in
  (rsa_Validate key = true ->
   1024 <= BitLen (Public key) ->
   forallb x509.isIA5String
     [config.Domain cfg; config.Country cfg; config.State cfg; config.Locality cfg;
      config.Organization cfg; config.OrganizationalUnit cfg] = true ->
   exists csr w',
     certificate_csr.GenerateCertificateRequest g (Some key) w = (Ok csr, w'))
  /\ (forall e w',
        certificate_csr.GenerateCertificateRequest g (Some key) w = (Err e, w') ->
        exists cause,
          e = ("failed to create certificate request: " ++ cause)%string
          \/ e = ("failed to parse certificate request: " ++ cause)%string).
Proof.
  cbv zeta. split.
  - intros Hv Hbits Ha. cbn [forallb] in Ha.
    repeat (apply andb_prop in Ha; destruct Ha as [? Ha]).
    unfold certificate_csr.GenerateCertificateRequest, certificate.NewGenerator.
    cbn [certificate.config config.GetLeafCertOptions].
    unfold bind at 1. unfold bind at 1. unfold time_Now, ret at 1. cbv beta iota.
    match goal with |- context [certificate_csr.RequestTemplate ?o] =>
      set (tpl := certificate_csr.RequestTemplate o) end.
    destruct (CreateCertificateRequest_accepts (rng w) tpl key Hv Hbits)
      as (der & r' & csr & Hd & Hp).
    { unfold tpl, certificate_csr.RequestTemplate, name_encodable.
      cbn [x509_csr.Subject pkix.Country pkix.Organization pkix.OrganizationalUnit
           pkix.Locality pkix.Province pkix.CommonName config.o_Subject
           config.s_Country config.s_State config.s_Locality config.s_Organization
           config.s_OrganizationalUnit config.s_CommonName forallb].
      repeat match goal with E : _ = true |- _ => rewrite E; clear E end.
      reflexivity. }
    { unfold tpl, certificate_csr.RequestTemplate.
      cbn [x509_csr.DNSNames config.DNSNames forallb].
      repeat match goal with E : _ = true |- _ => rewrite E; clear E end.
      reflexivity. }
    exists csr. eexists.
    unfold bind, wrap, with_rand, lift, ret. cbn [rng ticks clock].
    rewrite Hd, Hp. reflexivity.
  - intros e w' H.
    unfold certificate_csr.GenerateCertificateRequest, certificate.NewGenerator in H.
    cbn [certificate.config config.GetLeafCertOptions] in H.
    unfold bind, time_Now, ret, wrap, with_rand, lift in H. cbn [rng ticks clock] in H.
    destruct (x509_CreateCertificateRequest _ _ _) as [[der|e1|p] r'].
    + destruct (x509_ParseCertificateRequest der) as [csr|e2|p]; try discriminate H.
      inversion H. exists e2. right. reflexivity.
    + inversion H. exists e1. left. reflexivity.
    + discriminate H.
Qed.

End Requests.

Section ReferenceRequestLemmas.

Import Codec Reference ReferenceRequest.
Local Open Scope list_scope.

Lemma dec_info_enc (subject : pkix.Name) (dns : list string) (pub : Key)
    (rest : bytes) :
  dec_info (enc_info subject dns pub ++ rest) = Some ((subject, dns, pub), rest).
Proof.
  unfold dec_info, enc_info. rewrite <- !app_assoc.
  rewrite (dbind_enc _ _ _ _ _ (dec_name_enc _ _)).
  rewrite (dbind_enc _ _ _ _ _ (dec_strings_enc _ _)).
  rewrite (dbind_enc _ _ _ _ _ (dec_key_enc _ _)).
  reflexivity.
Qed.

Lemma ParseCertificateRequest_Create (r : Z) (tpl : x509_csr.CertificateRequest Key)
    (priv : Key) :
  let info := enc_info (x509_csr.Subject tpl) (x509_csr.DNSNames tpl) (public priv) in
  let der := enc_bytes info ++ enc_bytes (sign priv info) in
  CreateCertificateRequest r tpl (Some priv) = (Ok der, r)
  /\ ParseCertificateRequest der
     = Ok {| x509_csr.Raw := der;
             x509_csr.RawTBSCertificateRequest := info;
             x509_csr.Signature := sign priv info;
             x509_csr.SignatureAlgorithm_ := SHA256WithRSA;
             x509_csr.PublicKey := Some (public priv);
             x509_csr.Subject := x509_csr.Subject tpl;
             x509_csr.DNSNames := x509_csr.DNSNames tpl |}.
Proof.
  cbv zeta. split; [reflexivity|].
  unfold ParseCertificateRequest.
  rewrite dec_bytes_enc.
  rewrite <- (app_nil_r (enc_bytes (sign priv _))).
  rewrite dec_bytes_enc.
  rewrite <- (app_nil_r (enc_info _ _ _)) at 1.
  rewrite dec_info_enc. rewrite !app_nil_r. reflexivity.
Qed.

Lemma ReferenceRequest_laws : @RequestLaws Reference.lib ReferenceRequest.lib.
Proof.
  constructor.
  - intros r tpl priv der r' csr Hc Hp.
    destruct (ParseCertificateRequest_Create r tpl priv) as (Hc' & Hp').
    cbv zeta in Hc', Hp'.
    pose proof (eq_trans (eq_sym Hc') Hc) as E. inversion E; subst der r'.
    pose proof (eq_trans (eq_sym Hp') Hp) as E'. inversion E'; subst csr.
    repeat split.
    unfold certificate_csr.CheckSignature.
    cbn. unfold sign. rewrite bytes_eqb_refl. reflexivity.
  - intros r tpl priv _ _ _ _.
    destruct (ParseCertificateRequest_Create r tpl priv) as (Hc' & Hp').
    do 3 eexists. split; [exact Hc'|exact Hp'].
Qed.

End ReferenceRequestLemmas.

(** ** The further properties at concrete inputs *)

Lemma generated_serial_number_range_witness :
  exists cert key,
    fst Examples.root_run = Ok (cert, key)
    /\ 0 <= x509.SerialNumber cert < 2 ^ 128.
Proof.
  do 2 eexists. split; [vm_compute; reflexivity|].
  eapply (@generated_serial_number_range Reference.lib Reference_laws
           Examples.generator Reference.world (snd Examples.root_run)).
  left. vm_compute. reflexivity.
Defined.

Lemma GenerateRootCA_subject_witness :
  exists cert key,
    fst Examples.root_run = Ok (cert, key)
    /\ pkix.CommonName (x509.Subject cert) = "example.com"
    /\ x509.Issuer cert = x509.Subject cert.
Proof.
  do 2 eexists. split; [vm_compute; reflexivity|].
  destruct (@GenerateRootCA_subject Reference.lib Reference_laws
              Examples.generator Reference.world (snd Examples.root_run) _ _
              ltac:(vm_compute; reflexivity)) as (cfg & Hc & Hs & Hi & _).
  inversion Hc; subst cfg.
  split; [exact (f_equal pkix.CommonName Hs)|exact Hi].
Defined.

Lemma GenerateLeafCertificate_names_witness :
  exists caCert caKey cert key,
    fst Examples.root_run = Ok (caCert, caKey)
    /\ fst Examples.leaf_run = Ok (cert, key)
    /\ x509.Issuer cert = x509.Subject caCert
    /\ x509.DNSNames cert = ["example.com"]
    /\ x509.Subject cert = x509.Issuer cert.
Proof.
  do 4 eexists.
  split; [vm_compute; reflexivity|].
  split; [vm_compute; reflexivity|].
  destruct (@GenerateLeafCertificate_names Reference.lib Reference_laws
              Examples.generator Examples.generator
              Reference.example_config Reference.example_config
              Reference.world (snd Examples.root_run)
              (snd Examples.root_run) (snd Examples.leaf_run) _ _ _ _
              eq_refl eq_refl
              ltac:(vm_compute; reflexivity) ltac:(vm_compute; reflexivity))
    as (Hi & _ & Hd & _ & Hs).
  split; [exact Hi|]. split; [exact Hd|].
  apply Hs; reflexivity.
Defined.

Lemma generated_NotBefore_witness :
  exists cert key,
    fst Examples.root_run = Ok (cert, key)
    /\ x509.NotBefore cert = 1700000000 * time.Second
    /\ ticks (snd Examples.root_run) = 1%nat.
Proof.
  do 2 eexists. split; [vm_compute; reflexivity|].
  destruct (@generated_NotBefore Reference.lib Reference_laws
              Examples.generator Reference.world (snd Examples.root_run) _ _
              ltac:(left; vm_compute; reflexivity)) as (Hn & _ & Ht & _).
  split; [exact Hn|exact Ht].
Defined.

Lemma leaf_outlives_CA_witness :
  exists caCert caKey cert key,
    fst Examples.root_run = Ok (caCert, caKey)
    /\ fst Scenarios.long_lived_leaf_run = Ok (cert, key)
    /\ x509.NotAfter caCert < x509.NotAfter cert.
Proof.
  do 4 eexists.
  split; [vm_compute; reflexivity|].
  split; [vm_compute; reflexivity|].
  eapply (@leaf_outlives_CA Reference.lib Reference_laws
           Examples.generator (certificate.NewGenerator (Some Scenarios.long_lived_config))
           Scenarios.long_lived_config
           Reference.world (snd Examples.root_run)
           (snd Examples.root_run) (snd Scenarios.long_lived_leaf_run)).
  - reflexivity.
  - vm_compute. split; [reflexivity|discriminate].
  - vm_compute. discriminate.
  - vm_compute. reflexivity.
  - vm_compute. reflexivity.
Defined.

Lemma generators_fail_before_effects_witness :
  exists e,
    (e = "configuration is nil" \/ e = "key size must be at least 1024 bits")
    /\ @certificate.GeneratePrivateKey Reference.lib
         (certificate.NewGenerator (Some ReferenceRequest.small_key_config))
         Reference.world = (Err e, Reference.world)
    /\ @certificate.GenerateRootCA Reference.lib
         (certificate.NewGenerator (Some ReferenceRequest.small_key_config))
         Reference.world = (Err e, Reference.world)
    /\ @certificate.GenerateLeafCertificate Reference.lib
         (certificate.NewGenerator (Some ReferenceRequest.small_key_config))
         Examples.root_certificate None Reference.world
       = (Err e, Reference.world).
Proof.
  apply (@generators_fail_before_effects Reference.lib
           (certificate.NewGenerator (Some ReferenceRequest.small_key_config))
           Examples.root_certificate None Reference.world).
  right. exists ReferenceRequest.small_key_config. split; reflexivity.
Defined.

Lemma generator_errors_witness :
  exists e w',
    @certificate.GenerateRootCA Reference.lib
      (certificate.NewGenerator (Some ReferenceRequest.small_key_config))
      Reference.world = (Err e, w')
    /\ (e = "configuration is nil"
        \/ e = "key size must be at least 1024 bits"
        \/ exists cause,
             e = ("failed to generate private key: " ++ cause)%string
             \/ e = ("failed to generate serial number: " ++ cause)%string
             \/ e = ("failed to create root CA certificate: " ++ cause)%string
             \/ e = ("failed to parse root CA certificate: " ++ cause)%string
             \/ e = ("failed to create leaf certificate: " ++ cause)%string
             \/ e = ("failed to parse leaf certificate: " ++ cause)%string).
Proof.
  do 2 eexists. split; [reflexivity|].
  apply (@generator_errors Reference.lib
           (certificate.NewGenerator (Some ReferenceRequest.small_key_config))
           None None Reference.world Reference.world).
  left. reflexivity.
Defined.

Lemma ConvertPEMToDER_of_encoded_witness :
  exists pemData,
    @encoding.EncodePrivateKeyToPEM Reference.lib (Some (2048, 77)) = Ok pemData
    /\ @encoding.ConvertPEMToDER Reference.lib pemData
       = Ok (x30 :: Reference.enc_key (2048, 77)).
Proof.
  destruct (@ConvertPEMToDER_of_encoded Reference.lib Reference_laws) as (_ & H).
  exact (H (2048, 77) (x30 :: Reference.enc_key (2048, 77)) eq_refl).
Defined.

Lemma DecodePEMPrivateKey_outcomes_witness :
  @encoding.DecodePEMPrivateKey Reference.lib
    (Reference.EncodeToMemory
       {| pem.Type_ := "PRIVATE KEY"; pem.Headers := []; pem.Bytes := [x31] |})
  = Err "key is not an RSA private key"
  /\ @encoding.DecodePEMPrivateKey Reference.lib
       (Reference.EncodeToMemory
          {| pem.Type_ := "PRIVATE KEY"; pem.Headers := []; pem.Bytes := [] |})
     = Err "failed to parse private key: asn1: syntax error: sequence truncated".
Proof.
  split.
  - destruct (@DecodePEMPrivateKey_outcomes Reference.lib Reference_laws
                (Reference.EncodeToMemory
                   {| pem.Type_ := "PRIVATE KEY"; pem.Headers := [];
                      pem.Bytes := [x31] |})
                {| pem.Type_ := "PRIVATE KEY"; pem.Headers := []; pem.Bytes := [x31] |}
                ltac:(vm_compute; reflexivity)) as (_ & H & _).
    exact (H eq_refl).
  - destruct (@DecodePEMPrivateKey_outcomes Reference.lib Reference_laws
                (Reference.EncodeToMemory
                   {| pem.Type_ := "PRIVATE KEY"; pem.Headers := [];
                      pem.Bytes := [] |})
                {| pem.Type_ := "PRIVATE KEY"; pem.Headers := []; pem.Bytes := [] |}
                ltac:(vm_compute; reflexivity)) as (_ & _ & H & _).
    exact (H _ eq_refl).
Defined.

Lemma NewFileWriter_first_label_witness :
  fileio.NewFileWriter "example.com" = {| fileio.subdomain := "example" |}
  /\ fileio.NewFileWriter "example.com" = fileio.NewFileWriter "example.org.uk".
Proof.
  destruct (NewFileWriter_first_label "example" "com" "org.uk") as (_ & H1 & H2 & _).
  - cbn. intros H. repeat (destruct H as [H|H]; [discriminate H|]). exact H.
  - split; [exact H1|exact H2].
Defined.

Lemma GeneratePKCS12_success_witness :
  exists cert key certPEM keyPEM,
    Scenarios.leaf_certificate = Some cert /\ Scenarios.leaf_key = Some key
    /\ @encoding.EncodeCertificateToPEM Reference.lib (Some cert) = Ok certPEM
    /\ @encoding.EncodePrivateKeyToPEM Reference.lib (Some key) = Ok keyPEM
    /\ Scripted.written_modes (snd (Scenarios.bundle_run Scripted.all_succeed))
       = [("/tmp/certgen123/leaf.pem", fileio.mode_0644);
          ("/tmp/certgen123/leaf.key", fileio.mode_0600)].
Proof.
  destruct (@GeneratePKCS12_success Reference.lib Scripted.all_succeed
              Scenarios.leaf_certificate Examples.root_certificate Scenarios.leaf_key
              "yourPKCS12Password"
              (snd (Scenarios.bundle_run Scripted.all_succeed))
              (Scripted.content Scripted.all_succeed "/tmp/certgen123/bundle.p12")
              ltac:(vm_compute; reflexivity))
    as (cert & key & certPEM & keyPEM & H1 & H2 & H3 & H4 & _ & H6 & _).
  exists cert, key, certPEM, keyPEM.
  split; [exact H1|]. split; [exact H2|]. split; [exact H3|]. split; [exact H4|].
  rewrite H6. reflexivity.
Defined.

Lemma GeneratePKCS12_removes_temp_dir_witness :
  last (snd (Scenarios.bundle_run Scripted.disk_full)) (Scripted.LookPath "openssl")
  = Scripted.RemoveAll "/tmp/certgen123"
  /\ Scripted.removed (snd (Scenarios.bundle_run Scripted.disk_full))
     = ["/tmp/certgen123"].
Proof.
  destruct (@GeneratePKCS12_removes_temp_dir Reference.lib Scripted.disk_full
              Scenarios.leaf_certificate Examples.root_certificate Scenarios.leaf_key
              "yourPKCS12Password"
              (fst (Scenarios.bundle_run Scripted.disk_full))
              (snd (Scenarios.bundle_run Scripted.disk_full))
              eq_refl eq_refl
              ltac:(apply surjective_pairing)) as (H1 & H2 & _).
  split; [exact H1|exact H2].
Defined.

Lemma GeneratePKCS12_nil_inputs_witness :
  @pkcs12.GeneratePKCS12 Reference.lib (Scripted.fs Scripted.all_succeed)
    (Scripted.process Scripted.all_succeed) pkcs12.NewGenerator
    None Scenarios.leaf_key None "" []
  = (Err "failed to encode leaf cert: certificate is nil",
     [Scripted.LookPath "openssl"; Scripted.MkdirTemp "" "certgen";
      Scripted.RemoveAll "/tmp/certgen123"]).
Proof.
  destruct (@GeneratePKCS12_nil_inputs Reference.lib Scripted.all_succeed None ""
              eq_refl eq_refl) as (H & _).
  exact (H Scenarios.leaf_key).
Defined.

Lemma run_success_witness :
  fst (Scenarios.program_run Scripted.all_succeed) = Ok tt
  /\ Scripted.written_modes (snd (snd (Scenarios.program_run Scripted.all_succeed)))
     = [("example_rootCA.key", fileio.mode_0600);
        ("example_rootCA.pem", fileio.mode_0644);
        ("example_leaf.key", fileio.mode_0600);
        ("example_leaf.pem", fileio.mode_0644);
        ("/tmp/certgen123/leaf.pem", fileio.mode_0644);
        ("/tmp/certgen123/leaf.key", fileio.mode_0600);
        ("example_certs.p12", fileio.mode_0644);
        ("example_leaf_base64.txt", fileio.mode_0644);
        ("example_rootCA_base64.txt", fileio.mode_0644)]
  /\ Scripted.removed (snd (snd (Scenarios.program_run Scripted.all_succeed)))
     = ["/tmp/certgen123"].
Proof.
  assert (E : fst (Scenarios.program_run Scripted.all_succeed) = Ok tt)
    by (vm_compute; reflexivity).
  split; [exact E|].
  destruct (@run_success Reference.lib Scripted.all_succeed Reference.example_config
              Reference.world
              (fst (snd (Scenarios.program_run Scripted.all_succeed)))
              (snd (snd (Scenarios.program_run Scripted.all_succeed))))
    as (rootCert & rootKey & leafCert & leafKey & w1 & p1 & p2 & p3 & p4
        & _ & _ & _ & _ & _ & _ & Hw & Hr & _).
  - vm_compute. reflexivity.
  - split; [|exact Hr].
    unfold Scripted.written_modes. rewrite Hw. reflexivity.
Defined.

Lemma run_without_openssl_witness :
  exists trace,
    Scenarios.program_run Scripted.no_openssl
    = (Err ("failed to generate PKCS#12: openssl command not found in PATH: "
            ++ "exec: openssl: executable file not found in $PATH")%string,
       (snd Examples.leaf_run, trace))
    /\ map fst (Scripted.written_modes trace)
       = ["example_rootCA.key"; "example_rootCA.pem";
          "example_leaf.key"; "example_leaf.pem"]
    /\ Scripted.removed trace = [].
Proof.
  destruct (@run_without_openssl Reference.lib Scripted.no_openssl
              Reference.example_config Reference.world
              (snd Examples.root_run) (snd Examples.leaf_run)
              _ _ _ _ _ _
              "exec: openssl: executable file not found in $PATH"
              eq_refl (fun _ _ => eq_refl) (fun _ _ _ => eq_refl)
              ltac:(vm_compute; reflexivity) ltac:(vm_compute; reflexivity)
              ltac:(vm_compute; reflexivity) ltac:(vm_compute; reflexivity))
    as (rootCertPEM & leafCertPEM & trace & Hrun & _ & _ & Hw & Hr & _).
  exists trace. split; [exact Hrun|]. split; [|exact Hr].
  unfold Scripted.written_modes. rewrite Hw. reflexivity.
Defined.

Lemma run_confined_witness :
  Forall (Scripted.allowed Scripted.disk_full (fileio.NewFileWriter "example.com")
            "yourPKCS12Password")
    (snd (snd (Scenarios.program_run Scripted.disk_full))).
Proof.
  apply (@run_confined Reference.lib Scripted.disk_full Reference.example_config
           Reference.world
           (fst (snd (Scenarios.program_run Scripted.disk_full)))
           (fst (Scenarios.program_run Scripted.disk_full))
           (snd (snd (Scenarios.program_run Scripted.disk_full)))).
  vm_compute. reflexivity.
Defined.

Lemma WriteBase64File_outcomes_witness :
  @fileio_os.WriteBase64File (Scripted.fs Scripted.disk_full)
    (Scripted.process Scripted.disk_full) (fileio.NewFileWriter "example.com")
    "example_leaf_base64.txt" "Zm9v" []
  = (Some ("failed to write file example_leaf_base64.txt: no space left on device"),
     [Scripted.MkdirAll "." fileio.mode_0755;
      Scripted.WriteFile "example_leaf_base64.txt" (list_byte_of_string "Zm9v")
        fileio.mode_0644]).
Proof.
  destruct (WriteBase64File_outcomes Scripted.disk_full
              (fileio.NewFileWriter "example.com") "example_leaf_base64.txt" "Zm9v"
              _ _ eq_refl) as (_ & [[H _]|[(err & H & _)|(err & _ & _ & H1 & H2)]]).
  - discriminate H.
  - discriminate H.
  - reflexivity.
Defined.

Lemma main_gate_witness :
  fst (Scenarios.main_run Scripted.all_succeed) = certgen.Returned
  /\ Scenarios.program_run Scripted.all_succeed
     = (Ok tt, snd (Scenarios.main_run Scripted.all_succeed)).
Proof.
  assert (E : fst (Scenarios.main_run Scripted.all_succeed) = certgen.Returned)
    by (vm_compute; reflexivity).
  split; [exact E|].
  destruct (@main_gate Reference.lib Scripted.all_succeed false
              Reference.example_config Reference.world
              (fst (snd (Scenarios.main_run Scripted.all_succeed)))
              certgen.Returned
              (snd (snd (Scenarios.main_run Scripted.all_succeed)))
              ltac:(vm_compute; reflexivity)) as (_ & _ & _ & [H _] & _).
  destruct (H eq_refl) as (_ & Hrun).
  rewrite (surjective_pairing (snd (Scenarios.main_run Scripted.all_succeed))).
  exact Hrun.
Defined.

Lemma GenerateCertificateRequest_names_witness :
  exists csr,
    fst ReferenceRequest.request_run = Ok csr
    /\ pkix.CommonName (x509_csr.Subject csr) = "csr.example.com"
    /\ x509_csr.DNSNames csr = ["csr.example.com"]
    /\ @certificate_csr.CheckSignature Reference.lib csr = None.
Proof.
  eexists. split; [vm_compute; reflexivity|].
  destruct (@GenerateCertificateRequest_names Reference.lib ReferenceRequest.lib
              Reference_laws ReferenceRequest_laws
              (certificate.NewGenerator (Some ReferenceRequest.small_key_config))
              (2048, 77) Reference.world (snd ReferenceRequest.request_run) _
              ltac:(vm_compute; reflexivity))
    as (cfg & Hc & Hs & Hd & _ & Hsig & _).
  inversion Hc; subst cfg.
  split; [exact (f_equal pkix.CommonName Hs)|]. split; [exact Hd|exact Hsig].
Defined.

Lemma GenerateCertificateRequest_outcomes_witness :
  exists csr w',
    @certificate_csr.GenerateCertificateRequest Reference.lib ReferenceRequest.lib
      (certificate.NewGenerator (Some ReferenceRequest.small_key_config))
      (Some (2048, 77)) Reference.world = (Ok csr, w').
Proof.
  destruct (@GenerateCertificateRequest_outcomes Reference.lib ReferenceRequest.lib
              ReferenceRequest_laws ReferenceRequest.small_key_config (2048, 77)
              Reference.world) as (H & _).
  apply H; [reflexivity|vm_compute; discriminate|reflexivity].
Defined.
